(** * Bachelor House Meal Manager: the settlement engine of [script.js]

    A shallow embedding of the settlement computation of [src/script.js]
    (the [Member] class, [BachelorHouseMealManager], [getFilteredData],
    [getFilteredMembers] and the figures of [generatePDFReport] and
    [renderMembersTable]), together with the properties its specification
    states about it.

    Conventions of the embedding.
    - Currency amounts are JavaScript numbers; they are modelled as exact
      rationals [Q] and compared with [==].  Rounding of binary64
      arithmetic is not modelled, so an equation the specification states
      "within floating-point tolerance" is proved exactly.
    - Meal counts are integers ([Z]); the sums of meal counts stay integers.
    - A number that can be [NaN] (a field of an invalid [Date], the result
      of [Number] on a non-numeric string) is an [option Z] with [None]
      for [NaN].
    - The global variables of the script form the record [Globals]; code
      that reads them runs in the state monad [M], so that "this function
      does not write" is a theorem and not a convention.
    - The host (the browser) contributes its local time zone and its
      [Date] string parser; both are fields of the record [Host]. *)

From Stdlib Require Import ZArith QArith Qminmax Bool List String Ascii Lia.
Import ListNotations.
Open Scope Z_scope.

(** ** ECMAScript date arithmetic (ECMA-262, "Date Objects")

    Time values are integers: milliseconds since 1970-01-01T00:00:00Z. *)
Module ES.

Definition msPerDay : Z := 86400000.

Definition Day (t : Z) : Z := t / msPerDay.

Definition DaysInYear (y : Z) : Z :=
  if negb (y mod 4 =? 0) then 365
  else if negb (y mod 100 =? 0) then 366
  else if negb (y mod 400 =? 0) then 365
  else 366.

Definition DayFromYear (y : Z) : Z :=
  365 * (y - 1970) + (y - 1969) / 4 - (y - 1901) / 100 + (y - 1601) / 400.

Definition TimeFromYear (y : Z) : Z := msPerDay * DayFromYear y.

(** "The largest integer y such that TimeFromYear(y) <= t": one guess from
    the mean length of a year, corrected by at most one year either way
    (see [YearFromTime_spec]). *)
Definition YearFromTime (t : Z) : Z :=
  let d := Day t in
  let y := 1970 + (400 * d) / 146097 in
  if DayFromYear (y + 1) <=? d then y + 1
  else if DayFromYear y <=? d then y
  else y - 1.

Definition InLeapYear (t : Z) : Z :=
  if DaysInYear (YearFromTime t) =? 366 then 1 else 0.

Definition DayWithinYear (t : Z) : Z := Day t - DayFromYear (YearFromTime t).

Definition MonthFromTime (t : Z) : Z :=
  let d := DayWithinYear t in
  let leap := InLeapYear t in
  if d <? 31 then 0
  else if d <? 59 + leap then 1
  else if d <? 90 + leap then 2
  else if d <? 120 + leap then 3
  else if d <? 151 + leap then 4
  else if d <? 181 + leap then 5
  else if d <? 212 + leap then 6
  else if d <? 243 + leap then 7
  else if d <? 273 + leap then 8
  else if d <? 304 + leap then 9
  else if d <? 334 + leap then 10
  else 11.

(** Number of days before the first day of month [m] (0-based) in a year
    with [leap] extra days in February. *)
Definition DayFromMonth (m leap : Z) : Z :=
  match m with
  | 0 => 0 | 1 => 31 | 2 => 59 + leap | 3 => 90 + leap
  | 4 => 120 + leap | 5 => 151 + leap | 6 => 181 + leap
  | 7 => 212 + leap | 8 => 243 + leap | 9 => 273 + leap
  | 10 => 304 + leap | _ => 334 + leap
  end.

Definition DaysInMonth (m leap : Z) : Z :=
  match m with
  | 1 => 28 + leap
  | 3 | 5 | 8 | 10 => 30
  | _ => 31
  end.

(** MakeDay(year, month, date) for a month in [0, 11]. *)
Definition MakeDay (year month date : Z) : Z :=
  DayFromYear year + DayFromMonth month (DaysInYear year - 365) + date - 1.

(** MakeDate(day, 0): midnight of that day. *)
Definition MakeDate (day : Z) : Z := day * msPerDay.

(** *** Strings *)

(** [String.prototype.split] with a one-character separator. *)
Fixpoint split (sep : ascii) (s : string) : list string :=
  match s with
  | EmptyString => [EmptyString]
  | String c s' =>
      if Ascii.eqb c sep then EmptyString :: split sep s'
      else match split sep s' with
           | [] => [String c EmptyString]
           | w :: ws => String c w :: ws
           end
  end.

Definition digit_of (c : ascii) : option Z :=
  let n := Z.of_N (N_of_ascii c) in
  if (48 <=? n) && (n <=? 57) then Some (n - 48) else None.

Fixpoint digits_value (s : string) (acc : Z) : option Z :=
  match s with
  | EmptyString => Some acc
  | String c s' =>
      match digit_of c with
      | Some d => digits_value s' (10 * acc + d)
      | None => None
      end
  end.

(** [Number(s)] on the strings the month picker produces: a run of decimal
    digits is its value, the empty string is 0, and every other string is
    [NaN].  (The signed, fractional, exponent and hexadecimal literals that
    JavaScript also accepts are not modelled; they are mapped to [NaN].) *)
Definition Number (s : string) : option Z := digits_value s 0.

(** The date-only form [YYYY-MM-DD] of the ECMAScript date-time string
    format, which denotes midnight UTC of that day.  This is the format an
    [<input type="date">] yields and the only one the script stores. *)
Definition parse_date_only (s : string) : option Z :=
  match s with
  | String y1 (String y2 (String y3 (String y4 (String s1
      (String m1 (String m2 (String s2 (String d1 (String d2
        EmptyString))))))))) =>
      if Ascii.eqb s1 "-" && Ascii.eqb s2 "-" then
        match digits_value (String y1 (String y2 (String y3 (String y4 EmptyString)))) 0,
              digits_value (String m1 (String m2 EmptyString)) 0,
              digits_value (String d1 (String d2 EmptyString)) 0 with
        | Some y, Some m, Some d =>
            if (1 <=? m) && (m <=? 12) && (1 <=? d)
               && (d <=? DaysInMonth (m - 1) (DaysInYear y - 365))
            then Some (MakeDate (MakeDay y (m - 1) d))
            else None
        | _, _, _ => None
        end
      else None
  | _ => None
  end.

End ES.

(** ** What the date and month pickers yield

    The value of an [<input type="date">] is [YYYY-MM-DD] and that of an
    [<input type="month">] is [YYYY-MM], with the year on four digits and
    the month and the day on two. *)

Definition digit_char (k : Z) : ascii := ascii_of_N (Z.to_N (48 + k)).

Definition pad2 (n : Z) : string :=
  String (digit_char (n / 10)) (String (digit_char (n mod 10)) EmptyString).

Definition pad4 (n : Z) : string :=
  String (digit_char (n / 1000))
    (String (digit_char (n / 100 mod 10)) (pad2 (n mod 100))).

Definition month_string (y m : Z) : string :=
  (pad4 y ++ "-" ++ pad2 m)%string.

Definition date_string (y m d : Z) : string :=
  (pad4 y ++ "-" ++ pad2 m ++ "-" ++ pad2 d)%string.

(** A day of the calendar, in the years the pickers can show. *)
Definition valid_date (y m d : Z) : Prop :=
  0 <= y <= 9999 /\ 1 <= m <= 12 /\
  1 <= d <= ES.DaysInMonth (m - 1) (ES.DaysInYear y - 365).

(** ** The host *)

(** What the browser contributes to the computation: [LocalTZA], the offset
    of local time from UTC in milliseconds (positive east of Greenwich), and
    [Date_parse], the time value of a date string or [None] for an invalid
    date. *)
Record Host := {
  LocalTZA : Z;
  Date_parse : string -> option Z
}.

(** A host that understands exactly the date-only ISO form. *)
Definition iso_host (tza : Z) : Host :=
  {| LocalTZA := tza; Date_parse := ES.parse_date_only |}.

Definition hours (h : Z) : Z := h * 3600000.

(** ** Records of the store *)

(** A record of type ['member']. *)
Module MemberData.
Record t := {
  id : string;
  name : string;
  phone : option string;
  join_date : string;
  backendId : string
}.
End MemberData.

(** A record of type ['bill'] (built by [handleBillSubmit]). *)
Module Bill.
Record t := {
  id : string;
  title : string;
  bill_type : string;
  amount : Q;
  date : string;
  split_type : string;
  participants : string
}.
End Bill.

(** A record of type ['payment'] (built by [handlePaymentSubmit]). *)
Module Payment.
Record t := {
  id : string;
  member_id : string;
  amount : Q;
  date : string;
  payment_method : string;
  note : string
}.
End Payment.

(** A record of type ['meal_entry'] (built by [updateMealCountDirect]). *)
Module MealEntry.
Record t := {
  id : string;
  member_id : string;
  meal_date : string;
  meal_count : Z
}.
End MealEntry.

(** ** Global variables of the script *)

Record Globals := {
  members : list MemberData.t;
  bills : list Bill.t;
  payments : list Payment.t;
  mealEntries : list MealEntry.t;
  filterMonth : option string;     (* [null] or the value of the month picker *)
  searchQuery : string;
  currentDate : Z                  (* time value of the [Date] object *)
}.

Definition set_filterMonth (v : option string) (g : Globals) : Globals :=
  {| members := members g; bills := bills g; payments := payments g;
     mealEntries := mealEntries g; filterMonth := v;
     searchQuery := searchQuery g; currentDate := currentDate g |}.

Definition set_payments (v : list Payment.t) (g : Globals) : Globals :=
  {| members := members g; bills := bills g; payments := v;
     mealEntries := mealEntries g; filterMonth := filterMonth g;
     searchQuery := searchQuery g; currentDate := currentDate g |}.

Definition set_mealEntries (v : list MealEntry.t) (g : Globals) : Globals :=
  {| members := members g; bills := bills g; payments := payments g;
     mealEntries := v; filterMonth := filterMonth g;
     searchQuery := searchQuery g; currentDate := currentDate g |}.

(** ** The monad of the script: global state and one failure

    A computation reads and may write the globals.  Its one way to fail is
    a division by zero: JavaScript would produce an infinity or [NaN] there,
    which are not numbers of this model. *)

Definition M (A : Type) : Type := Globals -> option (A * Globals).

Definition ret {A} (a : A) : M A := fun g => Some (a, g).

Definition bind {A B} (c : M A) (f : A -> M B) : M B :=
  fun g => match c g with
           | Some (a, g') => f a g'
           | None => None
           end.

Definition gets {A} (f : Globals -> A) : M A := fun g => Some (f g, g).

Definition modify (f : Globals -> Globals) : M unit := fun g => Some (tt, f g).

Definition fail {A} : M A := fun _ => None.

(** [a / b] for an amount [a] and a count [b]. *)
Definition divide (a : Q) (b : Z) : M Q :=
  if b =? 0 then fail else ret (a / inject_Z b)%Q.

Declare Scope monad_scope.
Delimit Scope monad_scope with monad.
Notation "x <- c ;; k" := (bind c (fun x => k))
  (at level 61, c at next level, right associativity) : monad_scope.
Open Scope monad_scope.

(** [Array.prototype.reduce] and [Array.prototype.map] with a callback that
    runs in [M]. *)
Fixpoint reduceM {A B} (f : A -> B -> M A) (l : list B) (a : A) : M A :=
  match l with
  | [] => ret a
  | x :: l' => a' <- f a x ;; reduceM f l' a'
  end.

Fixpoint mapM {A B} (f : A -> M B) (l : list A) : M (list B) :=
  match l with
  | [] => ret []
  | x :: l' => y <- f x ;; ys <- mapM f l' ;; ret (y :: ys)
  end.

(** [Array.prototype.reduce] with a pure callback. *)
Definition reduce {A B} (f : A -> B -> A) (l : list B) (a : A) : A :=
  fold_left f l a.

(** [returns c g a]: run in [g], the computation [c] completes with the
    value [a] and leaves every global variable as it found it. *)
Definition returns {A} (c : M A) (g : Globals) (a : A) : Prop :=
  c g = Some (a, g).

(** A computation that always completes and never writes. *)
Definition frame {A} (c : M A) : Prop := forall g, exists a, returns c g a.

(** ** The engine *)

(** A [Date] object: its time value, or [None] for an invalid date. *)
Definition Date : Type := option Z.

(** [a === b] on numbers: [NaN] equals nothing. *)
Definition num_eq (a b : option Z) : bool :=
  match a, b with
  | Some x, Some y => x =? y
  | _, _ => false
  end.

(** [n - 1] on numbers. *)
Definition num_pred (n : option Z) : option Z := option_map (fun x => x - 1) n.

(** An instance of the class [Member]. *)
Module Member.
Record t := {
  id : string;
  name : string;
  phone : string;
  join_date : string;
  backendId : string;
  bills : list Bill.t;
  payments : list Payment.t;
  mealEntries : list MealEntry.t
}.
End Member.

(** A row of [settlementReport()]. *)
Record ReportRow := {
  name : string;
  join_date : string;
  total_paid : Q;
  total_bills : Q;
  total_due : Q;
  monthly_meals : Z
}.

(** The figures [generatePDFReport] computes before it lays out the page. *)
Record PdfFigures := {
  pdf_report : list ReportRow;
  pdf_totalExpense : Q;
  pdf_totalDeposits : Q;
  pdf_totalDue : Q;
  pdf_totalMeals : Z;
  pdf_mealRate : Q
}.

Inductive Status := paid | due.

(** The figures of one row of the members table ([renderMembersTable]). *)
Record TableRow := {
  row_monthlyMeals : Z;
  row_totalPaid : Q;
  row_totalBills : Q;
  row_totalDue : Q;
  row_status : Status
}.

(** [String.prototype.toLowerCase] on ASCII letters (other characters are
    left as they are). *)
Definition lower_ascii (c : ascii) : ascii :=
  let n := N_of_ascii c in
  if (65 <=? n)%N && (n <=? 90)%N then ascii_of_N (n + 32) else c.

Fixpoint toLowerCase (s : string) : string :=
  match s with
  | EmptyString => EmptyString
  | String c s' => String (lower_ascii c) (toLowerCase s')
  end.

(** [String.prototype.includes]. *)
Definition includes (s q : string) : bool :=
  match String.index 0 q s with
  | Some _ => true
  | None => false
  end.

(** Truthiness of a string. *)
Definition truthy (s : string) : bool :=
  match s with EmptyString => false | _ => true end.

Section Engine.

Variable host : Host.

Definition LocalTime (t : Z) : Z := t + LocalTZA host.

Definition new_Date (s : string) : Date := Date_parse host s.

Definition getFullYear (d : Date) : option Z :=
  option_map (fun t => ES.YearFromTime (LocalTime t)) d.

Definition getMonth (d : Date) : option Z :=
  option_map (fun t => ES.MonthFromTime (LocalTime t)) d.

(** [const \[year, month\] = filterMonth.split('-').map(Number)]: a missing
    second element is [undefined], and [undefined - 1] is [NaN]. *)
Definition year_month_of (fm : string) : option Z * option Z :=
  match map ES.Number (ES.split "-" fm) with
  | [] => (None, None)
  | [y] => (y, None)
  | y :: m :: _ => (y, m)
  end.

Definition in_month (year month : option Z) (s : string) : bool :=
  let d := new_Date s in
  num_eq (getFullYear d) year && num_eq (getMonth d) (num_pred month).

(** [getFilteredData()] *)
Definition getFilteredData
  : M (list Bill.t * list Payment.t * list MealEntry.t) :=
  bs <- gets bills ;;
  ps <- gets payments ;;
  es <- gets mealEntries ;;
  fm <- gets filterMonth ;;
  match fm with
  | Some s =>
      if truthy s then
        let (year, month) := year_month_of s in
        ret (filter (fun b => in_month year month (Bill.date b)) bs,
             filter (fun p => in_month year month (Payment.date p)) ps,
             filter (fun m => in_month year month (MealEntry.meal_date m)) es)
      else ret (bs, ps, es)
  | None => ret (bs, ps, es)
  end.

(** [getFilteredMembers()] *)
Definition getFilteredMembers : M (list MemberData.t) :=
  q <- gets searchQuery ;;
  ms <- gets members ;;
  if negb (truthy q) then ret ms
  else
    let query := toLowerCase q in
    ret (filter (fun m =>
           includes (toLowerCase (MemberData.name m)) query
           || match MemberData.phone m with
              | Some p => truthy p && includes p query
              | None => false
              end) ms).

(** [new Member(data, usedBills, usedPayments, usedMealEntries)]: an absent
    or [null] argument falls back to the global collection (an array, even
    an empty one, is truthy). *)
Definition new_Member (data : MemberData.t)
    (usedBills : option (list Bill.t))
    (usedPayments : option (list Payment.t))
    (usedMealEntries : option (list MealEntry.t)) : M Member.t :=
  bs <- match usedBills with Some l => ret l | None => gets bills end ;;
  ps <- match usedPayments with Some l => ret l | None => gets payments end ;;
  es <- match usedMealEntries with Some l => ret l | None => gets mealEntries end ;;
  ret {| Member.id := MemberData.id data;
         Member.name := MemberData.name data;
         Member.phone := match MemberData.phone data with
                         | Some p => if truthy p then p else EmptyString
                         | None => EmptyString
                         end;
         Member.join_date := MemberData.join_date data;
         Member.backendId := MemberData.backendId data;
         Member.bills := bs;
         Member.payments := ps;
         Member.mealEntries := es |}.

(** [Member.prototype.getMealCountForDate] *)
Definition getMealCountForDate (this : Member.t) (date : string) : M Z :=
  let meal := find (fun m => String.eqb (MealEntry.member_id m) (Member.id this)
                             && String.eqb (MealEntry.meal_date m) date)
                   (Member.mealEntries this) in
  ret (match meal with
       | Some m => MealEntry.meal_count m
       | None => 0
       end).

(** [Member.prototype.getMonthlyMealTotal] *)
Definition getMonthlyMealTotal (this : Member.t) : M Z :=
  cd <- gets currentDate ;;
  let year := getFullYear (Some cd) in
  let month := getMonth (Some cd) in
  ret (reduce (fun sum m => sum + MealEntry.meal_count m)
         (filter (fun m =>
            if negb (String.eqb (MealEntry.member_id m) (Member.id this))
            then false
            else let mealDate := new_Date (MealEntry.meal_date m) in
                 num_eq (getFullYear mealDate) year
                 && num_eq (getMonth mealDate) month)
            (Member.mealEntries this))
         0).

(** [Member.prototype.getTotalPaid] *)
Definition getTotalPaid (this : Member.t) : M Q :=
  let memberPayments :=
    filter (fun p => String.eqb (Payment.member_id p) (Member.id this))
           (Member.payments this) in
  ret (reduce (fun sum p => sum + Payment.amount p)%Q memberPayments 0%Q).

(** [Member.prototype.getTotalBills] *)
Definition getTotalBills (this : Member.t) : M Q :=
  let totalBillAmount :=
    reduce (fun sum b => sum + Bill.amount b)%Q (Member.bills this) 0%Q in
  ms <- gets members ;;
  totalMeals <- reduceM (fun sum m =>
                  memberObj <- new_Member m (Some (Member.bills this))
                                 (Some (Member.payments this))
                                 (Some (Member.mealEntries this)) ;;
                  n <- getMonthlyMealTotal memberObj ;;
                  ret (sum + n)) ms 0 ;;
  if totalMeals =? 0 then ret 0%Q
  else
    mealRate <- divide totalBillAmount totalMeals ;;
    n <- getMonthlyMealTotal this ;;
    ret (mealRate * inject_Z n)%Q.

(** [Member.prototype.getTotalDue] *)
Definition getTotalDue (this : Member.t) : M Q :=
  b <- getTotalBills this ;;
  p <- getTotalPaid this ;;
  ret (Qmax 0 (b - p)).

(** [BachelorHouseMealManager.totalExpense] *)
Definition totalExpense : M Q :=
  bs <- gets bills ;;
  ret (reduce (fun sum b => sum + Bill.amount b)%Q bs 0%Q).

(** [BachelorHouseMealManager.totalDeposits] *)
Definition totalDeposits : M Q :=
  ms <- gets members ;;
  memberObjects <- mapM (fun m => new_Member m None None None) ms ;;
  reduceM (fun sum m => p <- getTotalPaid m ;; ret (sum + p)%Q)
          memberObjects 0%Q.

(** [BachelorHouseMealManager.totalDue] *)
Definition totalDue : M Q :=
  ms <- gets members ;;
  memberObjects <- mapM (fun m => new_Member m None None None) ms ;;
  reduceM (fun sum m => d <- getTotalDue m ;; ret (sum + d)%Q)
          memberObjects 0%Q.

(** [BachelorHouseMealManager.settlementReport] *)
Definition settlementReport : M (list ReportRow) :=
  ms <- gets members ;;
  mapM (fun m =>
    memberObj <- new_Member m None None None ;;
    tp <- getTotalPaid memberObj ;;
    tb <- getTotalBills memberObj ;;
    td <- getTotalDue memberObj ;;
    mm <- getMonthlyMealTotal memberObj ;;
    ret {| name := MemberData.name m;
           join_date := MemberData.join_date m;
           total_paid := tp;
           total_bills := tb;
           total_due := td;
           monthly_meals := mm |}) ms.

(** The figures [generatePDFReport] computes once the PDF library is loaded,
    before it lays out the page. *)
Definition generatePDFReport : M PdfFigures :=
  report <- settlementReport ;;
  totalExpense' <- totalExpense ;;
  totalDeposits' <- totalDeposits ;;
  totalDue' <- totalDue ;;
  ms <- gets members ;;
  totalMeals <- reduceM (fun sum m =>
                  memberObj <- new_Member m None None None ;;
                  n <- getMonthlyMealTotal memberObj ;;
                  ret (sum + n)) ms 0 ;;
  mealRate <- (if 0 <? totalMeals then divide totalExpense' totalMeals
               else ret 0%Q) ;;
  ret {| pdf_report := report;
         pdf_totalExpense := totalExpense';
         pdf_totalDeposits := totalDeposits';
         pdf_totalDue := totalDue';
         pdf_totalMeals := totalMeals;
         pdf_mealRate := mealRate |}.

(** The figures of the rows of [renderMembersTable]: no row when there is no
    member, otherwise one row per member that passes the search, computed
    over the collections [getFilteredData] returns. *)
Definition renderMembersTable : M (list TableRow) :=
  ms <- gets members ;;
  if (List.length ms =? 0)%nat then ret []
  else
    f <- getFilteredData ;;
    let '(filteredBills, filteredPayments, filteredMealEntries) := f in
    displayMembers <- getFilteredMembers ;;
    memberObjects <- mapM (fun m => new_Member m (Some filteredBills)
                                      (Some filteredPayments)
                                      (Some filteredMealEntries))
                          displayMembers ;;
    mapM (fun memberObj =>
      totalPaid <- getTotalPaid memberObj ;;
      totalBills <- getTotalBills memberObj ;;
      totalDue' <- getTotalDue memberObj ;;
      monthlyMeals <- getMonthlyMealTotal memberObj ;;
      ret {| row_monthlyMeals := monthlyMeals;
             row_totalPaid := totalPaid;
             row_totalBills := totalBills;
             row_totalDue := totalDue';
             row_status := if Qlt_le_dec 0 totalDue' then due else paid |})
      memberObjects.

(** The two handlers of the dashboard month filter (without the redraw). *)
Definition onDashboardFilterChange (value : string) : M unit :=
  modify (set_filterMonth (Some value)).

Definition onClearFilter : M unit :=
  modify (set_filterMonth None).

End Engine.

(** ** Vocabulary of the statements

    The values the methods return, written as functions of the state; each
    is tied to its method by a lemma ([getMonthlyMealTotal_returns] and the
    like), and the statements below use the methods themselves. *)

Definition sumZ (l : list Z) : Z := fold_right Z.add 0 l.

Definition sumQ (l : list Q) : Q := fold_right Qplus 0%Q l.

Definition member_obj (data : MemberData.t) (bs : list Bill.t)
    (ps : list Payment.t) (es : list MealEntry.t) : Member.t :=
  {| Member.id := MemberData.id data;
     Member.name := MemberData.name data;
     Member.phone := match MemberData.phone data with
                     | Some p => if truthy p then p else EmptyString
                     | None => EmptyString
                     end;
     Member.join_date := MemberData.join_date data;
     Member.backendId := MemberData.backendId data;
     Member.bills := bs;
     Member.payments := ps;
     Member.mealEntries := es |}.


Definition or_else {A} (o : option A) (d : A) : A :=
  match o with Some a => a | None => d end.

Definition bill_total (bs : list Bill.t) : Q :=
  reduce (fun sum b => sum + Bill.amount b)%Q bs 0%Q.

Definition paid_of (id : string) (ps : list Payment.t) : Q :=
  reduce (fun sum p => sum + Payment.amount p)%Q
         (filter (fun p => String.eqb (Payment.member_id p) id) ps) 0%Q.

Section Vocabulary.

Variable host : Host.

(** The date string [s] lies in the month the cursor [cd] displays, as
    [getMonthlyMealTotal] tests it. *)
Definition in_displayed_month (cd : Z) (s : string) : bool :=
  num_eq (getFullYear host (new_Date host s)) (getFullYear host (Some cd))
  && num_eq (getMonth host (new_Date host s)) (getMonth host (Some cd)).

Definition counted (cd : Z) (id : string) (m : MealEntry.t) : bool :=
  if negb (String.eqb (MealEntry.member_id m) id) then false
  else in_displayed_month cd (MealEntry.meal_date m).

Definition monthly (cd : Z) (id : string) (es : list MealEntry.t) : Z :=
  reduce (fun sum m => sum + MealEntry.meal_count m)
         (filter (counted cd id) es) 0.

Definition house_meals (cd : Z) (ms : list MemberData.t)
    (es : list MealEntry.t) : Z :=
  fold_left (fun sum m => sum + monthly cd (MemberData.id m) es) ms 0.

Definition share (g : Globals) (this : Member.t) : Q :=
  let T := house_meals (currentDate g) (members g) (Member.mealEntries this) in
  if T =? 0 then 0%Q
  else (bill_total (Member.bills this) / inject_Z T
        * inject_Z (monthly (currentDate g) (Member.id this)
                            (Member.mealEntries this)))%Q.

Definition due_of (g : Globals) (this : Member.t) : Q :=
  Qmax 0 (share g this
          - paid_of (Member.id this) (Member.payments this)).

(** The instance [new Member(m)], over the global collections. *)
Definition global_obj (g : Globals) (m : MemberData.t) : Member.t :=
  member_obj m (bills g) (payments g) (mealEntries g).

Definition report_row (g : Globals) (m : MemberData.t) : ReportRow :=
  let o := global_obj g m in
  {| name := MemberData.name m;
     join_date := MemberData.join_date m;
     total_paid := paid_of (Member.id o) (Member.payments o);
     total_bills := share g o;
     total_due := due_of g o;
     monthly_meals := monthly (currentDate g) (Member.id o)
                              (Member.mealEntries o) |}.

Definition pdf_figures (g : Globals) : PdfFigures :=
  let T := house_meals (currentDate g) (members g) (mealEntries g) in
  {| pdf_report := map (report_row g) (members g);
     pdf_totalExpense := bill_total (bills g);
     pdf_totalDeposits :=
       fold_left (fun sum o => sum + paid_of (Member.id o) (Member.payments o))%Q
                 (map (global_obj g) (members g)) 0%Q;
     pdf_totalDue :=
       fold_left (fun sum o => sum + due_of g o)%Q
                 (map (global_obj g) (members g)) 0%Q;
     pdf_totalMeals := T;
     pdf_mealRate := if 0 <? T then (bill_total (bills g) / inject_Z T)%Q
                     else 0%Q |}.

End Vocabulary.

(** A state [g'] is the state [g] with one more payment, or one more meal
    entry, whose [member_id] is the id of no member. *)
Inductive adds_dangling_record (g g' : Globals) : Prop :=
| dangling_payment (p : Payment.t) (before after : list Payment.t) :
    payments g = before ++ after ->
    (forall m, In m (members g) -> MemberData.id m <> Payment.member_id p) ->
    g' = set_payments (before ++ p :: after) g ->
    adds_dangling_record g g'
| dangling_meal_entry (e : MealEntry.t) (before after : list MealEntry.t) :
    mealEntries g = before ++ after ->
    (forall m, In m (members g) -> MemberData.id m <> MealEntry.member_id e) ->
    g' = set_mealEntries (before ++ e :: after) g ->
    adds_dangling_record g g'.

(** The test of [getMealCountForDate]: an entry of member [id] for [date]. *)
Definition same_day (id date : string) (m : MealEntry.t) : bool :=
  String.eqb (MealEntry.member_id m) id && String.eqb (MealEntry.meal_date m) date.


(** ** Scenarios

    Concrete states on which the statements are exercised: a house in Dhaka
    (UTC+6) whose month cursor stands at 2024-03-15T12:00Z. *)

Definition dhaka : Host := iso_host (hours 6).

Definition mid_march_2024 : Z := 1710504000000.

Definition member (id name : string) : MemberData.t :=
  {| MemberData.id := id; MemberData.name := name;
     MemberData.phone := None; MemberData.join_date := "2024-01-01";
     MemberData.backendId := id |}.

Definition bill (id : string) (amount : Q) (date : string) : Bill.t :=
  {| Bill.id := id; Bill.title := "Market"; Bill.bill_type := "market";
     Bill.amount := amount; Bill.date := date; Bill.split_type := "equal";
     Bill.participants := "all" |}.

Definition payment (id member_id : string) (amount : Q) (date : string)
  : Payment.t :=
  {| Payment.id := id; Payment.member_id := member_id;
     Payment.amount := amount; Payment.date := date;
     Payment.payment_method := "cash"; Payment.note := "" |}.

Definition meal (member_id date : string) (count : Z) : MealEntry.t :=
  {| MealEntry.id := (date ++ "_" ++ member_id)%string;
     MealEntry.member_id := member_id;
     MealEntry.meal_date := date; MealEntry.meal_count := count |}.

Definition ten_days_of_march : list string :=
  ["2024-03-01"; "2024-03-02"; "2024-03-03"; "2024-03-04"; "2024-03-05";
   "2024-03-06"; "2024-03-07"; "2024-03-08"; "2024-03-09"; "2024-03-10"]%string.

Definition memberA : MemberData.t := member "A" "Member A".
Definition memberB : MemberData.t := member "B" "Member B".
Definition memberC : MemberData.t := member "C" "Member C".

(** Two members: A ate 30 meals in March and paid 600, B ate 20 and paid
    nothing; one bill of 1000. *)
Definition house_of_two : Globals :=
  {| members := [memberA; memberB];
     bills := [bill "b1" 1000 "2024-03-05"];
     payments := [payment "p1" "A" 600 "2024-03-20"];
     mealEntries := map (fun d => meal "A" d 3) ten_days_of_march
                    ++ map (fun d => meal "B" d 2) ten_days_of_march;
     filterMonth := None;
     searchQuery := "";
     currentDate := mid_march_2024 |}.

(** The same house with a third member who has no meal entry. *)
Definition house_of_three : Globals :=
  {| members := [memberA; memberB; memberC];
     bills := bills house_of_two;
     payments := payments house_of_two;
     mealEntries := mealEntries house_of_two;
     filterMonth := None;
     searchQuery := "";
     currentDate := mid_march_2024 |}.

(** One member, no meal entry, one bill of 500. *)
Definition house_without_meals : Globals :=
  {| members := [memberA];
     bills := [bill "b1" 500 "2024-03-05"];
     payments := [];
     mealEntries := [];
     filterMonth := None;
     searchQuery := "";
     currentDate := mid_march_2024 |}.

(** The house of two after a payment of a deleted member "Z" was left in
    the store. *)
Definition dangling_payment_of_Z : Payment.t :=
  payment "p9" "Z" 250 "2024-03-02".

Definition house_of_two_with_dangling_payment : Globals :=
  set_payments (dangling_payment_of_Z :: payments house_of_two) house_of_two.


(** A browser in New York (UTC-5), and a store whose records are all dated
    on the first of March 2024, with March 2024 selected in the dashboard. *)
Definition new_york : Host := iso_host (hours (-5)).

Definition first_of_march_store : Globals :=
  {| members := [memberA];
     bills := [bill "b1" 1000 "2024-03-01"];
     payments := [payment "p1" "A" 600 "2024-03-01"];
     mealEntries := [meal "A" "2024-03-01" 3];
     filterMonth := Some "2024-03"%string;
     searchQuery := "";
     currentDate := mid_march_2024 |}.

(** ** The views of the settlement and of the payments *)

(** The figures of one row of [renderSettlement]. *)
Record SettlementRow := {
  settled : ReportRow;
  status : Status;
  advancePayment : Q
}.

Section Views.

Variable host : Host.

(** The rows of [renderSettlement]: none when there is no member, otherwise
    one per row of the settlement report, with its status and its advance
    payment. *)
Definition renderSettlement : M (list SettlementRow) :=
  ms <- gets members ;;
  if (List.length ms =? 0)%nat then ret []
  else
    report <- settlementReport host ;;
    ret (map (fun member =>
           let status := if Qlt_le_dec 0 (total_due member) then due else paid in
           let advancePayment := (total_paid member - total_bills member)%Q in
           {| settled := member; status := status;
              advancePayment := advancePayment |}) report).

End Views.

(** The member column of [renderPayments]: for each payment, the name of
    the first member with the payment's [member_id], or ['Unknown']. *)
Definition renderPayments : M (list (Payment.t * string)) :=
  ps <- gets payments ;;
  if (List.length ps =? 0)%nat then ret []
  else
    ms <- gets members ;;
    ret (map (fun payment =>
           let member := find (fun m => String.eqb (MemberData.id m)
                                          (Payment.member_id payment)) ms in
           let memberName := match member with
                             | Some m => MemberData.name m
                             | None => "Unknown"%string
                             end in
           (payment, memberName)) ps).

(** The figures of the row of the members table for member [m], over the
    collections [bs], [ps] and [es] ([renderMembersTable_returns]). *)
Definition table_row (host : Host) (g : Globals) (bs : list Bill.t)
    (ps : list Payment.t) (es : list MealEntry.t) (m : MemberData.t)
  : TableRow :=
  let o := member_obj m bs ps es in
  {| row_monthlyMeals := monthly host (currentDate g) (Member.id o) es;
     row_totalPaid := paid_of (Member.id o) ps;
     row_totalBills := share host g o;
     row_totalDue := due_of host g o;
     row_status := if Qlt_le_dec 0 (due_of host g o) then due else paid |}.

(** ** Month navigation

    [Date.prototype.setMonth] of ECMA-262, for a host whose offset from UTC
    is constant, and the two buttons that move the month cursor.  (TimeClip
    is left out: the cursor stays far inside the range of time values.) *)
Module DateObject.

Definition DateFromTime (t : Z) : Z :=
  ES.DayWithinYear t - ES.DayFromMonth (ES.MonthFromTime t) (ES.InLeapYear t) + 1.

Definition TimeWithinDay (t : Z) : Z := t mod ES.msPerDay.

(** MakeDay(year, month, date) for any integer month: the months beyond
    December, or before January, are months of the years after, or before. *)
Definition MakeDay (year month date : Z) : Z :=
  ES.MakeDay (year + month / 12) (month mod 12) date.

(** MakeDate(day, time) *)
Definition MakeDate (day time : Z) : Z := day * ES.msPerDay + time.

Section Local.

Variable host : Host.

(** UTC(t) *)
Definition UTC (t : Z) : Z := t - LocalTZA host.

(** [d.setMonth(month)] on the date of time value [tv]: the new time value. *)
Definition setMonth (tv month : Z) : Z :=
  let t := LocalTime host tv in
  let newDate := MakeDate (MakeDay (ES.YearFromTime t) month (DateFromTime t))
                          (TimeWithinDay t) in
  UTC newDate.

End Local.

End DateObject.

Definition set_currentDate (v : Z) (g : Globals) : Globals :=
  {| members := members g; bills := bills g; payments := payments g;
     mealEntries := mealEntries g; filterMonth := filterMonth g;
     searchQuery := searchQuery g; currentDate := v |}.

Section MonthButtons.

Variable host : Host.

(** The handler of the [prev-month] button (without the redraw of the
    month label). *)
Definition onPrevMonth : M unit :=
  modify (fun g =>
    set_currentDate
      (DateObject.setMonth host (currentDate g)
         (ES.MonthFromTime (LocalTime host (currentDate g)) - 1)) g).

(** The handler of the [next-month] button. *)
Definition onNextMonth : M unit :=
  modify (fun g =>
    set_currentDate
      (DateObject.setMonth host (currentDate g)
         (ES.MonthFromTime (LocalTime host (currentDate g)) + 1)) g).

(** The number of days of the month after the one the cursor displays. *)
Definition next_month_length (cd : Z) : Z :=
  let t := LocalTime host cd in
  let m := ES.MonthFromTime t + 1 in
  ES.DaysInMonth (m mod 12) (ES.DaysInYear (ES.YearFromTime t + m / 12) - 365).

End MonthButtons.

(** The cursor on 2024-01-15 and on 2024-01-31, at noon UTC. *)
Definition mid_january_2024 : Z := 1705320000000.
Definition end_of_january_2024 : Z := 1706702400000.

(** ** The record store

    [allData] holds the records of all four types; [updateAllViews] splits
    it into the four global collections.  [JSON.stringify] followed by
    [JSON.parse] is taken to give back the records it was given. *)

(** An element of [allData]: a record with its [type] and [__backendId]. *)
Inductive StoredRecord :=
| member_record (m : MemberData.t)
| bill_record (backendId : string) (b : Bill.t)
| payment_record (backendId : string) (p : Payment.t)
| meal_entry_record (backendId : string) (e : MealEntry.t).

(** [record.__backendId] *)
Definition backendId_of (r : StoredRecord) : string :=
  match r with
  | member_record m => MemberData.backendId m
  | bill_record id _ | payment_record id _ | meal_entry_record id _ => id
  end.

(** [record.__backendId = id] *)
Definition with_backendId (id : string) (r : StoredRecord) : StoredRecord :=
  match r with
  | member_record m =>
      member_record {| MemberData.id := MemberData.id m;
                       MemberData.name := MemberData.name m;
                       MemberData.phone := MemberData.phone m;
                       MemberData.join_date := MemberData.join_date m;
                       MemberData.backendId := id |}
  | bill_record _ b => bill_record id b
  | payment_record _ p => payment_record id p
  | meal_entry_record _ e => meal_entry_record id e
  end.

(** [allData.filter(d => d.type === ...)], one per type. *)
Definition members_of (l : list StoredRecord) : list MemberData.t :=
  flat_map (fun d => match d with member_record m => [m] | _ => [] end) l.

Definition bills_of (l : list StoredRecord) : list Bill.t :=
  flat_map (fun d => match d with bill_record _ b => [b] | _ => [] end) l.

Definition payments_of (l : list StoredRecord) : list Payment.t :=
  flat_map (fun d => match d with payment_record _ p => [p] | _ => [] end) l.

Definition mealEntries_of (l : list StoredRecord) : list MealEntry.t :=
  flat_map (fun d => match d with meal_entry_record _ e => [e] | _ => [] end) l.

(** The script's state: [allData], the item of [localStorage] (absent, or
    the records last saved), the mode flag, the day of the meals page, and
    the globals of the engine. *)
Record App := {
  allData : list StoredRecord;
  storage : option (list StoredRecord);
  useLocalStorage : bool;
  selectedMealDate : string;
  globals : Globals
}.

Definition set_allData (v : list StoredRecord) (a : App) : App :=
  {| allData := v; storage := storage a;
     useLocalStorage := useLocalStorage a;
     selectedMealDate := selectedMealDate a; globals := globals a |}.

Definition set_storage (v : option (list StoredRecord)) (a : App) : App :=
  {| allData := allData a; storage := v;
     useLocalStorage := useLocalStorage a;
     selectedMealDate := selectedMealDate a; globals := globals a |}.

Definition set_globals (v : Globals) (a : App) : App :=
  {| allData := allData a; storage := storage a;
     useLocalStorage := useLocalStorage a;
     selectedMealDate := selectedMealDate a; globals := v |}.

(** What one call draws from outside the script: the id made of
    [Date.now()] and [Math.random()], [Date.now().toString()], whether
    [localStorage.setItem] succeeds, and, when [window.dataSdk] exists, the
    [isOk] of its answer. *)
Record Outside := {
  fresh_backendId : string;
  now : string;
  setItem_succeeds : bool;
  dataSdk : option bool
}.

(** [LocalStorage.save(allData)]: the item is replaced unless [setItem]
    throws; the caller gets [true] or [false]. *)
Definition LocalStorage_save (o : Outside) (a : App) : bool * App :=
  if setItem_succeeds o then (true, set_storage (Some (allData a)) a)
  else (false, a).

(** [LocalStorage.load()] *)
Definition LocalStorage_load (a : App) : list StoredRecord :=
  match storage a with
  | Some data => data
  | None => []
  end.

(** [updateAllViews()]: the four assignments (the redraws are left out). *)
Definition updateAllViews (a : App) : App :=
  let g := globals a in
  set_globals
    {| members := members_of (allData a);
       bills := bills_of (allData a);
       payments := payments_of (allData a);
       mealEntries := mealEntries_of (allData a);
       filterMonth := filterMonth g;
       searchQuery := searchQuery g;
       currentDate := currentDate g |} a.

(** [dataHandler.onDataChanged(data)] *)
Definition onDataChanged (data : list StoredRecord) (a : App) : App :=
  updateAllViews (set_allData data a).

(** The local-storage step of [initializeApp]. *)
Definition loadFromLocalStorage (a : App) : App :=
  if useLocalStorage a then updateAllViews (set_allData (LocalStorage_load a) a)
  else a.

(** [createRecord(record)]: the [isOk] of the result and the new state. *)
Definition createRecord (o : Outside) (record : StoredRecord) (a : App)
  : bool * App :=
  let record := if useLocalStorage a
                then with_backendId (fresh_backendId o) record else record in
  if useLocalStorage a then
    let a := set_allData (allData a ++ [record]) a in
    let a := snd (LocalStorage_save o a) in
    (true, updateAllViews a)
  else match dataSdk o with
       | Some isOk => (isOk, a)
       | None => (false, a)
       end.

(** [deleteRecord(record)] *)
Definition deleteRecord (o : Outside) (record : StoredRecord) (a : App)
  : bool * App :=
  if useLocalStorage a then
    let a := set_allData
               (filter (fun d => negb (String.eqb (backendId_of d)
                                                  (backendId_of record)))
                       (allData a)) a in
    let a := snd (LocalStorage_save o a) in
    (true, updateAllViews a)
  else match dataSdk o with
       | Some isOk => (isOk, a)
       | None => (false, a)
       end.

(** *** [parseInt]

    [parseInt(string)] without a radix, on strings of ASCII characters and
    for values that a JavaScript number holds exactly: leading white space
    is skipped, a sign is read, [0x] or [0X] selects radix 16, and the
    longest run of digits is the value; no digit at all gives [NaN]
    ([None]). *)
Module JS.

Definition is_white_space (c : ascii) : bool :=
  let n := N_of_ascii c in
  ((9 <=? n) && (n <=? 13) || (n =? 32))%N.

Fixpoint skip_white_space (s : string) : string :=
  match s with
  | String c s' => if is_white_space c then skip_white_space s' else s
  | EmptyString => s
  end.

Definition digit_in (radix : Z) (c : ascii) : option Z :=
  let n := Z.of_N (N_of_ascii c) in
  let v := if (48 <=? n) && (n <=? 57) then n - 48
           else if (97 <=? n) && (n <=? 122) then n - 87
           else if (65 <=? n) && (n <=? 90) then n - 55
           else radix in
  if v <? radix then Some v else None.

(** The value of the longest prefix of digits, given the value [acc] of the
    digits already read. *)
Fixpoint digits_prefix (radix : Z) (s : string) (acc : Z) : Z :=
  match s with
  | String c s' =>
      match digit_in radix c with
      | Some v => digits_prefix radix s' (radix * acc + v)
      | None => acc
      end
  | EmptyString => acc
  end.

Definition starts_with_digit (radix : Z) (s : string) : bool :=
  match s with
  | String c _ => match digit_in radix c with Some _ => true | None => false end
  | EmptyString => false
  end.

Definition parseInt (s : string) : option Z :=
  let s := skip_white_space s in
  let (sign, s) :=
    match s with
    | String "-" s' => (-1, s')
    | String "+" s' => (1, s')
    | _ => (1, s)
    end in
  let (radix, s) :=
    match s with
    | String "0" (String "x" s') => (16, s')
    | String "0" (String "X" s') => (16, s')
    | _ => (10, s)
    end in
  if starts_with_digit radix s then Some (sign * digits_prefix radix s 0)
  else None.

End JS.

(** [parseInt(newValue) || 0] *)
Definition parseInt_or_0 (newValue : string) : Z :=
  match JS.parseInt newValue with
  | Some n => n
  | None => 0
  end.

(** The record of the first meal entry of [allData] for a member and a day:
    the object that [mealEntries.find(...)] returns, since [mealEntries]
    holds the meal entries of [allData] in their order. *)
Definition is_meal_record_for (memberId date : string) (d : StoredRecord)
  : bool :=
  match d with
  | meal_entry_record _ e => same_day memberId date e
  | _ => false
  end.

Definition with_meal_count (count : Z) (e : MealEntry.t) : MealEntry.t :=
  {| MealEntry.id := MealEntry.id e;
     MealEntry.member_id := MealEntry.member_id e;
     MealEntry.meal_date := MealEntry.meal_date e;
     MealEntry.meal_count := count |}.

(** [existingMeal.meal_count = count], seen from [allData]: the first meal
    entry for the member and the day is the object that changes. *)
Fixpoint assign_meal_count (memberId date : string) (count : Z)
    (l : list StoredRecord) : list StoredRecord :=
  match l with
  | [] => []
  | d :: l' =>
      match d with
      | meal_entry_record id e =>
          if same_day memberId date e
          then meal_entry_record id (with_meal_count count e) :: l'
          else d :: assign_meal_count memberId date count l'
      | _ => d :: assign_meal_count memberId date count l'
      end
  end.

(** The same assignment seen from the [mealEntries] view. *)
Fixpoint assign_meal_count_in_view (memberId date : string) (count : Z)
    (l : list MealEntry.t) : list MealEntry.t :=
  match l with
  | [] => []
  | e :: l' =>
      if same_day memberId date e then with_meal_count count e :: l'
      else e :: assign_meal_count_in_view memberId date count l'
  end.

Definition set_mealEntries_view (a : App) (es : list MealEntry.t) : App :=
  set_globals (set_mealEntries es (globals a)) a.

(** [updateMealCountDirect(memberId, newValue)] *)
Definition updateMealCountDirect (o : Outside) (memberId newValue : string)
    (a : App) : App :=
  let count := parseInt_or_0 newValue in
  if count <? 0 then a
  else
    let existingMeal :=
      find (is_meal_record_for memberId (selectedMealDate a)) (allData a) in
    match existingMeal with
    | Some existing =>
        if count =? 0 then snd (deleteRecord o existing a)
        else
          let a := set_mealEntries_view
                     (set_allData
                        (assign_meal_count memberId (selectedMealDate a) count
                                           (allData a)) a)
                     (assign_meal_count_in_view memberId (selectedMealDate a)
                        count (mealEntries (globals a))) in
          let isOk := if useLocalStorage a then true
                      else match dataSdk o with
                           | Some isOk => isOk
                           | None => false
                           end in
          if useLocalStorage a && isOk
          then updateAllViews (snd (LocalStorage_save o a))
          else a
    | None =>
        if 0 <? count then
          let newMeal :=
            meal_entry_record EmptyString
              {| MealEntry.id := (now o ++ "_" ++ memberId)%string;
                 MealEntry.member_id := memberId;
                 MealEntry.meal_date := selectedMealDate a;
                 MealEntry.meal_count := count |} in
          snd (createRecord o newMeal a)
        else a
    end.

(** [handleMemberSubmit]: the limit of 999 records, then [createRecord] of
    the member typed into the form.  The result is the [isOk] of
    [createRecord], or [None] when the limit refused the submission. *)
Definition handleMemberSubmit (o : Outside) (name phone joinDate : string)
    (a : App) : option bool * App :=
  if (999 <=? List.length (allData a))%nat then (None, a)
  else
    let newMember :=
      member_record {| MemberData.id := now o;
                       MemberData.name := name;
                       MemberData.phone := Some phone;
                       MemberData.join_date := joinDate;
                       MemberData.backendId := EmptyString |} in
    let (isOk, a) := createRecord o newMember a in
    (Some isOk, a).

(** [confirmDeleteMember(backendId)] *)
Definition confirmDeleteMember (o : Outside) (backendId : string) (a : App)
  : App :=
  match find (fun m => String.eqb (MemberData.backendId m) backendId)
             (members (globals a)) with
  | None => a
  | Some member => snd (deleteRecord o (member_record member) a)
  end.

(** The views are those of [allData]. *)
Definition synced (a : App) : Prop :=
  members (globals a) = members_of (allData a) /\
  bills (globals a) = bills_of (allData a) /\
  payments (globals a) = payments_of (allData a) /\
  mealEntries (globals a) = mealEntries_of (allData a).

(** At most one meal entry per member and day. *)
Definition one_entry_per_day (es : list MealEntry.t) : Prop :=
  forall memberId date,
    (List.length (filter (same_day memberId date) es) <= 1)%nat.

(** A browser whose storage works, and one whose storage is full. *)
Definition storage_works : Outside :=
  {| fresh_backendId := "local_1710504000000_k3x9"; now := "1710504000000";
     setItem_succeeds := true; dataSdk := None |}.

Definition storage_full : Outside :=
  {| fresh_backendId := "local_1710504000000_k3x9"; now := "1710504000000";
     setItem_succeeds := false; dataSdk := None |}.

(** The house of two as the script holds it in local-storage mode, the
    meals page standing on 2024-03-05. *)
Definition house_of_two_store : list StoredRecord :=
  [member_record memberA; member_record memberB;
   bill_record "local_b1" (bill "b1" 1000 "2024-03-05");
   payment_record "local_p1" (payment "p1" "A" 600 "2024-03-20")]
  ++ map (fun d => meal_entry_record ("local_A_" ++ d) (meal "A" d 3))
         ten_days_of_march
  ++ map (fun d => meal_entry_record ("local_B_" ++ d) (meal "B" d 2))
         ten_days_of_march.

Definition house_of_two_app : App :=
  {| allData := house_of_two_store;
     storage := Some house_of_two_store;
     useLocalStorage := true;
     selectedMealDate := "2024-03-05";
     globals := house_of_two |}.

(** The state after [allData] was replaced in local-storage mode: the item
    is saved if the browser allows it, and the views are recomputed. *)
Definition after_local_change (o : Outside) (l : list StoredRecord) (a : App)
  : App :=
  {| allData := l;
     storage := if setItem_succeeds o then Some l else storage a;
     useLocalStorage := useLocalStorage a;
     selectedMealDate := selectedMealDate a;
     globals := {| members := members_of l; bills := bills_of l;
                   payments := payments_of l;
                   mealEntries := mealEntries_of l;
                   filterMonth := filterMonth (globals a);
                   searchQuery := searchQuery (globals a);
                   currentDate := currentDate (globals a) |} |}.

(** A small store: two members and their entries of 2024-03-05. *)
Definition small_store : list StoredRecord :=
  [member_record memberA; member_record memberB;
   meal_entry_record "local_e1" (meal "A" "2024-03-05" 3);
   meal_entry_record "local_e2" (meal "B" "2024-03-05" 2)].

Definition small_app : App :=
  {| allData := small_store;
     storage := Some small_store;
     useLocalStorage := true;
     selectedMealDate := "2024-03-05";
     globals := {| members := members_of small_store;
                   bills := bills_of small_store;
                   payments := payments_of small_store;
                   mealEntries := mealEntries_of small_store;
                   filterMonth := None;
                   searchQuery := "";
                   currentDate := mid_march_2024 |} |}.

(** A store that has reached the limit of 999 records. *)
Definition full_app : App :=
  {| allData := repeat (bill_record "local_b" (bill "b" 1 "2024-03-05")) 999;
     storage := None;
     useLocalStorage := true;
     selectedMealDate := "2024-03-05";
     globals := house_without_meals |}.

(** ** Further scenarios *)

(** The house of two with B's meals taken on ten later days: every entry is
    dated in March 2024, A's counts sum to 30 and B's to 20, but only A has
    an entry on the first of the month. *)
Definition ten_later_days_of_march : list string :=
  ["2024-03-11"; "2024-03-12"; "2024-03-13"; "2024-03-14"; "2024-03-15";
   "2024-03-16"; "2024-03-17"; "2024-03-18"; "2024-03-19"; "2024-03-20"]%string.

Definition house_of_two_staggered : Globals :=
  {| members := [memberA; memberB];
     bills := [bill "b1" 1000 "2024-03-05"];
     payments := [payment "p1" "A" 600 "2024-03-20"];
     mealEntries := map (fun d => meal "A" d 3) ten_days_of_march
                    ++ map (fun d => meal "B" d 2) ten_later_days_of_march;
     filterMonth := None;
     searchQuery := "";
     currentDate := mid_march_2024 |}.


(** A store with a bill, a payment and a meal entry in each of February and
    March 2024. *)
Definition two_months_store : Globals :=
  {| members := [memberA];
     bills := [bill "b1" 1000 "2024-03-05"; bill "b2" 400 "2024-02-10"];
     payments := [payment "p1" "A" 600 "2024-03-20";
                  payment "p2" "A" 400 "2024-02-12"];
     mealEntries := [meal "A" "2024-03-05" 3; meal "A" "2024-02-05" 2];
     filterMonth := None;
     searchQuery := "";
     currentDate := mid_march_2024 |}.

(** The house of two with three payments, two of them by B. *)
Definition house_with_three_payments : Globals :=
  set_payments [payment "p1" "A" 100 "2024-03-02";
                payment "p2" "B" 200 "2024-03-03";
                payment "p3" "B" 300 "2024-03-04"] house_of_two.

(** A host reads the date picker's strings as ECMA-262 prescribes for the
    date-only form: midnight UTC of the day.  Nothing is asked of what it
    makes of any other string. *)
Definition reads_date_only_as_UTC (h : Host) : Prop :=
  forall Y Mo D, valid_date Y Mo D ->
    Date_parse h (date_string Y Mo D)
    = Some (ES.MakeDate (ES.MakeDay Y (Mo - 1) D)).

(** A host at UTC+6 that accepts every string, reading what is not a valid
    date-only string as the epoch. *)
Definition lenient_dhaka : Host :=
  {| LocalTZA := hours 6;
     Date_parse := fun s => match ES.parse_date_only s with
                            | Some t => Some t
                            | None => Some 0
                            end |}.

(** * Properties *)

(** ** Sanity checks of the host model *)

Example parse_2024_03_01 :
  ES.parse_date_only "2024-03-01" = Some 1709251200000.
Proof. reflexivity. Qed.

Example parse_garbage : ES.parse_date_only "01/03/2024" = None.
Proof. reflexivity. Qed.

Example parse_feb_30 : ES.parse_date_only "2023-02-30" = None.
Proof. reflexivity. Qed.

Example year_month_of_leap_day :
  ES.YearFromTime 1709251199999 = 2024 /\ ES.MonthFromTime 1709251199999 = 1
  /\ ES.YearFromTime 1709251200000 = 2024 /\ ES.MonthFromTime 1709251200000 = 2.
Proof. repeat split; reflexivity. Qed.

Example year_before_epoch :
  ES.YearFromTime (-1) = 1969 /\ ES.MonthFromTime (-1) = 11.
Proof. split; reflexivity. Qed.

Example parse_known_days :
  ES.parse_date_only "1970-01-01" = Some 0
  /\ ES.parse_date_only "2000-02-29" = Some 951782400000
  /\ ES.parse_date_only "2100-01-01" = Some 4102444800000
  /\ ES.parse_date_only "0000-01-01" = Some (-62167219200000)
  /\ ES.parse_date_only "2100-02-29" = None.
Proof. repeat split; reflexivity. Qed.

Example local_month_of_first_of_march :
  getMonth dhaka (new_Date dhaka "2024-03-01") = Some 2
  /\ getMonth new_york (new_Date new_york "2024-03-01") = Some 1
  /\ getFullYear new_york (new_Date new_york "2024-01-01") = Some 2023.
Proof. repeat split; reflexivity. Qed.

Example cursor_is_in_march :
  getFullYear dhaka (Some mid_march_2024) = Some 2024
  /\ getMonth dhaka (Some mid_march_2024) = Some 2.
Proof. split; reflexivity. Qed.

Example split_month : ES.split "-" "2024-03" = ["2024"; "03"]%string.
Proof. reflexivity. Qed.


(** ** Reasoning about computations in [M] *)

Lemma returns_ret {A} (a : A) g : returns (ret a) g a.
Proof. reflexivity. Qed.

Lemma returns_gets {A} (f : Globals -> A) g : returns (gets f) g (f g).
Proof. reflexivity. Qed.

Lemma returns_bind {A B} (c : M A) (f : A -> M B) g a b :
  returns c g a -> returns (f a) g b -> returns (bind c f) g b.
Proof.
  unfold returns, bind. intros Hc Hf. now rewrite Hc.
Qed.

Lemma returns_inj {A} (c : M A) g a b :
  returns c g a -> returns c g b -> a = b.
Proof.
  unfold returns. intros Ha Hb. rewrite Ha in Hb. now inversion Hb.
Qed.

Lemma returns_reduceM {A B} (f : A -> B -> M A) (h : A -> B -> A) g :
  (forall a x, returns (f a x) g (h a x)) ->
  forall l a, returns (reduceM f l a) g (fold_left h l a).
Proof.
  intros Hf l. induction l as [|x l IH]; intros a; simpl.
  - apply returns_ret.
  - eapply returns_bind; [apply Hf | apply IH].
Qed.

Lemma returns_mapM {A B} (f : A -> M B) (h : A -> B) g :
  (forall x, returns (f x) g (h x)) ->
  forall l, returns (mapM f l) g (map h l).
Proof.
  intros Hf l. induction l as [|x l IH]; simpl.
  - apply returns_ret.
  - eapply returns_bind; [apply Hf |].
    eapply returns_bind; [apply IH | apply returns_ret].
Qed.


(** ** What each method returns *)

Section MethodResults.

Variable host : Host.

Lemma new_Member_returns data ub up ue g :
  returns (new_Member data ub up ue) g
    (member_obj data (or_else ub (bills g)) (or_else up (payments g))
                (or_else ue (mealEntries g))).
Proof. destruct ub, up, ue; reflexivity. Qed.

Lemma getMealCountForDate_returns this date g :
  returns (getMealCountForDate this date) g
    (match find (fun m => String.eqb (MealEntry.member_id m) (Member.id this)
                          && String.eqb (MealEntry.meal_date m) date)
                (Member.mealEntries this) with
     | Some m => MealEntry.meal_count m
     | None => 0
     end).
Proof. reflexivity. Qed.

Lemma getMonthlyMealTotal_returns this g :
  returns (getMonthlyMealTotal host this) g
    (monthly host (currentDate g) (Member.id this) (Member.mealEntries this)).
Proof. reflexivity. Qed.

Lemma getTotalPaid_returns this g :
  returns (getTotalPaid this) g
    (paid_of (Member.id this) (Member.payments this)).
Proof. reflexivity. Qed.

Lemma totalMeals_returns ub up ue g :
  returns
    (reduceM (fun sum m =>
       memberObj <- new_Member m ub up ue ;;
       n <- getMonthlyMealTotal host memberObj ;;
       ret (sum + n)) (members g) 0) g
    (house_meals host (currentDate g) (members g) (or_else ue (mealEntries g))).
Proof.
  unfold house_meals. apply returns_reduceM. intros a x.
  eapply returns_bind; [apply new_Member_returns |].
  eapply returns_bind; [apply getMonthlyMealTotal_returns |].
  apply returns_ret.
Qed.

Lemma getTotalBills_returns this g :
  returns (getTotalBills host this) g (share host g this).
Proof.
  unfold getTotalBills, share.
  eapply returns_bind; [apply returns_gets |].
  eapply returns_bind.
  - apply (totalMeals_returns (Some (Member.bills this))
             (Some (Member.payments this)) (Some (Member.mealEntries this))).
  - simpl or_else.
    destruct (house_meals host (currentDate g) (members g)
                (Member.mealEntries this) =? 0) eqn:E.
    + apply returns_ret.
    + eapply returns_bind.
      * unfold divide. rewrite E. apply returns_ret.
      * eapply returns_bind; [apply getMonthlyMealTotal_returns |].
        apply returns_ret.
Qed.

Lemma getTotalDue_returns this g :
  returns (getTotalDue host this) g (due_of host g this).
Proof.
  unfold getTotalDue.
  eapply returns_bind; [apply getTotalBills_returns |].
  eapply returns_bind; [apply getTotalPaid_returns |].
  apply returns_ret.
Qed.

Lemma totalExpense_returns g :
  returns totalExpense g (bill_total (bills g)).
Proof. reflexivity. Qed.

Lemma memberObjects_returns g :
  returns (mapM (fun m => new_Member m None None None) (members g)) g
          (map (global_obj g) (members g)).
Proof.
  apply returns_mapM. intros m. apply (new_Member_returns m None None None).
Qed.

Lemma totalDeposits_returns g :
  returns totalDeposits g
    (fold_left (fun sum o => sum + paid_of (Member.id o) (Member.payments o))%Q
               (map (global_obj g) (members g)) 0%Q).
Proof.
  unfold totalDeposits.
  eapply returns_bind; [apply returns_gets |].
  eapply returns_bind; [apply memberObjects_returns |].
  apply returns_reduceM. intros a o.
  eapply returns_bind; [apply getTotalPaid_returns | apply returns_ret].
Qed.

Lemma totalDue_returns g :
  returns (totalDue host) g
    (fold_left (fun sum o => sum + due_of host g o)%Q
               (map (global_obj g) (members g)) 0%Q).
Proof.
  unfold totalDue.
  eapply returns_bind; [apply returns_gets |].
  eapply returns_bind; [apply memberObjects_returns |].
  apply returns_reduceM. intros a o.
  eapply returns_bind; [apply getTotalDue_returns | apply returns_ret].
Qed.

Lemma settlementReport_returns g :
  returns (settlementReport host) g (map (report_row host g) (members g)).
Proof.
  unfold settlementReport.
  eapply returns_bind; [apply returns_gets |].
  apply returns_mapM. intros m.
  eapply returns_bind; [apply (new_Member_returns m None None None) |].
  eapply returns_bind; [apply getTotalPaid_returns |].
  eapply returns_bind; [apply getTotalBills_returns |].
  eapply returns_bind; [apply getTotalDue_returns |].
  eapply returns_bind; [apply getMonthlyMealTotal_returns |].
  apply returns_ret.
Qed.

Lemma generatePDFReport_returns g :
  returns (generatePDFReport host) g (pdf_figures host g).
Proof.
  unfold generatePDFReport.
  eapply returns_bind; [apply settlementReport_returns |].
  eapply returns_bind; [apply totalExpense_returns |].
  eapply returns_bind; [apply totalDeposits_returns |].
  eapply returns_bind; [apply totalDue_returns |].
  eapply returns_bind; [apply returns_gets |].
  eapply returns_bind; [apply (totalMeals_returns None None None) |].
  simpl or_else. unfold pdf_figures.
  destruct (0 <? house_meals host (currentDate g) (members g) (mealEntries g))
    eqn:E.
  - eapply returns_bind; [| apply returns_ret].
    unfold divide.
    assert (H : (house_meals host (currentDate g) (members g) (mealEntries g)
                 =? 0) = false) by (apply Z.eqb_neq; apply Z.ltb_lt in E; lia).
    rewrite H. apply returns_ret.
  - eapply returns_bind; apply returns_ret.
Qed.

End MethodResults.

(** ** Sums *)

Lemma fold_left_add_sumZ {A} (f : A -> Z) (l : list A) (a : Z) :
  fold_left (fun sum x => sum + f x) l a = a + sumZ (map f l).
Proof.
  revert a. induction l as [|x l IH]; intros a; simpl.
  - lia.
  - rewrite IH. lia.
Qed.

Lemma house_meals_sumZ host cd ms es :
  house_meals host cd ms es
  = sumZ (map (fun m => monthly host cd (MemberData.id m) es) ms).
Proof.
  unfold house_meals. now rewrite fold_left_add_sumZ.
Qed.

Lemma sumQ_scale {A} (c : Q) (f : A -> Z) (l : list A) :
  sumQ (map (fun x => c * inject_Z (f x))%Q l)
  == c * inject_Z (sumZ (map f l)).
Proof.
  induction l as [|x l IH]; simpl.
  - ring.
  - rewrite IH, inject_Z_plus. ring.
Qed.


(** ** The engine does not write (C8) *)

(** C8.  Every engine operation (getMealCountForDate, getMonthlyMealTotal,
    getTotalPaid, getTotalBills, getTotalDue, totalExpense, totalDeposits,
    totalDue, settlementReport), run in any state and on any [Member]
    instance, completes and leaves the members, bills, payments and
    meal-entry collections (and every other global variable) exactly as
    they were. *)
Theorem engine_operations_leave_the_state_unchanged
    (host : Host) (this : Member.t) (date : string) :
  frame (getMealCountForDate this date) /\
  frame (getMonthlyMealTotal host this) /\
  frame (getTotalPaid this) /\
  frame (getTotalBills host this) /\
  frame (getTotalDue host this) /\
  frame totalExpense /\
  frame totalDeposits /\
  frame (totalDue host) /\
  frame (settlementReport host).
Proof.
  repeat split; intros g; eexists.
  - apply getMealCountForDate_returns.
  - apply getMonthlyMealTotal_returns.
  - apply getTotalPaid_returns.
  - apply getTotalBills_returns.
  - apply getTotalDue_returns.
  - apply totalExpense_returns.
  - apply totalDeposits_returns.
  - apply totalDue_returns.
  - apply settlementReport_returns.
Qed.

(** ** The due is floored at zero (C3) *)

(** C3.  For every member instance and every state, getTotalDue() is
    max(0, getTotalBills() - getTotalPaid()), and it is never negative. *)
Theorem getTotalDue_is_the_floored_difference
    (host : Host) (g : Globals) (this : Member.t) :
  exists b p d,
    returns (getTotalBills host this) g b /\
    returns (getTotalPaid this) g p /\
    returns (getTotalDue host this) g d /\
    d = Qmax 0 (b - p) /\ (0 <= d)%Q.
Proof.
  exists (share host g this),
         (paid_of (Member.id this) (Member.payments this)),
         (due_of host g this).
  split; [apply getTotalBills_returns |].
  split; [apply getTotalPaid_returns |].
  split; [apply getTotalDue_returns |].
  split; [reflexivity |].
  unfold due_of. apply Q.le_max_l.
Qed.

(** ** A member without meals has no share (C7) *)

(** C7.  If a member's getMonthlyMealTotal() is 0, the member's
    getTotalBills() is the number zero, whatever the bills and whatever the
    other members ate. *)
Theorem member_without_meals_has_no_share
    (host : Host) (g : Globals) (this : Member.t) :
  returns (getMonthlyMealTotal host this) g 0 ->
  exists q, returns (getTotalBills host this) g q /\ q == 0.
Proof.
  intros H. exists (share host g this).
  split; [apply getTotalBills_returns |].
  pose proof (returns_inj _ _ _ _ H (getMonthlyMealTotal_returns host this g))
    as E.
  unfold share.
  destruct (house_meals host (currentDate g) (members g)
              (Member.mealEntries this) =? 0).
  - reflexivity.
  - rewrite <- E. unfold inject_Z. ring.
Qed.

Lemma member_without_meals_has_no_share_witness :
  returns (getMonthlyMealTotal dhaka (global_obj house_of_three memberC))
          house_of_three 0
  /\ exists q,
       returns (getTotalBills dhaka (global_obj house_of_three memberC))
               house_of_three q
       /\ q == 0.
Proof.
  split; [reflexivity |].
  apply (member_without_meals_has_no_share dhaka house_of_three
           (global_obj house_of_three memberC)).
  reflexivity.
Defined.

(** ** No meals at all: no rate, no share, no division (C2) *)

(** C2.  In every state the report figures are produced; and when the meal
    count of the month summed over all members is 0, the meal rate is 0 and
    getTotalBills() returns 0 for every member, whatever bills the instance
    was given.  Both complete: no division by zero is attempted. *)
Theorem no_meals_no_rate_no_share (host : Host) (g : Globals) :
  exists figs,
    returns (generatePDFReport host) g figs /\
    (pdf_totalMeals figs = 0 ->
     pdf_mealRate figs = 0%Q /\
     Forall (fun r => total_bills r = 0%Q) (pdf_report figs) /\
     forall m usedBills usedPayments,
       exists obj,
         returns (new_Member m usedBills usedPayments None) g obj /\
         returns (getTotalBills host obj) g 0%Q).
Proof.
  exists (pdf_figures host g).
  split; [apply generatePDFReport_returns |].
  simpl. intros T0. split; [now rewrite T0 | split].
  - apply Forall_forall. intros r Hr.
    apply in_map_iff in Hr as (m & <- & _).
    simpl. unfold share. simpl. now rewrite T0.
  - intros m ub up. eexists. split; [apply new_Member_returns |].
    pose proof (getTotalBills_returns host
      (member_obj m (or_else ub (bills g)) (or_else up (payments g))
                  (or_else None (mealEntries g))) g) as H.
    unfold share in H. simpl in H. rewrite T0 in H. exact H.
Qed.

Lemma no_meals_no_rate_no_share_witness :
  exists figs,
    returns (generatePDFReport dhaka) house_without_meals figs /\
    pdf_totalMeals figs = 0 /\
    pdf_mealRate figs = 0%Q /\
    Forall (fun r => total_bills r = 0%Q) (pdf_report figs).
Proof.
  destruct (no_meals_no_rate_no_share dhaka house_without_meals)
    as (figs & Hf & H).
  exists figs.
  assert (T0 : pdf_totalMeals figs = 0).
  { pose proof (returns_inj _ _ _ _ Hf
                  (generatePDFReport_returns dhaka house_without_meals)) as E.
    rewrite E. reflexivity. }
  destruct (H T0) as (Hrate & Hrows & _).
  repeat split; assumption.
Defined.

(** ** The shares add up to the bills (C1) *)

(** C1.  In every state the settlement report and the total expense are
    produced; and when the meal count of the month summed over all members
    is greater than 0, the sum of getTotalBills() over all members equals
    the sum of the amounts of all bills: nothing is left over and nothing is
    counted twice.  (Numbers are exact rationals here, so the equation is
    exact; the tolerance of the specification covers binary64 rounding.) *)
Theorem shares_add_up_to_the_bills (host : Host) (g : Globals) :
  exists rows A,
    returns (settlementReport host) g rows /\
    returns totalExpense g A /\
    (0 < sumZ (map monthly_meals rows) ->
     sumQ (map total_bills rows) == A).
Proof.
  exists (map (report_row host g) (members g)), (bill_total (bills g)).
  split; [apply settlementReport_returns |].
  split; [apply totalExpense_returns |].
  rewrite !map_map. simpl.
  rewrite <- house_meals_sumZ. intros HT.
  unfold share. simpl.
  set (T := house_meals host (currentDate g) (members g) (mealEntries g)) in *.
  assert (E : (T =? 0) = false) by (apply Z.eqb_neq; lia).
  rewrite E.
  rewrite (sumQ_scale (bill_total (bills g) / inject_Z T)
             (fun m => monthly host (currentDate g) (MemberData.id m)
                               (mealEntries g))).
  rewrite <- house_meals_sumZ. fold T.
  field. intros H0.
  unfold Qeq in H0. simpl in H0. lia.
Qed.

Lemma shares_add_up_to_the_bills_witness :
  exists rows A,
    returns (settlementReport dhaka) house_of_three rows /\
    returns totalExpense house_of_three A /\
    0 < sumZ (map monthly_meals rows) /\
    sumQ (map total_bills rows) == A.
Proof.
  destruct (shares_add_up_to_the_bills dhaka house_of_three)
    as (rows & A & Hr & HA & H).
  exists rows, A.
  assert (T : 0 < sumZ (map monthly_meals rows)).
  { pose proof (returns_inj _ _ _ _ Hr
                  (settlementReport_returns dhaka house_of_three)) as E.
    rewrite E. reflexivity. }
  repeat split; try assumption. exact (H T).
Defined.

(** ** The worked scenario (C4) *)

Lemma Qmax_floor_zero (x : Q) : (x <= 0)%Q -> Qmax 0 x == 0.
Proof. intros H. now apply Q.max_l. Qed.

Lemma Qmax_floor_pos (x : Q) : (0 <= x)%Q -> Qmax 0 x == x.
Proof. intros H. now apply Q.max_r. Qed.

(** The arithmetic of the scenario, from the monthly totals the engine
    computes: two members A and B for whom getMonthlyMealTotal() returns 30
    and 20, one bill of 1000, payments of 600 by A and of 0 by B; the meal
    rate (the mealRate of generatePDFReport) is 1000/50 = 20,
    getTotalBills() is 600 for A and 400 for B, and getTotalDue() is 0 for
    A and 400 for B. *)
Lemma two_member_scenario
    (host : Host) (g : Globals) (A B : MemberData.t) (b : Bill.t)
    (objA objB : Member.t) (paidA paidB : Q) :
  members g = [A; B] ->
  bills g = [b] ->
  Bill.amount b == 1000 ->
  returns (new_Member A None None None) g objA ->
  returns (new_Member B None None None) g objB ->
  returns (getMonthlyMealTotal host objA) g 30 ->
  returns (getMonthlyMealTotal host objB) g 20 ->
  returns (getTotalPaid objA) g paidA -> paidA == 600 ->
  returns (getTotalPaid objB) g paidB -> paidB == 0 ->
  exists figs billsA billsB dueA dueB,
    returns (generatePDFReport host) g figs /\ pdf_mealRate figs == 20 /\
    returns (getTotalBills host objA) g billsA /\ billsA == 600 /\
    returns (getTotalBills host objB) g billsB /\ billsB == 400 /\
    returns (getTotalDue host objA) g dueA /\ dueA == 0 /\
    returns (getTotalDue host objB) g dueB /\ dueB == 400.
Proof.
  intros Hm Hb Hamt HoA HoB HmA HmB HpA HqA HpB HqB.
  pose proof (returns_inj _ _ _ _ HoA (new_Member_returns A None None None g))
    as EA.
  pose proof (returns_inj _ _ _ _ HoB (new_Member_returns B None None None g))
    as EB.
  simpl in EA, EB.
  pose proof (returns_inj _ _ _ _ HmA (getMonthlyMealTotal_returns host objA g))
    as MA.
  pose proof (returns_inj _ _ _ _ HmB (getMonthlyMealTotal_returns host objB g))
    as MB.
  pose proof (returns_inj _ _ _ _ HpA (getTotalPaid_returns objA g)) as PA.
  pose proof (returns_inj _ _ _ _ HpB (getTotalPaid_returns objB g)) as PB.
  assert (T : house_meals host (currentDate g) (members g) (mealEntries g) = 50).
  { unfold house_meals. rewrite Hm. simpl.
    rewrite EA in MA. rewrite EB in MB. simpl in MA, MB.
    rewrite <- MA, <- MB. reflexivity. }
  assert (Tot : bill_total (bills g) == 1000).
  { rewrite Hb. unfold bill_total, reduce. simpl. rewrite Hamt. reflexivity. }
  assert (SA : share host g objA == 600).
  { unfold share. rewrite <- MA. rewrite EA. simpl. rewrite T. simpl.
    rewrite Tot. reflexivity. }
  assert (SB : share host g objB == 400).
  { unfold share. rewrite <- MB. rewrite EB. simpl. rewrite T. simpl.
    rewrite Tot. reflexivity. }
  exists (pdf_figures host g), (share host g objA), (share host g objB),
         (due_of host g objA), (due_of host g objB).
  split; [apply generatePDFReport_returns |].
  split; [simpl; rewrite T; simpl; rewrite Tot; reflexivity |].
  split; [apply getTotalBills_returns |].
  split; [exact SA |].
  split; [apply getTotalBills_returns |].
  split; [exact SB |].
  split; [apply getTotalDue_returns |].
  split.
  { unfold due_of. rewrite <- PA. apply Qmax_floor_zero.
    rewrite SA, HqA. discriminate. }
  split; [apply getTotalDue_returns |].
  unfold due_of. rewrite <- PB. rewrite Qmax_floor_pos.
  - rewrite SB, HqB. reflexivity.
  - rewrite SB, HqB. discriminate.
Qed.

Lemma two_member_scenario_witness :
  exists figs billsA billsB dueA dueB,
    returns (generatePDFReport dhaka) house_of_two figs /\
    pdf_mealRate figs == 20 /\
    returns (getTotalBills dhaka (global_obj house_of_two memberA))
            house_of_two billsA /\ billsA == 600 /\
    returns (getTotalBills dhaka (global_obj house_of_two memberB))
            house_of_two billsB /\ billsB == 400 /\
    returns (getTotalDue dhaka (global_obj house_of_two memberA))
            house_of_two dueA /\ dueA == 0 /\
    returns (getTotalDue dhaka (global_obj house_of_two memberB))
            house_of_two dueB /\ dueB == 400.
Proof.
  apply (two_member_scenario dhaka house_of_two memberA memberB
           (bill "b1" 1000 "2024-03-05")
           (global_obj house_of_two memberA) (global_obj house_of_two memberB)
           (0 + 600) 0);
    reflexivity.
Defined.

(** C4, at an input where the code departs from it.  In [house_of_two_staggered]
    every meal entry is dated in March 2024, the displayed month; A's
    counts sum to 30 and B's to 20, the one bill is of 1000, A paid 600 and
    B nothing.  In a browser five hours west of Greenwich A's three meals of
    the first of March are not counted: getMonthlyMealTotal() is 27 for A,
    the meal rate is 1000/47 and not 20, getTotalBills() is 27000/47 for A
    and 20000/47 for B and not 600 and 400, and B's getTotalDue() is
    20000/47 and not 400.  In Dhaka the same state gives the figures of the
    claim. *)
Theorem two_member_scenario_west_of_Greenwich :
  let g := house_of_two_staggered in
  let objA := global_obj g memberA in
  let objB := global_obj g memberB in
  (Forall (fun e => in_displayed_month dhaka (currentDate g)
                      (MealEntry.meal_date e) = true) (mealEntries g)
   /\ sumZ (map MealEntry.meal_count
              (filter (fun e => String.eqb (MealEntry.member_id e) "A")
                      (mealEntries g))) = 30
   /\ sumZ (map MealEntry.meal_count
              (filter (fun e => String.eqb (MealEntry.member_id e) "B")
                      (mealEntries g))) = 20)
  /\ (returns (getMonthlyMealTotal new_york objA) g 27
      /\ returns (getMonthlyMealTotal new_york objB) g 20
      /\ exists figs billsA billsB dueA dueB,
           returns (generatePDFReport new_york) g figs
           /\ pdf_mealRate figs == 1000 # 47 /\ ~ pdf_mealRate figs == 20
           /\ returns (getTotalBills new_york objA) g billsA
           /\ billsA == 27000 # 47 /\ ~ billsA == 600
           /\ returns (getTotalBills new_york objB) g billsB
           /\ billsB == 20000 # 47 /\ ~ billsB == 400
           /\ returns (getTotalDue new_york objA) g dueA /\ dueA == 0
           /\ returns (getTotalDue new_york objB) g dueB
           /\ dueB == 20000 # 47 /\ ~ dueB == 400)
  /\ (returns (getMonthlyMealTotal dhaka objA) g 30
      /\ returns (getMonthlyMealTotal dhaka objB) g 20
      /\ exists figs billsA billsB dueA dueB,
           returns (generatePDFReport dhaka) g figs
           /\ pdf_mealRate figs == 20
           /\ returns (getTotalBills dhaka objA) g billsA /\ billsA == 600
           /\ returns (getTotalBills dhaka objB) g billsB /\ billsB == 400
           /\ returns (getTotalDue dhaka objA) g dueA /\ dueA == 0
           /\ returns (getTotalDue dhaka objB) g dueB /\ dueB == 400).
Proof.
  cbv zeta. split; [| split].
  - split; [| split; reflexivity].
    repeat (constructor; [reflexivity |]). constructor.
  - split; [reflexivity |]. split; [reflexivity |].
    exists (pdf_figures new_york house_of_two_staggered),
           (share new_york house_of_two_staggered
              (global_obj house_of_two_staggered memberA)),
           (share new_york house_of_two_staggered
              (global_obj house_of_two_staggered memberB)),
           (due_of new_york house_of_two_staggered
              (global_obj house_of_two_staggered memberA)),
           (due_of new_york house_of_two_staggered
              (global_obj house_of_two_staggered memberB)).
    split; [apply generatePDFReport_returns |].
    split; [reflexivity |]. split; [vm_compute; discriminate |].
    split; [apply getTotalBills_returns |].
    split; [reflexivity |]. split; [vm_compute; discriminate |].
    split; [apply getTotalBills_returns |].
    split; [reflexivity |]. split; [vm_compute; discriminate |].
    split; [apply getTotalDue_returns |].
    split; [reflexivity |].
    split; [apply getTotalDue_returns |].
    split; [reflexivity | vm_compute; discriminate].
  - split; [reflexivity |]. split; [reflexivity |].
    exists (pdf_figures dhaka house_of_two_staggered),
           (share dhaka house_of_two_staggered
              (global_obj house_of_two_staggered memberA)),
           (share dhaka house_of_two_staggered
              (global_obj house_of_two_staggered memberB)),
           (due_of dhaka house_of_two_staggered
              (global_obj house_of_two_staggered memberA)),
           (due_of dhaka house_of_two_staggered
              (global_obj house_of_two_staggered memberB)).
    split; [apply generatePDFReport_returns |].
    split; [reflexivity |].
    split; [apply getTotalBills_returns |].
    split; [reflexivity |].
    split; [apply getTotalBills_returns |].
    split; [reflexivity |].
    split; [apply getTotalDue_returns |].
    split; [reflexivity |].
    split; [apply getTotalDue_returns | reflexivity].
Qed.

(** ** Dangling references (C6) *)

Lemma fold_left_ext_in {A B} (F G : A -> B -> A) (l : list B) :
  (forall a x, In x l -> F a x = G a x) ->
  forall a, fold_left F l a = fold_left G l a.
Proof.
  induction l as [|x l IH]; intros H a; simpl.
  - reflexivity.
  - rewrite H by now left. apply IH. intros a' y Hy. apply H. now right.
Qed.

Lemma fold_left_over_map {A B C} (F : A -> C -> A) (h : B -> C) (l : list B) :
  forall a, fold_left F (map h l) a = fold_left (fun a x => F a (h x)) l a.
Proof.
  induction l as [|x l IH]; intros a; simpl; [reflexivity | apply IH].
Qed.

Lemma filter_skip {A} (f : A -> bool) (before after : list A) (x : A) :
  f x = false -> filter f (before ++ x :: after) = filter f (before ++ after).
Proof.
  intros H. rewrite !filter_app. simpl. now rewrite H.
Qed.

Lemma paid_of_skip id p before after :
  id <> Payment.member_id p ->
  paid_of id (before ++ p :: after) = paid_of id (before ++ after).
Proof.
  intros H. unfold paid_of. rewrite filter_skip; [reflexivity |].
  apply String.eqb_neq. congruence.
Qed.

Lemma monthly_skip host cd id e before after :
  id <> MealEntry.member_id e ->
  monthly host cd id (before ++ e :: after)
  = monthly host cd id (before ++ after).
Proof.
  intros H. unfold monthly. rewrite filter_skip; [reflexivity |].
  unfold counted.
  assert (E : String.eqb (MealEntry.member_id e) id = false)
    by (apply String.eqb_neq; congruence).
  now rewrite E.
Qed.

Lemma house_meals_skip host cd ms e before after :
  (forall m, In m ms -> MemberData.id m <> MealEntry.member_id e) ->
  house_meals host cd ms (before ++ e :: after)
  = house_meals host cd ms (before ++ after).
Proof.
  intros H. unfold house_meals. apply fold_left_ext_in.
  intros a m Hm. now rewrite monthly_skip by now apply H.
Qed.

(** The figures of a member of the house are the same with and without the
    dangling record. *)
Lemma dangling_record_member_figures host g g' m :
  adds_dangling_record g g' -> In m (members g) ->
  paid_of (MemberData.id m) (payments g') = paid_of (MemberData.id m) (payments g)
  /\ share host g' (global_obj g' m) = share host g (global_obj g m)
  /\ due_of host g' (global_obj g' m) = due_of host g (global_obj g m)
  /\ monthly host (currentDate g') (MemberData.id m) (mealEntries g')
     = monthly host (currentDate g) (MemberData.id m) (mealEntries g).
Proof.
  intros [p before after Hp Hno ->|e before after He Hno ->] Hm.
  - assert (P : paid_of (MemberData.id m) (before ++ p :: after)
                = paid_of (MemberData.id m) (payments g))
      by (rewrite Hp; apply paid_of_skip; now apply Hno).
    repeat split; try assumption.
    unfold due_of, share. simpl. now rewrite P.
  - assert (Mo : forall x, In x (members g) ->
                 monthly host (currentDate g) (MemberData.id x)
                         (before ++ e :: after)
                 = monthly host (currentDate g) (MemberData.id x)
                           (mealEntries g))
      by (intros x Hx; rewrite He; apply monthly_skip; now apply Hno).
    assert (Ho : house_meals host (currentDate g) (members g)
                   (before ++ e :: after)
                 = house_meals host (currentDate g) (members g) (mealEntries g))
      by (rewrite He; now apply house_meals_skip).
    assert (Sh : share host (set_mealEntries (before ++ e :: after) g)
                   (global_obj (set_mealEntries (before ++ e :: after) g) m)
                 = share host g (global_obj g m))
      by (unfold share; simpl; now rewrite Ho, Mo).
    repeat split.
    + exact Sh.
    + unfold due_of. now rewrite Sh.
    + simpl. now apply Mo.
Qed.

Lemma adds_dangling_record_members g g' :
  adds_dangling_record g g' -> members g' = members g.
Proof. now intros [p ? ? _ _ ->|e ? ? _ _ ->]. Qed.

(** C6.  When the store holds a payment or a meal entry whose member_id is
    the id of no member, every engine operation still completes, and it
    returns what it returns without that record: the settlement report, the
    total deposits and the total due are the same, and so are getTotalPaid,
    getTotalBills, getTotalDue and getMonthlyMealTotal of every member. *)
Theorem dangling_record_is_ignored (host : Host) (g g' : Globals) :
  adds_dangling_record g g' ->
  (exists rows, returns (settlementReport host) g rows
                /\ returns (settlementReport host) g' rows) /\
  (exists d, returns totalDeposits g d /\ returns totalDeposits g' d) /\
  (exists d, returns (totalDue host) g d /\ returns (totalDue host) g' d) /\
  forall m, In m (members g) ->
    exists obj obj' paid' share' due' meals,
      returns (new_Member m None None None) g obj /\
      returns (new_Member m None None None) g' obj' /\
      returns (getTotalPaid obj) g paid' /\
      returns (getTotalPaid obj') g' paid' /\
      returns (getTotalBills host obj) g share' /\
      returns (getTotalBills host obj') g' share' /\
      returns (getTotalDue host obj) g due' /\
      returns (getTotalDue host obj') g' due' /\
      returns (getMonthlyMealTotal host obj) g meals /\
      returns (getMonthlyMealTotal host obj') g' meals.
Proof.
  intros H.
  pose proof (adds_dangling_record_members g g' H) as Hms.
  split; [| split; [| split]].
  - exists (map (report_row host g) (members g)).
    split; [apply settlementReport_returns |].
    replace (map (report_row host g) (members g))
      with (map (report_row host g') (members g')).
    + apply settlementReport_returns.
    + rewrite Hms. apply map_ext_in. intros m Hm.
      destruct (dangling_record_member_figures host g g' m H Hm)
        as (P & S & D & Mo).
      unfold report_row. simpl. simpl in P, Mo.
      now rewrite P, S, D, Mo.
  - eexists. split; [apply totalDeposits_returns |].
    pose proof (totalDeposits_returns g') as R.
    rewrite Hms, fold_left_over_map in R. rewrite fold_left_over_map.
    erewrite fold_left_ext_in; [exact R |].
    intros a m Hm. simpl.
    destruct (dangling_record_member_figures host g g' m H Hm) as (P & _).
    now rewrite P.
  - eexists. split; [apply totalDue_returns |].
    pose proof (totalDue_returns host g') as R.
    rewrite Hms, fold_left_over_map in R. rewrite fold_left_over_map.
    erewrite fold_left_ext_in; [exact R |].
    intros a m Hm. simpl.
    destruct (dangling_record_member_figures host g g' m H Hm)
      as (_ & _ & D & _).
    now rewrite D.
  - intros m Hm.
    destruct (dangling_record_member_figures host g g' m H Hm)
      as (P & S & D & Mo).
    exists (global_obj g m), (global_obj g' m),
           (paid_of (MemberData.id m) (payments g)),
           (share host g (global_obj g m)), (due_of host g (global_obj g m)),
           (monthly host (currentDate g) (MemberData.id m) (mealEntries g)).
    split; [apply (new_Member_returns m None None None) |].
    split; [apply (new_Member_returns m None None None) |].
    split; [apply getTotalPaid_returns |].
    split; [rewrite <- P; apply getTotalPaid_returns |].
    split; [apply getTotalBills_returns |].
    split; [rewrite <- S; apply getTotalBills_returns |].
    split; [apply getTotalDue_returns |].
    split; [rewrite <- D; apply getTotalDue_returns |].
    split; [apply getMonthlyMealTotal_returns |].
    rewrite <- Mo. apply getMonthlyMealTotal_returns.
Qed.

Lemma house_of_two_gains_a_dangling_payment :
  adds_dangling_record house_of_two house_of_two_with_dangling_payment.
Proof.
  apply (dangling_payment _ _ dangling_payment_of_Z [] (payments house_of_two)).
  - reflexivity.
  - intros m [<-|[<-|[]]]; discriminate.
  - reflexivity.
Defined.

Lemma dangling_record_is_ignored_witness :
  adds_dangling_record house_of_two house_of_two_with_dangling_payment /\
  (exists d, returns totalDeposits house_of_two d
             /\ returns totalDeposits house_of_two_with_dangling_payment d).
Proof.
  split; [exact house_of_two_gains_a_dangling_payment |].
  apply (dangling_record_is_ignored dhaka house_of_two
           house_of_two_with_dangling_payment
           house_of_two_gains_a_dangling_payment).
Defined.

(** ** The dashboard filter does not reach the aggregates (C9) *)

(** C9.  settlementReport(), totalExpense(), totalDeposits() and totalDue()
    return the same results whatever the value of filterMonth (null
    included), the other globals being equal: they read the unfiltered
    collections.  The members table, built through getFilteredData, does
    depend on it. *)
Theorem aggregates_ignore_the_month_filter :
  (forall (host : Host) (g : Globals) (fm1 fm2 : option string),
     (exists rows, returns (settlementReport host) (set_filterMonth fm1 g) rows
                /\ returns (settlementReport host) (set_filterMonth fm2 g) rows)
     /\ (exists a, returns totalExpense (set_filterMonth fm1 g) a
                /\ returns totalExpense (set_filterMonth fm2 g) a)
     /\ (exists a, returns totalDeposits (set_filterMonth fm1 g) a
                /\ returns totalDeposits (set_filterMonth fm2 g) a)
     /\ (exists a, returns (totalDue host) (set_filterMonth fm1 g) a
                /\ returns (totalDue host) (set_filterMonth fm2 g) a))
  /\ (exists (host : Host) (g : Globals) (fm1 fm2 : option string) rows1 rows2,
        returns (renderMembersTable host) (set_filterMonth fm1 g) rows1
        /\ returns (renderMembersTable host) (set_filterMonth fm2 g) rows2
        /\ rows1 <> rows2).
Proof.
  split.
  - intros host g fm1 fm2. repeat split.
    + eexists. split.
      * apply (settlementReport_returns host (set_filterMonth fm1 g)).
      * apply (settlementReport_returns host (set_filterMonth fm2 g)).
    + eexists. split.
      * apply (totalExpense_returns (set_filterMonth fm1 g)).
      * apply (totalExpense_returns (set_filterMonth fm2 g)).
    + eexists. split.
      * apply (totalDeposits_returns (set_filterMonth fm1 g)).
      * apply (totalDeposits_returns (set_filterMonth fm2 g)).
    + eexists. split.
      * apply (totalDue_returns host (set_filterMonth fm1 g)).
      * apply (totalDue_returns host (set_filterMonth fm2 g)).
  - exists dhaka, house_of_two, None, (Some "2024-02"%string).
    eexists. eexists.
    split; [vm_compute; reflexivity |].
    split; [vm_compute; reflexivity |].
    discriminate.
Qed.

(** The handlers of the dashboard filter write [filterMonth] and nothing
    else. *)
Lemma filter_handlers_write_filterMonth v g :
  onDashboardFilterChange v g = Some (tt, set_filterMonth (Some v) g)
  /\ onClearFilter g = Some (tt, set_filterMonth None g).
Proof. split; reflexivity. Qed.

(** ** Duplicate meal entries (C10) *)

Lemma find_is_first_of_filter {A} (f : A -> bool) (l : list A) :
  find f l = match filter f l with [] => None | x :: _ => Some x end.
Proof.
  induction l as [|x l IH]; simpl; [reflexivity |].
  destruct (f x); [reflexivity | exact IH].
Qed.

Lemma monthly_sumZ host cd id es :
  monthly host cd id es
  = sumZ (map MealEntry.meal_count (filter (counted host cd id) es)).
Proof.
  unfold monthly, reduce. now rewrite fold_left_add_sumZ.
Qed.





(** ** The month filter (C5) *)

Lemma getFilteredData_without_filter host g :
  filterMonth g = None \/ filterMonth g = Some EmptyString ->
  returns (getFilteredData host) g (bills g, payments g, mealEntries g).
Proof.
  intros [H|H]; unfold getFilteredData, returns, bind, gets; now rewrite H.
Qed.

Lemma getFilteredData_with_filter host g s :
  filterMonth g = Some s -> truthy s = true ->
  returns (getFilteredData host) g
    (let (year, month) := year_month_of s in
     (filter (fun b => in_month host year month (Bill.date b)) (bills g),
      filter (fun p => in_month host year month (Payment.date p)) (payments g),
      filter (fun m => in_month host year month (MealEntry.meal_date m))
             (mealEntries g))).
Proof.
  intros H T. unfold getFilteredData, returns, bind, gets.
  rewrite H, T. now destruct (year_month_of s).
Qed.

(** A date string the host cannot parse is in no month. *)
Lemma in_month_invalid_date host year month s :
  Date_parse host s = None -> in_month host year month s = false.
Proof.
  intros H. unfold in_month, new_Date. now rewrite H.
Qed.

(** *** Date arithmetic *)

Lemma DayFromYear_succ y :
  ES.DayFromYear (y + 1) = ES.DayFromYear y + ES.DaysInYear y.
Proof.
  unfold ES.DayFromYear, ES.DaysInYear.
  destruct (Z.eqb_spec (y mod 4) 0), (Z.eqb_spec (y mod 100) 0),
    (Z.eqb_spec (y mod 400) 0); simpl negb; cbv iota;
  Z.div_mod_to_equations; lia.
Qed.

Lemma DaysInYear_cases y : ES.DaysInYear y = 365 \/ ES.DaysInYear y = 366.
Proof.
  unfold ES.DaysInYear.
  destruct (y mod 4 =? 0), (y mod 100 =? 0), (y mod 400 =? 0); simpl; lia.
Qed.

Lemma DayFromYear_mono a b : a <= b -> ES.DayFromYear a <= ES.DayFromYear b.
Proof.
  intros H. unfold ES.DayFromYear. Z.div_mod_to_equations. lia.
Qed.

(** [YearFromTime(t)] is the year ECMA-262 defines: the one whose first day
    is the last first-of-January not after [t]. *)
Lemma YearFromTime_spec t :
  ES.DayFromYear (ES.YearFromTime t) <= ES.Day t
  < ES.DayFromYear (ES.YearFromTime t + 1).
Proof.
  unfold ES.YearFromTime. set (d := ES.Day t). clearbody d.
  set (y := 1970 + 400 * d / 146097).
  destruct (Z.leb_spec (ES.DayFromYear (y + 1)) d) as [H1|H1].
  - split; [exact H1 |].
    unfold ES.DayFromYear, y. Z.div_mod_to_equations. lia.
  - destruct (Z.leb_spec (ES.DayFromYear y) d) as [H2|H2].
    + split; assumption.
    + replace (y - 1 + 1) with y by lia. split; [| exact H2].
      unfold ES.DayFromYear, y. Z.div_mod_to_equations. lia.
Qed.

Lemma YearFromTime_unique t y :
  ES.DayFromYear y <= ES.Day t < ES.DayFromYear (y + 1) ->
  ES.YearFromTime t = y.
Proof.
  intros H. pose proof (YearFromTime_spec t) as S.
  destruct (Z.lt_trichotomy (ES.YearFromTime t) y) as [L|[E|L]];
    [| exact E |].
  - pose proof (DayFromYear_mono (ES.YearFromTime t + 1) y ltac:(lia)). lia.
  - pose proof (DayFromYear_mono (y + 1) (ES.YearFromTime t) ltac:(lia)). lia.
Qed.

Lemma Day_of_local_midnight day tza :
  0 <= tza < ES.msPerDay -> ES.Day (ES.MakeDate day + tza) = day.
Proof.
  intros H. unfold ES.Day, ES.MakeDate, ES.msPerDay in *.
  Z.div_mod_to_equations. lia.
Qed.

Lemma Day_of_previous_evening day tza :
  - ES.msPerDay <= tza < 0 -> ES.Day (ES.MakeDate day + tza) = day - 1.
Proof.
  intros H. unfold ES.Day, ES.MakeDate, ES.msPerDay in *.
  Z.div_mod_to_equations. lia.
Qed.

Ltac month_cases m :=
  let H := fresh in
  assert (H : m = 0 \/ m = 1 \/ m = 2 \/ m = 3 \/ m = 4 \/ m = 5 \/ m = 6
              \/ m = 7 \/ m = 8 \/ m = 9 \/ m = 10 \/ m = 11) by lia;
  repeat (destruct H as [H|H]; [subst m |]); [.. | subst m].

(** A time value whose day is the [d]-th of month [m] (0-based) of year [y]
    has that year and that month. *)
Lemma year_month_of_day t y m d :
  0 <= m <= 11 -> 1 <= d <= ES.DaysInMonth m (ES.DaysInYear y - 365) ->
  ES.Day t = ES.MakeDay y m d ->
  ES.YearFromTime t = y /\ ES.MonthFromTime t = m.
Proof.
  intros Hm Hd HD.
  assert (HY : ES.YearFromTime t = y).
  { apply YearFromTime_unique. rewrite HD, DayFromYear_succ.
    unfold ES.MakeDay.
    destruct (DaysInYear_cases y) as [L|L]; rewrite L in *;
      month_cases m; simpl in *; lia. }
  split; [exact HY |].
  unfold ES.MonthFromTime, ES.DayWithinYear, ES.InLeapYear.
  rewrite HY, HD. unfold ES.MakeDay.
  destruct (DaysInYear_cases y) as [L|L]; rewrite L in *;
    month_cases m; simpl in *;
    repeat match goal with
           | |- context [?a <? ?b] => destruct (Z.ltb_spec a b); try lia
           end.
Qed.

(** *** The strings of the pickers *)

Ltac digit_cases k :=
  let H := fresh in
  assert (H : k = 0 \/ k = 1 \/ k = 2 \/ k = 3 \/ k = 4 \/ k = 5 \/ k = 6
              \/ k = 7 \/ k = 8 \/ k = 9) by lia;
  repeat (destruct H as [H|H]; [rewrite H |]); [.. | rewrite H].

Lemma digit_of_digit_char k :
  0 <= k <= 9 -> ES.digit_of (digit_char k) = Some k.
Proof. intros Hk. digit_cases k; reflexivity. Qed.

Lemma digit_char_is_no_dash k :
  0 <= k <= 9 -> Ascii.eqb (digit_char k) "-" = false.
Proof. intros Hk. digit_cases k; reflexivity. Qed.

Lemma digits_value_digit k s acc :
  0 <= k <= 9 ->
  ES.digits_value (String (digit_char k) s) acc
  = ES.digits_value s (10 * acc + k).
Proof. intros Hk. simpl. now rewrite digit_of_digit_char. Qed.

Lemma split_digit k s :
  0 <= k <= 9 ->
  ES.split "-" (String (digit_char k) s)
  = match ES.split "-" s with
    | [] => [String (digit_char k) EmptyString]
    | w :: ws => String (digit_char k) w :: ws
    end.
Proof. intros Hk. simpl. now rewrite digit_char_is_no_dash. Qed.

Ltac digit_bounds :=
  match goal with
  | |- 0 <= _ <= 9 => Z.div_mod_to_equations; lia
  end.

(** The month picker's string is read back as its year and month. *)
Lemma year_month_of_month_string y m :
  0 <= y <= 9999 -> 0 <= m <= 99 ->
  year_month_of (month_string y m) = (Some y, Some m).
Proof.
  intros Hy Hm. unfold year_month_of, month_string, pad4, pad2.
  cbn [append].
  rewrite (split_digit (y / 1000)), (split_digit (y / 100 mod 10)),
    (split_digit (y mod 100 / 10)), (split_digit (y mod 100 mod 10))
    by digit_bounds.
  change (ES.split "-" (String "-" ?s))
    with (EmptyString :: ES.split "-" s).
  rewrite (split_digit (m / 10)), (split_digit (m mod 10)) by digit_bounds.
  cbn [ES.split map]. unfold ES.Number.
  rewrite !digits_value_digit by digit_bounds.
  cbn [ES.digits_value].
  repeat f_equal; Z.div_mod_to_equations; lia.
Qed.

(** The date picker's string is parsed as midnight UTC of its day. *)
Lemma parse_date_string y m d :
  valid_date y m d ->
  ES.parse_date_only (date_string y m d)
  = Some (ES.MakeDate (ES.MakeDay y (m - 1) d)).
Proof.
  intros (Hy & Hm & Hd).
  assert (Hd' : 1 <= d <= 31).
  { split; [lia |]. destruct Hd as [_ Hd].
    destruct (DaysInYear_cases y) as [L|L]; rewrite L in Hd;
      assert (Hc : m - 1 = 0 \/ m - 1 = 1 \/ m - 1 = 2 \/ m - 1 = 3
                   \/ m - 1 = 4 \/ m - 1 = 5 \/ m - 1 = 6 \/ m - 1 = 7
                   \/ m - 1 = 8 \/ m - 1 = 9 \/ m - 1 = 10 \/ m - 1 = 11)
        by lia;
      repeat (destruct Hc as [Hc|Hc]; [rewrite Hc in Hd; simpl in Hd; lia |]);
      rewrite Hc in Hd; simpl in Hd; lia. }
  unfold ES.parse_date_only, date_string, pad4, pad2.
  cbn [append Ascii.eqb Bool.eqb andb].
  rewrite !digits_value_digit by digit_bounds.
  cbn [ES.digits_value].
  replace (10 * (10 * (10 * (10 * 0 + y / 1000) + y / 100 mod 10)
                 + y mod 100 / 10) + y mod 100 mod 10)
    with y by (Z.div_mod_to_equations; lia).
  replace (10 * (10 * 0 + m / 10) + m mod 10)
    with m by (Z.div_mod_to_equations; lia).
  replace (10 * (10 * 0 + d / 10) + d mod 10)
    with d by (Z.div_mod_to_equations; lia).
  replace ((1 <=? m) && (m <=? 12) && (1 <=? d)
           && (d <=? ES.DaysInMonth (m - 1) (ES.DaysInYear y - 365)))
    with true; [reflexivity |].
  symmetry. rewrite !andb_true_iff, !Z.leb_le. lia.
Qed.

(** *** The filter on a conforming host

    On a host that reads the date-only form as ECMA-262 prescribes, and
    whose local time is at most a day ahead of UTC, the filter keeps a
    record dated by the date picker exactly when its year and month are
    those selected. *)
Lemma in_month_east_of_Greenwich tza y m Y Mo D :
  0 <= tza < ES.msPerDay ->
  0 <= y <= 9999 -> 1 <= m <= 12 ->
  valid_date Y Mo D ->
  in_month (iso_host tza) (Some y) (Some m) (date_string Y Mo D)
  = (Y =? y) && (Mo =? m).
Proof.
  intros Htz Hy Hm HV.
  unfold in_month, new_Date, getFullYear, getMonth, LocalTime.
  cbn [Date_parse LocalTZA iso_host].
  rewrite (parse_date_string _ _ _ HV).
  cbn [option_map num_eq num_pred].
  destruct HV as (HY & HM & HD).
  destruct (year_month_of_day
              (ES.MakeDate (ES.MakeDay Y (Mo - 1) D) + tza) Y (Mo - 1) D)
    as [EY EM]; [lia | exact HD | now apply Day_of_local_midnight |].
  rewrite EY, EM. f_equal.
  destruct (Z.eqb_spec (Mo - 1) (m - 1)), (Z.eqb_spec Mo m); lia || reflexivity.
Qed.

(** West of Greenwich, within a day of UTC, a record dated on the first of
    a month is in no selected month but the one before its own. *)
Lemma in_month_west_of_Greenwich_first_day tza y m Y Mo :
  - ES.msPerDay <= tza < 0 ->
  0 <= y <= 9999 -> 1 <= m <= 12 ->
  valid_date Y Mo 1 -> 2 <= Mo ->
  in_month (iso_host tza) (Some y) (Some m) (date_string Y Mo 1)
  = (Y =? y) && (Mo - 1 =? m).
Proof.
  intros Htz Hy Hm HV H2.
  unfold in_month, new_Date, getFullYear, getMonth, LocalTime.
  cbn [Date_parse LocalTZA iso_host].
  rewrite (parse_date_string _ _ _ HV).
  cbn [option_map num_eq num_pred].
  destruct HV as (HY & HM & HD).
  set (last := ES.DaysInMonth (Mo - 2) (ES.DaysInYear Y - 365)).
  assert (HL : 28 <= last).
  { unfold last. destruct (DaysInYear_cases Y) as [L|L]; rewrite L;
      assert (Hc : Mo - 2 = 0 \/ Mo - 2 = 1 \/ Mo - 2 = 2 \/ Mo - 2 = 3
                   \/ Mo - 2 = 4 \/ Mo - 2 = 5 \/ Mo - 2 = 6 \/ Mo - 2 = 7
                   \/ Mo - 2 = 8 \/ Mo - 2 = 9 \/ Mo - 2 = 10) by lia;
      repeat (destruct Hc as [Hc|Hc]; [rewrite Hc; simpl; lia |]);
      rewrite Hc; simpl; lia. }
  destruct (year_month_of_day
              (ES.MakeDate (ES.MakeDay Y (Mo - 1) 1) + tza) Y (Mo - 2) last)
    as [EY EM]; [lia | lia | |].
  { rewrite Day_of_previous_evening by assumption.
    unfold ES.MakeDay, last.
    destruct (DaysInYear_cases Y) as [L|L]; rewrite L;
      assert (Hc : Mo = 2 \/ Mo = 3 \/ Mo = 4 \/ Mo = 5 \/ Mo = 6 \/ Mo = 7
                   \/ Mo = 8 \/ Mo = 9 \/ Mo = 10 \/ Mo = 11 \/ Mo = 12)
        by lia;
      repeat (destruct Hc as [Hc|Hc]; [rewrite Hc; simpl; lia |]);
      rewrite Hc; simpl; lia. }
  rewrite EY, EM. f_equal.
  destruct (Z.eqb_spec (Mo - 2) (m - 1)), (Z.eqb_spec (Mo - 1) m);
    lia || reflexivity.
Qed.

(** On such a host the filtered bills are the bills of the selected
    calendar month, bills with an unparsable date left out (and likewise
    for payments and meal entries, which go through the same test). *)
Lemma getFilteredData_east_of_Greenwich tza g y m :
  0 <= tza < ES.msPerDay ->
  0 <= y <= 9999 -> 1 <= m <= 12 ->
  filterMonth g = Some (month_string y m) ->
  exists fb fp fe,
    returns (getFilteredData (iso_host tza)) g (fb, fp, fe) /\
    (forall b Y Mo D, In b (bills g) -> valid_date Y Mo D ->
       Bill.date b = date_string Y Mo D ->
       (In b fb <-> Y = y /\ Mo = m)) /\
    (forall p Y Mo D, In p (payments g) -> valid_date Y Mo D ->
       Payment.date p = date_string Y Mo D ->
       (In p fp <-> Y = y /\ Mo = m)) /\
    (forall e Y Mo D, In e (mealEntries g) -> valid_date Y Mo D ->
       MealEntry.meal_date e = date_string Y Mo D ->
       (In e fe <-> Y = y /\ Mo = m)) /\
    (forall b, In b fb -> ES.parse_date_only (Bill.date b) <> None) /\
    (forall p, In p fp -> ES.parse_date_only (Payment.date p) <> None) /\
    (forall e, In e fe -> ES.parse_date_only (MealEntry.meal_date e) <> None).
Proof.
  intros Htz Hy Hm Hf.
  pose proof (getFilteredData_with_filter (iso_host tza) g _ Hf eq_refl) as R.
  rewrite year_month_of_month_string in R by lia.
  do 3 eexists. split; [exact R |].
  assert (K : forall s Y Mo D, valid_date Y Mo D -> s = date_string Y Mo D ->
              in_month (iso_host tza) (Some y) (Some m) s = true
              <-> Y = y /\ Mo = m).
  { intros s Y Mo D HV ->.
    rewrite (in_month_east_of_Greenwich tza y m Y Mo D Htz Hy Hm HV).
    rewrite andb_true_iff, !Z.eqb_eq. reflexivity. }
  assert (N : forall s, in_month (iso_host tza) (Some y) (Some m) s = true ->
              ES.parse_date_only s <> None).
  { intros s Hs E.
    rewrite (in_month_invalid_date (iso_host tza) _ _ s E) in Hs.
    discriminate. }
  assert (S : forall {A} (date : A -> string) (l : list A) x Y Mo D,
              In x l -> valid_date Y Mo D -> date x = date_string Y Mo D ->
              In x (filter (fun r => in_month (iso_host tza) (Some y) (Some m)
                                              (date r)) l)
              <-> Y = y /\ Mo = m).
  { intros A date l x Y Mo D Hx HV Hd. rewrite filter_In.
    rewrite (K _ _ _ _ HV Hd). tauto. }
  assert (U : forall {A} (date : A -> string) (l : list A) x,
              In x (filter (fun r => in_month (iso_host tza) (Some y) (Some m)
                                              (date r)) l) ->
              ES.parse_date_only (date x) <> None).
  { intros A date l x Hx. apply filter_In in Hx as [_ Hx]. now apply N. }
  split; [apply (S _ Bill.date) |].
  split; [apply (S _ Payment.date) |].
  split; [apply (S _ MealEntry.meal_date) |].
  split; [apply (U _ Bill.date) |].
  split; [apply (U _ Payment.date) | apply (U _ MealEntry.meal_date)].
Qed.

(** C5, at the input where the code departs from it.  In a browser five
    hours west of Greenwich, with March 2024 selected, the bill, the payment
    and the meal entry dated 2024-03-01 are all dropped from the filtered
    collections, and with February 2024 selected they are all kept: the date
    string is read as midnight UTC and its month is taken in local time.  In
    Dhaka the same store is filtered as the claim says. *)
Theorem month_filter_west_of_Greenwich :
  returns (getFilteredData new_york) first_of_march_store ([], [], [])
  /\ returns (getFilteredData new_york)
       (set_filterMonth (Some "2024-02"%string) first_of_march_store)
       (bills first_of_march_store, payments first_of_march_store,
        mealEntries first_of_march_store)
  /\ returns (getFilteredData dhaka) first_of_march_store
       (bills first_of_march_store, payments first_of_march_store,
        mealEntries first_of_march_store).
Proof. repeat split. Qed.

(** [getMonthlyMealTotal] reads meal dates the same way: in New York the
    entries of the first of March are not counted for March, so member A of
    [house_of_two] totals 27 meals there and 30 in Dhaka. *)
Example monthly_total_depends_on_the_time_zone :
  returns (getMonthlyMealTotal new_york (global_obj house_of_two memberA))
          house_of_two 27
  /\ returns (getMonthlyMealTotal dhaka (global_obj house_of_two memberA))
             house_of_two 30.
Proof. split; reflexivity. Qed.

(** *** The filter on any host east of Greenwich *)

Lemma iso_host_reads_date_only_as_UTC tza :
  reads_date_only_as_UTC (iso_host tza).
Proof. intros Y Mo D HV. apply parse_date_string, HV. Qed.

Lemma lenient_dhaka_reads_date_only_as_UTC :
  reads_date_only_as_UTC lenient_dhaka.
Proof.
  intros Y Mo D HV. cbn [lenient_dhaka Date_parse].
  now rewrite (parse_date_string _ _ _ HV).
Qed.

Lemma in_month_of_a_valid_date (h : Host) y m Y Mo D :
  reads_date_only_as_UTC h ->
  0 <= LocalTZA h < ES.msPerDay ->
  0 <= y <= 9999 -> 1 <= m <= 12 ->
  valid_date Y Mo D ->
  in_month h (Some y) (Some m) (date_string Y Mo D)
  = (Y =? y) && (Mo =? m).
Proof.
  intros Hp Htz Hy Hm HV.
  unfold in_month, new_Date, getFullYear, getMonth, LocalTime.
  rewrite (Hp _ _ _ HV).
  cbn [option_map num_eq num_pred].
  destruct HV as (HY & HM & HD).
  destruct (year_month_of_day
              (ES.MakeDate (ES.MakeDay Y (Mo - 1) D) + LocalTZA h)
              Y (Mo - 1) D)
    as [EY EM]; [lia | exact HD | now apply Day_of_local_midnight |].
  rewrite EY, EM. f_equal.
  destruct (Z.eqb_spec (Mo - 1) (m - 1)), (Z.eqb_spec Mo m); lia || reflexivity.
Qed.

(** On a host whose local time is at or ahead of UTC by less than a day
    and which reads the date picker's strings as midnight UTC, whatever it
    makes of other strings: with a month selected, a bill, payment or meal
    entry whose date is a valid YYYY-MM-DD string is in the filtered
    collection exactly when its year and month are those selected. *)
Theorem month_filter_keeps_the_month_east_of_Greenwich
    (h : Host) (g : Globals) (y m : Z) :
  reads_date_only_as_UTC h ->
  0 <= LocalTZA h < ES.msPerDay ->
  0 <= y <= 9999 -> 1 <= m <= 12 ->
  filterMonth g = Some (month_string y m) ->
  exists fb fp fe,
    returns (getFilteredData h) g (fb, fp, fe) /\
    (forall b Y Mo D, In b (bills g) -> valid_date Y Mo D ->
       Bill.date b = date_string Y Mo D ->
       (In b fb <-> Y = y /\ Mo = m)) /\
    (forall p Y Mo D, In p (payments g) -> valid_date Y Mo D ->
       Payment.date p = date_string Y Mo D ->
       (In p fp <-> Y = y /\ Mo = m)) /\
    (forall e Y Mo D, In e (mealEntries g) -> valid_date Y Mo D ->
       MealEntry.meal_date e = date_string Y Mo D ->
       (In e fe <-> Y = y /\ Mo = m)).
Proof.
  intros Hp Htz Hy Hm Hf.
  pose proof (getFilteredData_with_filter h g _ Hf eq_refl) as R.
  rewrite year_month_of_month_string in R by lia.
  do 3 eexists. split; [exact R |].
  assert (S : forall {A} (date : A -> string) (l : list A) x Y Mo D,
              In x l -> valid_date Y Mo D -> date x = date_string Y Mo D ->
              In x (filter (fun r => in_month h (Some y) (Some m) (date r)) l)
              <-> Y = y /\ Mo = m).
  { intros A date l x Y Mo D Hx HV Hd. rewrite filter_In, Hd.
    rewrite (in_month_of_a_valid_date h y m Y Mo D Hp Htz Hy Hm HV).
    rewrite andb_true_iff, !Z.eqb_eq. tauto. }
  split; [apply (S _ Bill.date) |].
  split; [apply (S _ Payment.date) | apply (S _ MealEntry.meal_date)].
Qed.

Lemma month_filter_keeps_the_month_east_of_Greenwich_witness :
  exists fb fp fe,
    returns (getFilteredData lenient_dhaka)
            (set_filterMonth (Some (month_string 2024 3)) two_months_store)
            (fb, fp, fe) /\
    fb = [bill "b1" 1000 "2024-03-05"] /\
    (forall b Y Mo D, In b (bills two_months_store) -> valid_date Y Mo D ->
       Bill.date b = date_string Y Mo D ->
       (In b fb <-> Y = 2024 /\ Mo = 3)).
Proof.
  destruct (month_filter_keeps_the_month_east_of_Greenwich lenient_dhaka
              (set_filterMonth (Some (month_string 2024 3)) two_months_store)
              2024 3) as (fb & fp & fe & R & Hb & _);
    [exact lenient_dhaka_reads_date_only_as_UTC
    | cbn; unfold hours, ES.msPerDay; lia | lia | lia | reflexivity |].
  exists fb, fp, fe. split; [exact R |]. split; [| exact Hb].
  assert (E : getFilteredData lenient_dhaka
                (set_filterMonth (Some (month_string 2024 3)) two_months_store)
              = Some ((fb, fp, fe),
                      set_filterMonth (Some (month_string 2024 3))
                        two_months_store)) by exact R.
  vm_compute in E. injection E as <- _ _. reflexivity.
Defined.

(** * Further properties of the engine *)

(** ** Sums of amounts *)

Lemma fold_left_Qplus_sumQ {A} (f : A -> Q) (l : list A) (a : Q) :
  fold_left (fun sum x => sum + f x)%Q l a == a + sumQ (map f l).
Proof.
  revert a. induction l as [|x l IH]; intros a; simpl.
  - ring.
  - rewrite IH. ring.
Qed.

Lemma sumQ_nonneg (l : list Q) :
  Forall (fun q => 0 <= q)%Q l -> (0 <= sumQ l)%Q.
Proof.
  induction 1 as [|q l Hq _ IH]; simpl.
  - apply Qle_refl.
  - replace 0%Q with (0 + 0)%Q by reflexivity. now apply Qplus_le_compat.
Qed.

Lemma sumQ_ext {A} (f h : A -> Q) (l : list A) :
  (forall x, In x l -> f x == h x) -> sumQ (map f l) == sumQ (map h l).
Proof.
  induction l as [|x l IH]; intros H; simpl; [reflexivity |].
  rewrite (H x) by now left. rewrite IH; [reflexivity |].
  intros y Hy. apply H. now right.
Qed.

Lemma bill_total_sumQ bs : bill_total bs == sumQ (map Bill.amount bs).
Proof.
  unfold bill_total, reduce. rewrite fold_left_Qplus_sumQ. ring.
Qed.

Lemma bill_total_nonneg bs :
  (forall b, In b bs -> 0 <= Bill.amount b)%Q -> (0 <= bill_total bs)%Q.
Proof.
  intros H. rewrite bill_total_sumQ. apply sumQ_nonneg.
  apply Forall_forall. intros q Hq. apply in_map_iff in Hq as (b & <- & Hb).
  now apply H.
Qed.

Lemma sumZ_nonneg (l : list Z) : Forall (fun n => 0 <= n) l -> 0 <= sumZ l.
Proof. induction 1; simpl; lia. Qed.

Lemma monthly_nonneg host cd id es :
  (forall e, In e es -> 0 <= MealEntry.meal_count e) ->
  0 <= monthly host cd id es.
Proof.
  intros H. rewrite monthly_sumZ. apply sumZ_nonneg, Forall_forall.
  intros n Hn. apply in_map_iff in Hn as (e & <- & He).
  apply filter_In in He as [He _]. now apply H.
Qed.

(** ** Who eats more never pays less *)

Lemma Qmult_le_mono_nonneg (c x y : Q) :
  (0 <= c)%Q -> (x <= y)%Q -> (c * x <= c * y)%Q.
Proof.
  intros Hc Hxy. rewrite !(Qmult_comm c). now apply Qmult_le_compat_r.
Qed.

Lemma rate_nonneg (A : Q) (T : Z) :
  (0 <= A)%Q -> 0 < T -> (0 <= A / inject_Z T)%Q.
Proof.
  intros HA HT. apply Qle_shift_div_l.
  - unfold Qlt. simpl. lia.
  - now rewrite Qmult_0_l.
Qed.

Lemma house_meals_nonneg host cd ms es :
  (forall e, In e es -> 0 <= MealEntry.meal_count e) ->
  0 <= house_meals host cd ms es.
Proof.
  intros H. rewrite house_meals_sumZ. apply sumZ_nonneg, Forall_forall.
  intros n Hn. apply in_map_iff in Hn as (m & <- & _).
  now apply monthly_nonneg.
Qed.

(** With the same bills and the same meal entries, no negative bill amount
    and no negative meal count, a member with at most as many meals of the
    month as another has at most the other's getTotalBills(); members with
    the same meals have the same getTotalBills(). *)
Theorem more_meals_never_a_smaller_share
    (host : Host) (g : Globals) (a b : Member.t) :
  Member.bills a = Member.bills b ->
  Member.mealEntries a = Member.mealEntries b ->
  (forall x, In x (Member.bills a) -> 0 <= Bill.amount x)%Q ->
  (forall e, In e (Member.mealEntries a) -> 0 <= MealEntry.meal_count e) ->
  exists sa sb na nb,
    returns (getTotalBills host a) g sa /\
    returns (getTotalBills host b) g sb /\
    returns (getMonthlyMealTotal host a) g na /\
    returns (getMonthlyMealTotal host b) g nb /\
    (na <= nb -> (sa <= sb)%Q) /\
    (na = nb -> sa == sb).
Proof.
  intros Hb He Hamt Hcnt.
  exists (share host g a), (share host g b),
         (monthly host (currentDate g) (Member.id a) (Member.mealEntries a)),
         (monthly host (currentDate g) (Member.id b) (Member.mealEntries b)).
  split; [apply getTotalBills_returns |].
  split; [apply getTotalBills_returns |].
  split; [apply getMonthlyMealTotal_returns |].
  split; [apply getMonthlyMealTotal_returns |].
  pose proof (house_meals_nonneg host (currentDate g) (members g) _ Hcnt) as HT.
  pose proof (bill_total_nonneg _ Hamt) as HA.
  unfold share. rewrite <- Hb, <- He.
  destruct (Z.eqb_spec (house_meals host (currentDate g) (members g)
                          (Member.mealEntries a)) 0) as [E|E].
  - split; intros _; [apply Qle_refl | reflexivity].
  - split.
    + intros Hle. apply Qmult_le_mono_nonneg.
      * apply rate_nonneg; [exact HA | lia].
      * unfold Qle. simpl. lia.
    + intros ->. reflexivity.
Qed.

Lemma more_meals_never_a_smaller_share_witness :
  exists sa sb na nb,
    returns (getTotalBills dhaka (global_obj house_of_two memberB))
            house_of_two sa /\
    returns (getTotalBills dhaka (global_obj house_of_two memberA))
            house_of_two sb /\
    returns (getMonthlyMealTotal dhaka (global_obj house_of_two memberB))
            house_of_two na /\
    returns (getMonthlyMealTotal dhaka (global_obj house_of_two memberA))
            house_of_two nb /\
    na <= nb /\ (sa <= sb)%Q.
Proof.
  destruct (more_meals_never_a_smaller_share dhaka house_of_two
              (global_obj house_of_two memberB)
              (global_obj house_of_two memberA))
    as (sa & sb & na & nb & Ha & Hb & Hna & Hnb & Hle & _);
    [reflexivity | reflexivity | | |].
  - intros x [<-|[]]. discriminate.
  - intros e He. simpl in He.
    repeat (destruct He as [<-|He]; [simpl; lia |]). destruct He.
  - exists sa, sb, na, nb.
    assert (L : na <= nb).
    { pose proof (returns_inj _ _ _ _ Hna
                    (getMonthlyMealTotal_returns dhaka _ house_of_two)) as Ea.
      pose proof (returns_inj _ _ _ _ Hnb
                    (getMonthlyMealTotal_returns dhaka _ house_of_two)) as Eb.
      rewrite Ea, Eb. vm_compute. discriminate. }
    repeat split; try assumption. exact (Hle L).
Defined.

(** ** No share is negative, and no due exceeds the share *)

(** When no bill amount, no payment amount and no meal count is negative,
    every row of the settlement report has a total_bills of at least 0 and
    a total_due between 0 and its total_bills: nobody is charged a negative
    share, and nobody owes more than their share. *)
Theorem due_is_between_zero_and_the_share (host : Host) (g : Globals) :
  (forall b, In b (bills g) -> 0 <= Bill.amount b)%Q ->
  (forall p, In p (payments g) -> 0 <= Payment.amount p)%Q ->
  (forall e, In e (mealEntries g) -> 0 <= MealEntry.meal_count e) ->
  exists rows,
    returns (settlementReport host) g rows /\
    forall r, In r rows ->
      (0 <= total_bills r)%Q /\ (0 <= total_due r <= total_bills r)%Q.
Proof.
  intros Hb Hp He.
  exists (map (report_row host g) (members g)).
  split; [apply settlementReport_returns |].
  intros r Hr. apply in_map_iff in Hr as (m & <- & Hm).
  pose proof (bill_total_nonneg _ Hb) as HA.
  pose proof (house_meals_nonneg host (currentDate g) (members g) _ He) as HT.
  assert (HS : (0 <= share host g (global_obj g m))%Q).
  { unfold share. cbn [global_obj member_obj Member.bills Member.mealEntries
                       Member.id].
    destruct (Z.eqb_spec (house_meals host (currentDate g) (members g)
                            (mealEntries g)) 0) as [E|E];
      [apply Qle_refl |].
    apply Qmult_le_0_compat.
    - apply rate_nonneg; [exact HA | lia].
    - pose proof (monthly_nonneg host (currentDate g) (MemberData.id m) _ He).
      unfold Qle. simpl. lia. }
  assert (HP : (0 <= paid_of (MemberData.id m) (payments g))%Q).
  { unfold paid_of, reduce. rewrite fold_left_Qplus_sumQ, Qplus_0_l.
    apply sumQ_nonneg, Forall_forall. intros q Hq.
    apply in_map_iff in Hq as (p & <- & Hin).
    apply filter_In in Hin as [Hin _]. now apply Hp. }
  cbn [report_row total_bills total_due]. split; [exact HS |].
  unfold due_of.
  cbn [global_obj member_obj Member.id Member.payments] in *.
  split; [apply Q.le_max_l |].
  apply Q.max_lub; [exact HS |].
  rewrite <- (Qplus_0_r (share host g _)) at 2.
  apply Qplus_le_compat; [apply Qle_refl |].
  apply (Qopp_le_compat 0). exact HP.
Qed.

Lemma due_is_between_zero_and_the_share_witness :
  exists rows,
    returns (settlementReport dhaka) house_of_three rows /\
    forall r, In r rows ->
      (0 <= total_bills r)%Q /\ (0 <= total_due r <= total_bills r)%Q.
Proof.
  apply (due_is_between_zero_and_the_share dhaka house_of_three).
  - intros b [<-|[]]. discriminate.
  - intros p [<-|[]]. discriminate.
  - intros e He. simpl in He.
    repeat (destruct He as [<-|He]; [simpl; lia |]). destruct He.
Defined.


(** ** Deposits *)

Lemma paid_of_cons id p ps :
  paid_of id (p :: ps)
  == (if String.eqb (Payment.member_id p) id then Payment.amount p else 0)
     + paid_of id ps.
Proof.
  unfold paid_of, reduce. simpl.
  destruct (String.eqb (Payment.member_id p) id); simpl.
  - rewrite !fold_left_Qplus_sumQ. ring.
  - ring.
Qed.

Lemma sumQ_plus {A} (f h : A -> Q) (l : list A) :
  sumQ (map (fun x => f x + h x)%Q l) == sumQ (map f l) + sumQ (map h l).
Proof.
  induction l as [|x l IH]; simpl; [ring | rewrite IH; ring].
Qed.

(** The amount [a] counted once for every member whose id is [x]. *)
Lemma sumQ_unique_id (a : Q) (x : string) (ms : list MemberData.t) :
  NoDup (map MemberData.id ms) ->
  (exists m, In m ms /\ MemberData.id m = x) ->
  sumQ (map (fun m => if String.eqb x (MemberData.id m) then a else 0%Q) ms)
  == a.
Proof.
  induction ms as [|m ms IH]; intros Hnd (m0 & Hin & Hid).
  - destruct Hin.
  - simpl in *. inversion Hnd as [|? ? Hnot Hnd']; subst.
    destruct (String.eqb_spec (MemberData.id m0) (MemberData.id m)) as [E|E].
    + assert (Z0 : sumQ (map (fun m1 => if String.eqb (MemberData.id m0)
                                            (MemberData.id m1) then a else 0%Q)
                           ms) == 0).
      { clear IH Hin Hnd Hnd'. induction ms as [|m1 ms IH]; simpl;
          [reflexivity |].
        destruct (String.eqb_spec (MemberData.id m0) (MemberData.id m1)) as [E1|E1].
        - exfalso. apply Hnot. simpl. left. congruence.
        - rewrite IH; [ring |]. intros H. apply Hnot. now right. }
      rewrite Z0. ring.
    + destruct Hin as [->|Hin]; [congruence |].
      rewrite IH; [ring | exact Hnd' | now exists m0].
Qed.

(** When no two members share an id, every payment is a payment of a
    member of the house, and the amounts are whole numbers, none negative,
    of a total within 2^53 (so that every addition of the program is
    exact), totalDeposits() is the sum of the amounts of all payments: each
    payment is counted once. *)
Theorem total_deposits_count_each_payment_once (g : Globals) :
  NoDup (map MemberData.id (members g)) ->
  (forall p, In p (payments g) ->
     exists m, In m (members g) /\ MemberData.id m = Payment.member_id p) ->
  (forall p, In p (payments g) ->
     exists n : Z, 0 <= n /\ Payment.amount p == inject_Z n) ->
  (sumQ (map Payment.amount (payments g)) <= inject_Z (2 ^ 53))%Q ->
  exists d, returns totalDeposits g d
            /\ d == sumQ (map Payment.amount (payments g)).
Proof.
  intros Hnd Hall _ _. eexists. split; [apply totalDeposits_returns |].
  rewrite fold_left_over_map, fold_left_Qplus_sumQ, Qplus_0_l. simpl.
  induction (payments g) as [|p ps IH].
  - simpl. clear. induction (members g) as [|m ms IH]; simpl;
      [reflexivity |]. rewrite IH. unfold paid_of. simpl. ring.
  - rewrite (sumQ_ext _ (fun m =>
               (if String.eqb (Payment.member_id p) (MemberData.id m)
                then Payment.amount p else 0)
               + paid_of (MemberData.id m) ps)%Q)
      by (intros m _; apply paid_of_cons).
    rewrite sumQ_plus, IH by (intros q Hq; apply Hall; now right).
    rewrite sumQ_unique_id; [reflexivity | exact Hnd |].
    apply Hall. now left.
Qed.

Lemma total_deposits_count_each_payment_once_witness :
  exists d, returns totalDeposits house_with_three_payments d
            /\ d == sumQ (map Payment.amount
                              (payments house_with_three_payments))
            /\ d == 600.
Proof.
  destruct (total_deposits_count_each_payment_once house_with_three_payments)
    as (d & Hd & E).
  - simpl. repeat constructor; simpl; intuition discriminate.
  - intros p [<-|[<-|[<-|[]]]];
      [exists memberA | exists memberB | exists memberB];
      (split; [simpl; tauto | reflexivity]).
  - intros p [<-|[<-|[<-|[]]]];
      [exists 100 | exists 200 | exists 300]; (split; [lia | reflexivity]).
  - vm_compute. discriminate.
  - exists d. split; [exact Hd |]. split; [exact E |].
    rewrite E. reflexivity.
Defined.

(** ** The members table, the settlement table and the report *)

Section TableFacts.

Variable host : Host.

Lemma table_rows_return g bs ps es (l : list MemberData.t) :
  returns
    (memberObjects <- mapM (fun m => new_Member m (Some bs) (Some ps) (Some es)) l ;;
     mapM (fun memberObj =>
       totalPaid <- getTotalPaid memberObj ;;
       totalBills <- getTotalBills host memberObj ;;
       totalDue' <- getTotalDue host memberObj ;;
       monthlyMeals <- getMonthlyMealTotal host memberObj ;;
       ret {| row_monthlyMeals := monthlyMeals;
              row_totalPaid := totalPaid;
              row_totalBills := totalBills;
              row_totalDue := totalDue';
              row_status := if Qlt_le_dec 0 totalDue' then due else paid |})
       memberObjects) g
    (map (table_row host g bs ps es) l).
Proof.
  eapply returns_bind.
  - apply returns_mapM. intros m.
    apply (new_Member_returns m (Some bs) (Some ps) (Some es)).
  - simpl or_else. rewrite <- (map_map (fun m => member_obj m bs ps es)
      (fun o => {| row_monthlyMeals :=
                     monthly host (currentDate g) (Member.id o)
                             (Member.mealEntries o);
                   row_totalPaid := paid_of (Member.id o) (Member.payments o);
                   row_totalBills := share host g o;
                   row_totalDue := due_of host g o;
                   row_status := if Qlt_le_dec 0 (due_of host g o)
                                 then due else paid |})).
    apply returns_mapM. intros o.
    eapply returns_bind; [apply getTotalPaid_returns |].
    eapply returns_bind; [apply getTotalBills_returns |].
    eapply returns_bind; [apply getTotalDue_returns |].
    eapply returns_bind; [apply getMonthlyMealTotal_returns |].
    apply returns_ret.
Qed.

(** What [renderMembersTable] returns, given what [getFilteredData] and
    [getFilteredMembers] return. *)
Lemma renderMembersTable_returns g fb fp fe shown :
  returns (getFilteredData host) g (fb, fp, fe) ->
  returns getFilteredMembers g shown ->
  returns (renderMembersTable host) g
    (if (List.length (members g) =? 0)%nat then []
     else map (table_row host g fb fp fe) shown).
Proof.
  intros Hf Hs. unfold renderMembersTable.
  eapply returns_bind; [apply returns_gets |].
  destruct (List.length (members g) =? 0)%nat; [apply returns_ret |].
  eapply returns_bind; [exact Hf |]. cbv beta iota.
  eapply returns_bind; [exact Hs |].
  apply table_rows_return.
Qed.

Lemma getFilteredMembers_without_search g :
  searchQuery g = EmptyString -> returns getFilteredMembers g (members g).
Proof.
  intros H. unfold getFilteredMembers, returns, bind, gets. now rewrite H.
Qed.

Lemma getFilteredMembers_returns g :
  exists shown, returns getFilteredMembers g shown
                /\ forall m, In m shown -> In m (members g).
Proof.
  unfold getFilteredMembers, returns, bind, gets.
  destruct (negb (truthy (searchQuery g))).
  - eexists. split; [reflexivity | auto].
  - eexists. split; [reflexivity |].
    intros m Hm. now apply filter_In in Hm.
Qed.

Lemma getFilteredData_returns g :
  exists fb fp fe, returns (getFilteredData host) g (fb, fp, fe).
Proof.
  unfold getFilteredData, returns, bind, gets.
  destruct (filterMonth g) as [s|]; [| now do 3 eexists].
  destruct (truthy s); [| now do 3 eexists].
  destruct (year_month_of s). now do 3 eexists.
Qed.

(** In every row of the members table the status is 'due' exactly when the
    bills of the row exceed what the row shows as paid; the due shown is
    then their difference, and it is 0 in a row marked 'paid'. *)
Theorem members_table_status_follows_the_balance (g : Globals) :
  exists rows,
    returns (renderMembersTable host) g rows /\
    forall r, In r rows ->
      (row_status r = due <-> (row_totalPaid r < row_totalBills r)%Q) /\
      (row_status r = due ->
       row_totalDue r == row_totalBills r - row_totalPaid r) /\
      (row_status r = paid -> row_totalDue r == 0).
Proof.
  destruct (getFilteredData_returns g) as (fb & fp & fe & Hf).
  destruct (getFilteredMembers_returns g) as (shown & Hs & _).
  eexists. split; [apply (renderMembersTable_returns g _ _ _ _ Hf Hs) |].
  intros r Hr.
  destruct (List.length (members g) =? 0)%nat; [destruct Hr |].
  apply in_map_iff in Hr as (m & <- & _).
  unfold table_row. cbn [row_status row_totalPaid row_totalBills row_totalDue].
  set (o := member_obj m fb fp fe).
  change (paid_of (Member.id o) fp)
    with (paid_of (Member.id o) (Member.payments o)).
  unfold due_of.
  set (b := share host g o). set (p := paid_of (Member.id o) (Member.payments o)).
  destruct (Qlt_le_dec 0 (Qmax 0 (b - p))) as [Hpos|Hle].
  - assert (Hlt : (p < b)%Q).
    { destruct (Qlt_le_dec p b) as [L|L]; [exact L |].
      exfalso. rewrite Q.max_l in Hpos.
      - discriminate.
      - rewrite <- (Qplus_opp_r p). now apply Qplus_le_compat; [| apply Qle_refl]. }
    split; [tauto |]. split; [| discriminate].
    intros _. apply Q.max_r.
    rewrite <- (Qplus_opp_r p). apply Qplus_le_compat; [| apply Qle_refl].
    now apply Qlt_le_weak.
  - assert (Hz : Qmax 0 (b - p) == 0).
    { apply Qle_antisym; [exact Hle | apply Q.le_max_l]. }
    split; [| split; [discriminate | intros _; exact Hz]].
    split; [discriminate |]. intros Hlt. exfalso.
    assert (H1 : (0 < b - p)%Q).
    { rewrite <- (Qplus_opp_r p). apply Qplus_lt_l. exact Hlt. }
    assert (H2 : (b - p <= Qmax 0 (b - p))%Q) by apply Q.le_max_r.
    rewrite Hz in H2. apply (Qlt_irrefl 0).
    eapply Qlt_le_trans; eassumption.
Qed.

(** With no month selected and nothing typed in the search box, the members
    table shows, row by row, the figures of the settlement report. *)
Theorem members_table_without_filter_matches_the_report (g : Globals) :
  filterMonth g = None \/ filterMonth g = Some EmptyString ->
  searchQuery g = EmptyString ->
  exists rows report,
    returns (renderMembersTable host) g rows /\
    returns (settlementReport host) g report /\
    map (fun r => (row_monthlyMeals r, row_totalPaid r,
                   row_totalBills r, row_totalDue r)) rows
    = map (fun r => (monthly_meals r, total_paid r,
                     total_bills r, total_due r)) report.
Proof.
  intros Hf Hs.
  pose proof (renderMembersTable_returns g _ _ _ _
                (getFilteredData_without_filter host g Hf)
                (getFilteredMembers_without_search g Hs)) as R.
  do 2 eexists. split; [exact R |].
  split; [apply settlementReport_returns |].
  destruct (members g) as [|m ms] eqn:E; [reflexivity |].
  cbn [List.length Nat.eqb]. rewrite !map_map. reflexivity.
Qed.

End TableFacts.

Lemma members_table_without_filter_matches_the_report_witness :
  exists rows report,
    returns (renderMembersTable dhaka) house_of_three rows /\
    returns (settlementReport dhaka) house_of_three report /\
    map (fun r => (row_monthlyMeals r, row_totalPaid r,
                   row_totalBills r, row_totalDue r)) rows
    = map (fun r => (monthly_meals r, total_paid r,
                     total_bills r, total_due r)) report.
Proof.
  apply (members_table_without_filter_matches_the_report dhaka house_of_three).
  - now left.
  - reflexivity.
Defined.

Lemma due_positive_iff (b p : Q) : (0 < Qmax 0 (b - p))%Q <-> (p < b)%Q.
Proof.
  split; intros H.
  - destruct (Qlt_le_dec p b) as [L|L]; [exact L |].
    exfalso. rewrite Q.max_l in H; [discriminate |].
    rewrite <- (Qplus_opp_r p). now apply Qplus_le_compat; [| apply Qle_refl].
  - eapply Qlt_le_trans; [| apply Q.le_max_r].
    rewrite <- (Qplus_opp_r p). now apply Qplus_lt_l.
Qed.

(** ** The house's total due *)

Lemma sumQ_zero_iff (l : list Q) :
  Forall (fun q => 0 <= q)%Q l ->
  (sumQ l == 0 <-> Forall (fun q => q == 0) l).
Proof.
  induction 1 as [|q l Hq Hl IH]; simpl.
  - split; [constructor | reflexivity].
  - pose proof (sumQ_nonneg l Hl) as Hs. split.
    + intros E.
      assert (Eq : q == 0).
      { apply Qle_antisym; [| exact Hq].
        rewrite <- E. rewrite <- (Qplus_0_r q) at 1.
        apply Qplus_le_compat; [apply Qle_refl | exact Hs]. }
      constructor; [exact Eq |]. apply IH.
      rewrite Eq, Qplus_0_l in E. exact E.
    + intros F. inversion F as [|? ? Eq Fl]; subst.
      rewrite Eq, (proj2 IH Fl). reflexivity.
Qed.

Lemma Qmax_floor_zero_iff (b p : Q) : Qmax 0 (b - p) == 0 <-> (b <= p)%Q.
Proof.
  split.
  - intros E. destruct (Qlt_le_dec p b) as [L|L]; [| exact L].
    exfalso. apply (proj2 (due_positive_iff b p)) in L.
    rewrite E in L. discriminate.
  - intros L. apply Q.max_l.
    rewrite <- (Qplus_opp_r p). apply Qplus_le_compat;
      [exact L | apply Qle_refl].
Qed.

(** totalDue() is never negative, and it is 0 exactly when every row of
    the settlement report has a total_paid of at least its total_bills: a
    member who paid more than their share does not make up for one who
    paid less. *)
Theorem total_due_is_zero_when_everyone_has_paid (host : Host) (g : Globals) :
  exists d rows,
    returns (totalDue host) g d /\
    returns (settlementReport host) g rows /\
    (0 <= d)%Q /\
    (d == 0 <-> forall r, In r rows -> (total_bills r <= total_paid r)%Q).
Proof.
  eexists. exists (map (report_row host g) (members g)).
  split; [apply totalDue_returns |].
  split; [apply settlementReport_returns |].
  rewrite fold_left_over_map, fold_left_Qplus_sumQ, Qplus_0_l.
  assert (N : Forall (fun q => 0 <= q)%Q
                (map (fun m => due_of host g (global_obj g m)) (members g))).
  { apply Forall_forall. intros q Hq. apply in_map_iff in Hq as (m & <- & _).
    unfold due_of. apply Q.le_max_l. }
  split; [now apply sumQ_nonneg |].
  rewrite (sumQ_zero_iff _ N), Forall_forall. split.
  - intros H r Hr. apply in_map_iff in Hr as (m & <- & Hm).
    cbn [report_row total_bills total_paid].
    apply Qmax_floor_zero_iff. apply (H (due_of host g (global_obj g m))).
    apply in_map_iff. now exists m.
  - intros H q Hq. apply in_map_iff in Hq as (m & <- & Hm).
    unfold due_of. apply Qmax_floor_zero_iff.
    apply (H (report_row host g m)). apply in_map_iff. now exists m.
Qed.

(** ** The meal rate of the PDF report *)

(** When the total of meals is positive, the meal rate printed in the PDF
    report is the rate of the shares: every row of the report has a
    total_bills of that rate times the row's monthly meals. *)
Theorem the_meal_rate_of_the_report_is_the_rate_of_the_shares
    (host : Host) (g : Globals) :
  exists figs,
    returns (generatePDFReport host) g figs /\
    (0 < pdf_totalMeals figs ->
     forall r, In r (pdf_report figs) ->
       total_bills r == pdf_mealRate figs * inject_Z (monthly_meals r)).
Proof.
  exists (pdf_figures host g).
  split; [apply generatePDFReport_returns |].
  simpl. intros HT.
  set (T := house_meals host (currentDate g) (members g) (mealEntries g)) in *.
  assert (E1 : (0 <? T) = true) by now apply Z.ltb_lt.
  assert (E2 : (T =? 0) = false) by (apply Z.eqb_neq; lia).
  rewrite E1.
  intros r Hr. apply in_map_iff in Hr as (m & <- & _).
  simpl. unfold share. simpl. fold T. rewrite E2. reflexivity.
Qed.

Lemma the_meal_rate_of_the_report_is_the_rate_of_the_shares_witness :
  exists figs,
    returns (generatePDFReport dhaka) house_of_three figs /\
    0 < pdf_totalMeals figs /\
    pdf_mealRate figs == 20 /\
    forall r, In r (pdf_report figs) ->
      total_bills r == pdf_mealRate figs * inject_Z (monthly_meals r).
Proof.
  destruct (the_meal_rate_of_the_report_is_the_rate_of_the_shares
              dhaka house_of_three) as (figs & Hf & H).
  exists figs.
  pose proof (returns_inj _ _ _ _ Hf
                (generatePDFReport_returns dhaka house_of_three)) as E.
  assert (T : 0 < pdf_totalMeals figs) by (rewrite E; reflexivity).
  split; [exact Hf |]. split; [exact T |].
  split; [rewrite E; reflexivity | exact (H T)].
Defined.

(** ** The settlement table *)

Lemma renderSettlement_returns host g :
  returns (renderSettlement host) g
    (map (fun member =>
            {| settled := member;
               status := if Qlt_le_dec 0 (total_due member) then due else paid;
               advancePayment := (total_paid member - total_bills member)%Q |})
         (map (report_row host g) (members g))).
Proof.
  unfold renderSettlement.
  eapply returns_bind; [apply returns_gets |].
  destruct (members g) as [|m ms] eqn:E; [apply returns_ret |].
  cbn [List.length Nat.eqb].
  eapply returns_bind; [apply settlementReport_returns |].
  rewrite E. apply returns_ret.
Qed.

(** The settlement table has one row per row of the settlement report; a
    row is 'Pending' (due) exactly when its advance payment, paid minus
    bills, is negative, the due is then the advance with the sign changed,
    and a row with a positive advance has no due. *)
Theorem settlement_status_and_advance (host : Host) (g : Globals) :
  exists rows report,
    returns (renderSettlement host) g rows /\
    returns (settlementReport host) g report /\
    map settled rows = report /\
    forall r, In r rows ->
      (status r = due <-> (advancePayment r < 0)%Q) /\
      (status r = due -> total_due (settled r) == - advancePayment r) /\
      (status r = paid -> total_due (settled r) == 0).
Proof.
  do 2 eexists. split; [apply renderSettlement_returns |].
  split; [apply settlementReport_returns |].
  split; [rewrite (map_map _ settled), (map_ext _ (fun x => x)) by reflexivity;
          apply map_id |].
  intros r Hr. apply in_map_iff in Hr as (row & <- & Hrow).
  apply in_map_iff in Hrow as (m & <- & _).
  cbn [status advancePayment settled report_row total_due total_paid
       total_bills].
  unfold due_of. cbn [global_obj member_obj Member.id Member.payments].
  set (b := share host g _). set (p := paid_of _ _).
  assert (Hadv : (p - b < 0)%Q <-> (p < b)%Q).
  { split; intros H.
    - apply (Qplus_lt_l _ _ (- b)). now rewrite Qplus_opp_r.
    - apply (Qplus_lt_l _ _ (- b)) in H. now rewrite Qplus_opp_r in H. }
  destruct (Qlt_le_dec 0 (Qmax 0 (b - p))) as [Hpos|Hle].
  - apply (proj1 (due_positive_iff b p)) in Hpos.
    split; [split; [intros _; now apply Hadv | reflexivity] |].
    split; [| discriminate].
    intros _. rewrite Q.max_r.
    + ring.
    + rewrite <- (Qplus_opp_r p). apply Qplus_le_compat; [| apply Qle_refl].
      now apply Qlt_le_weak.
  - assert (Hz : Qmax 0 (b - p) == 0)
      by (apply Qle_antisym; [exact Hle | apply Q.le_max_l]).
    split; [| split; [discriminate | intros _; exact Hz]].
    split; [discriminate |]. intros H. exfalso.
    apply Hadv in H. apply (proj2 (due_positive_iff b p)) in H.
    apply (Qlt_irrefl 0). eapply Qlt_le_trans; eassumption.
Qed.

(** ** The member column of the payments table *)

Lemma find_none_iff {A} (f : A -> bool) (l : list A) :
  find f l = None <-> forall x, In x l -> f x = false.
Proof.
  split.
  - apply find_none.
  - induction l as [|x l IH]; intros H; simpl; [reflexivity |].
    rewrite (H x) by now left. apply IH. intros y Hy. apply H. now right.
Qed.

Lemma find_unique_id (ms : list MemberData.t) (m : MemberData.t) :
  NoDup (map MemberData.id ms) -> In m ms ->
  find (fun x => String.eqb (MemberData.id x) (MemberData.id m)) ms = Some m.
Proof.
  induction ms as [|x ms IH]; intros Hnd Hin; [destruct Hin |].
  simpl in *. inversion Hnd as [|? ? Hnot Hnd']; subst.
  destruct (String.eqb_spec (MemberData.id x) (MemberData.id m)) as [E|E].
  - destruct Hin as [->|Hin]; [reflexivity |].
    exfalso. apply Hnot. rewrite E. now apply in_map.
  - destruct Hin as [->|Hin]; [congruence | now apply IH].
Qed.

(** The payments table lists the payments in store order; a payment whose
    member_id is the id of no member is shown under 'Unknown', and, when no
    two members share an id, a payment of a member is shown under that
    member's name. *)
Theorem payments_are_shown_under_their_member (g : Globals) :
  exists rows,
    returns renderPayments g rows /\
    map fst rows = payments g /\
    forall p shown, In (p, shown) rows ->
      ((forall m, In m (members g) -> MemberData.id m <> Payment.member_id p) ->
       shown = "Unknown"%string) /\
      (NoDup (map MemberData.id (members g)) ->
       forall m, In m (members g) -> MemberData.id m = Payment.member_id p ->
                 shown = MemberData.name m).
Proof.
  unfold renderPayments, returns, bind, gets.
  destruct (payments g) as [|p0 ps] eqn:E.
  - exists []. repeat split; intros; contradiction.
  - cbn [List.length Nat.eqb]. eexists. split; [reflexivity |].
    split; [rewrite map_map, (map_ext _ (fun x => x)) by reflexivity;
            apply map_id |].
    intros p shown Hin. apply in_map_iff in Hin as (q & Hq & _).
    inversion Hq; subst. split.
    + intros Hno.
      assert (F : find (fun m => String.eqb (MemberData.id m)
                                   (Payment.member_id p)) (members g) = None).
      { apply find_none_iff. intros m Hm. apply String.eqb_neq. now apply Hno. }
      now rewrite F.
    + intros Hnd m Hm Hid. rewrite <- Hid.
      now rewrite (find_unique_id _ _ Hnd Hm).
Qed.

Lemma payments_are_shown_under_their_member_witness :
  exists rows,
    returns renderPayments house_of_two_with_dangling_payment rows /\
    map snd rows = ["Unknown"; "Member A"]%string.
Proof.
  destruct (payments_are_shown_under_their_member
              house_of_two_with_dangling_payment) as (rows & Hr & _ & _).
  exists rows. split; [exact Hr |].
  assert (E : renderPayments house_of_two_with_dangling_payment
              = Some (rows, house_of_two_with_dangling_payment)) by exact Hr.
  vm_compute in E. injection E as <-. reflexivity.
Defined.

(** ** A record is in the view of one month at most *)

Lemma in_month_determines_the_month host y m y' m' s :
  in_month host (Some y) (Some m) s = true ->
  in_month host (Some y') (Some m') s = true ->
  y = y' /\ m = m'.
Proof.
  unfold in_month. destruct (new_Date host s) as [t|]; simpl; [| discriminate].
  rewrite !andb_true_iff, !Z.eqb_eq. lia.
Qed.

(** Whatever the host, the views of two different selected months share no
    bill, no payment and no meal entry. *)
Theorem month_views_are_disjoint
    (host : Host) (g : Globals) (y m y' m' : Z) fb fp fe fb' fp' fe' :
  0 <= y <= 9999 -> 0 <= m <= 99 -> 0 <= y' <= 9999 -> 0 <= m' <= 99 ->
  (y, m) <> (y', m') ->
  returns (getFilteredData host)
          (set_filterMonth (Some (month_string y m)) g) (fb, fp, fe) ->
  returns (getFilteredData host)
          (set_filterMonth (Some (month_string y' m')) g) (fb', fp', fe') ->
  (forall b, In b fb -> ~ In b fb') /\
  (forall p, In p fp -> ~ In p fp') /\
  (forall e, In e fe -> ~ In e fe').
Proof.
  intros Hy Hm Hy' Hm' Hne R R'.
  pose proof (getFilteredData_with_filter host
                (set_filterMonth (Some (month_string y m)) g) _
                eq_refl eq_refl) as S.
  pose proof (getFilteredData_with_filter host
                (set_filterMonth (Some (month_string y' m')) g) _
                eq_refl eq_refl) as S'.
  rewrite year_month_of_month_string in S, S' by assumption.
  pose proof (returns_inj _ _ _ _ R S) as E.
  pose proof (returns_inj _ _ _ _ R' S') as E'.
  simpl in E, E'. inversion E; inversion E'; subst.
  repeat split; intros x Hx Hx';
    apply filter_In in Hx as [_ Hx]; apply filter_In in Hx' as [_ Hx'];
    destruct (in_month_determines_the_month _ _ _ _ _ _ Hx Hx');
    congruence.
Qed.

Lemma month_views_are_disjoint_witness :
  exists fb fp fe fb' fp' fe',
    returns (getFilteredData dhaka)
            (set_filterMonth (Some (month_string 2024 3)) two_months_store)
            (fb, fp, fe) /\
    returns (getFilteredData dhaka)
            (set_filterMonth (Some (month_string 2024 2)) two_months_store)
            (fb', fp', fe') /\
    (fb = [bill "b1" 1000 "2024-03-05"]
     /\ fb' = [bill "b2" 400 "2024-02-10"]
     /\ fp = [payment "p1" "A" 600 "2024-03-20"]
     /\ fp' = [payment "p2" "A" 400 "2024-02-12"]
     /\ fe = [meal "A" "2024-03-05" 3]
     /\ fe' = [meal "A" "2024-02-05" 2]) /\
    (forall b, In b fb -> ~ In b fb') /\
    (forall p, In p fp -> ~ In p fp') /\
    (forall e, In e fe -> ~ In e fe').
Proof.
  do 6 eexists.
  split; [reflexivity |]. split; [reflexivity |].
  split; [repeat split |].
  apply (month_views_are_disjoint dhaka two_months_store 2024 3 2024 2);
    try lia; try reflexivity.
  intros E. inversion E.
Defined.

(** * Month navigation *)

Example cursor_days :
  DateObject.DateFromTime (LocalTime dhaka mid_january_2024) = 15
  /\ DateObject.DateFromTime (LocalTime dhaka end_of_january_2024) = 31
  /\ ES.MonthFromTime (LocalTime dhaka end_of_january_2024) = 0.
Proof. repeat split; reflexivity. Qed.

Lemma InLeapYear_DaysInYear t :
  ES.InLeapYear t = ES.DaysInYear (ES.YearFromTime t) - 365.
Proof.
  unfold ES.InLeapYear.
  destruct (DaysInYear_cases (ES.YearFromTime t)) as [E|E]; rewrite E;
    reflexivity.
Qed.

(** Every time value lies in a day of a month of its year. *)
Lemma Day_is_a_day_of_its_month t :
  let y := ES.YearFromTime t in
  let m := ES.MonthFromTime t in
  let d := DateObject.DateFromTime t in
  0 <= m <= 11 /\ 1 <= d <= ES.DaysInMonth m (ES.DaysInYear y - 365)
  /\ ES.Day t = ES.MakeDay y m d.
Proof.
  cbv zeta. unfold DateObject.DateFromTime, ES.MakeDay.
  rewrite InLeapYear_DaysInYear.
  pose proof (YearFromTime_spec t) as S. rewrite DayFromYear_succ in S.
  unfold ES.MonthFromTime. rewrite InLeapYear_DaysInYear.
  unfold ES.DayWithinYear.
  set (y := ES.YearFromTime t) in *.
  set (dw := ES.Day t - ES.DayFromYear y).
  assert (Hdw : 0 <= dw < ES.DaysInYear y) by (unfold dw; lia).
  replace (ES.Day t) with (ES.DayFromYear y + dw) by (unfold dw; lia).
  clearbody dw. clear S.
  destruct (DaysInYear_cases y) as [L|L]; rewrite L in *;
    repeat match goal with
           | |- context [?a <? ?b] => destruct (Z.ltb_spec a b)
           end; cbv [ES.DayFromMonth ES.DaysInMonth]; lia.
Qed.

Lemma time_is_day_and_time_within_day t :
  t = DateObject.MakeDate (ES.Day t) (DateObject.TimeWithinDay t)
  /\ 0 <= DateObject.TimeWithinDay t < ES.msPerDay.
Proof.
  unfold DateObject.MakeDate, DateObject.TimeWithinDay, ES.Day, ES.msPerDay.
  Z.div_mod_to_equations. lia.
Qed.

(** The fields of the time value built from a day of a month and a time of
    day. *)
Lemma fields_of_MakeDate y m d w :
  0 <= m <= 11 -> 1 <= d <= ES.DaysInMonth m (ES.DaysInYear y - 365) ->
  0 <= w < ES.msPerDay ->
  let t := DateObject.MakeDate (ES.MakeDay y m d) w in
  ES.YearFromTime t = y /\ ES.MonthFromTime t = m
  /\ DateObject.DateFromTime t = d /\ DateObject.TimeWithinDay t = w.
Proof.
  intros Hm Hd Hw t.
  assert (HD : ES.Day t = ES.MakeDay y m d).
  { unfold t, ES.Day, DateObject.MakeDate, ES.msPerDay in *.
    Z.div_mod_to_equations. lia. }
  destruct (year_month_of_day t y m d Hm Hd HD) as [HY HM].
  split; [exact HY |]. split; [exact HM |]. split.
  - unfold DateObject.DateFromTime, ES.DayWithinYear.
    rewrite InLeapYear_DaysInYear, HY, HM, HD. unfold ES.MakeDay. lia.
  - unfold t, DateObject.TimeWithinDay, DateObject.MakeDate, ES.msPerDay in *.
    Z.div_mod_to_equations. lia.
Qed.

Lemma set_currentDate_same v g :
  v = currentDate g -> set_currentDate v g = g.
Proof. intros ->. now destruct g. Qed.

Lemma set_currentDate_twice v w g :
  set_currentDate v (set_currentDate w g) = set_currentDate v g.
Proof. reflexivity. Qed.

Lemma DaysInMonth_bounds m leap :
  0 <= leap <= 1 -> 28 <= ES.DaysInMonth m leap <= 31.
Proof.
  intros H. unfold ES.DaysInMonth.
  repeat match goal with
         | |- context [match ?x with _ => _ end] => destruct x
         end; lia.
Qed.

Section MonthButtonFacts.

Variable host : Host.

Lemma onNextMonth_run g :
  onNextMonth host g
  = Some (tt, set_currentDate
                (DateObject.setMonth host (currentDate g)
                   (ES.MonthFromTime (LocalTime host (currentDate g)) + 1)) g).
Proof. reflexivity. Qed.

Lemma onPrevMonth_run g :
  onPrevMonth host g
  = Some (tt, set_currentDate
                (DateObject.setMonth host (currentDate g)
                   (ES.MonthFromTime (LocalTime host (currentDate g)) - 1)) g).
Proof. reflexivity. Qed.

Lemma displayed_month v :
  getMonth host (Some v) = Some (ES.MonthFromTime (LocalTime host v)).
Proof. reflexivity. Qed.

Lemma displayed_year v :
  getFullYear host (Some v) = Some (ES.YearFromTime (LocalTime host v)).
Proof. reflexivity. Qed.

Lemma currentDate_set v g : currentDate (set_currentDate v g) = v.
Proof. reflexivity. Qed.

Lemma local_time_after_setMonth cd month :
  LocalTime host (DateObject.setMonth host cd month)
  = DateObject.MakeDate
      (DateObject.MakeDay (ES.YearFromTime (LocalTime host cd)) month
                          (DateObject.DateFromTime (LocalTime host cd)))
      (DateObject.TimeWithinDay (LocalTime host cd)).
Proof.
  unfold DateObject.setMonth, DateObject.UTC.
  unfold LocalTime at 1. apply Z.sub_add.
Qed.

(** The fields of the local time after [setMonth], when the day of the
    month exists in the target month. *)
Lemma fields_after_setMonth cd k :
  DateObject.DateFromTime (LocalTime host cd)
  <= ES.DaysInMonth (k mod 12)
       (ES.DaysInYear (ES.YearFromTime (LocalTime host cd) + k / 12) - 365) ->
  ES.YearFromTime (LocalTime host (DateObject.setMonth host cd k))
  = ES.YearFromTime (LocalTime host cd) + k / 12
  /\ ES.MonthFromTime (LocalTime host (DateObject.setMonth host cd k))
     = k mod 12
  /\ DateObject.DateFromTime (LocalTime host (DateObject.setMonth host cd k))
     = DateObject.DateFromTime (LocalTime host cd)
  /\ DateObject.TimeWithinDay (LocalTime host (DateObject.setMonth host cd k))
     = DateObject.TimeWithinDay (LocalTime host cd).
Proof.
  intros Hd. rewrite local_time_after_setMonth.
  apply fields_of_MakeDate.
  - pose proof (Z.mod_pos_bound k 12); lia.
  - split; [| exact Hd].
    apply (Day_is_a_day_of_its_month (LocalTime host cd)).
  - apply time_is_day_and_time_within_day.
Qed.

(** Setting the month back restores the time value. *)
Lemma setMonth_back t' y m d w tza k :
  t' = DateObject.MakeDate (ES.MakeDay y m d) w ->
  (y + (m + 1) / 12) + k / 12 = y -> k mod 12 = m ->
  DateObject.MakeDate
    (DateObject.MakeDay (y + (m + 1) / 12) k d) w - tza = t' - tza.
Proof.
  intros -> Hy Hk. unfold DateObject.MakeDay. now rewrite Hy, Hk.
Qed.

(** When the day of the month the cursor stands on exists in the next
    month, [setMonth(getMonth() + 1)] lands on the same day of the next
    month and [setMonth(getMonth() - 1)] then computes the time value the
    cursor had, the offset of local time being the one constant [LocalTZA]
    of the host. *)
Lemma next_month_then_prev_month_run (g : Globals) :
  DateObject.DateFromTime (LocalTime host (currentDate g))
  <= next_month_length host (currentDate g) ->
  exists g',
    onNextMonth host g = Some (tt, g') /\
    getMonth host (Some (currentDate g'))
    = Some ((ES.MonthFromTime (LocalTime host (currentDate g)) + 1) mod 12) /\
    getFullYear host (Some (currentDate g'))
    = Some (ES.YearFromTime (LocalTime host (currentDate g))
            + (ES.MonthFromTime (LocalTime host (currentDate g)) + 1) / 12) /\
    onPrevMonth host g' = Some (tt, g).
Proof.
  intros Hd.
  destruct (fields_after_setMonth (currentDate g)
              (ES.MonthFromTime (LocalTime host (currentDate g)) + 1) Hd)
    as (FY & FM & FD & FW).
  eexists. split; [apply onNextMonth_run |].
  rewrite onPrevMonth_run, !currentDate_set, set_currentDate_twice,
    displayed_month, displayed_year.
  split; [f_equal; exact FM |]. split; [f_equal; exact FY |].
  rewrite set_currentDate_same; [reflexivity |].
  unfold DateObject.setMonth at 1. rewrite FY, FM, FD, FW.
  unfold DateObject.UTC.
  destruct (Day_is_a_day_of_its_month (LocalTime host (currentDate g)))
    as (Hm & Hdm & HD).
  destruct (time_is_day_and_time_within_day (LocalTime host (currentDate g)))
    as (Ht & Hw).
  rewrite HD in Ht.
  rewrite (setMonth_back _ _ _ _ _ (LocalTZA host) _ Ht).
  - unfold LocalTime. apply Z.add_simpl_r.
  - Z.div_mod_to_equations; lia.
  - Z.div_mod_to_equations; lia.
Qed.


(** On a host whose local time differs from UTC by a fixed offset (a time
    zone without daylight saving), when the day of the month the cursor
    stands on exists in the next month, the prev-month button undoes the
    next-month button: the cursor is back at the very instant it left, so
    the whole state is as before. *)
Theorem prev_month_undoes_next_month_at_a_fixed_offset (g : Globals) :
  DateObject.DateFromTime (LocalTime host (currentDate g))
  <= next_month_length host (currentDate g) ->
  exists g',
    onNextMonth host g = Some (tt, g') /\
    onPrevMonth host g' = Some (tt, g).
Proof.
  intros Hd.
  destruct (next_month_then_prev_month_run g Hd)
    as (g' & Hn & _ & _ & Hp).
  exists g'. split; assumption.
Qed.

(** The time value a month later when the day does not exist there: the
    days beyond the end of the month are days of the month after it. *)
Lemma overflow_into_the_month_after y m d w t' :
  0 <= m <= 11 -> 1 <= d <= ES.DaysInMonth m (ES.DaysInYear y - 365) ->
  0 <= w < ES.msPerDay ->
  ES.DaysInMonth ((m + 1) mod 12)
    (ES.DaysInYear (y + (m + 1) / 12) - 365) < d ->
  t' = DateObject.MakeDate (DateObject.MakeDay y (m + 1) d) w ->
  ES.YearFromTime t' = y /\ ES.MonthFromTime t' = m + 2.
Proof.
  intros Hm Hdm Hw Hd HL.
  assert (Hleap : 0 <= ES.DaysInYear y - 365 <= 1)
    by (destruct (DaysInYear_cases y); lia).
  assert (Hd31 : d <= 31)
    by (pose proof (DaysInMonth_bounds m _ Hleap); lia).
  assert (Hq : (m + 1) / 12 = 0 \/ m = 11) by (Z.div_mod_to_equations; lia).
  destruct Hq as [Hq|Hq].
  2:{ exfalso. rewrite Hq in Hd. simpl in Hd. lia. }
  assert (Hr : (m + 1) mod 12 = m + 1) by (Z.div_mod_to_equations; lia).
  rewrite Hq, Hr, Z.add_0_r in Hd.
  unfold DateObject.MakeDay in HL. rewrite Hq, Hr, Z.add_0_r in HL.
  assert (Hcase : m = 0 \/ m = 2 \/ m = 4 \/ m = 7 \/ m = 9).
  { destruct Hleap as [_ Hl]. clear HL Hq Hr.
    month_cases m; simpl in Hd; lia. }
  remember (ES.DaysInMonth (m + 1) (ES.DaysInYear y - 365)) as len eqn:El.
  assert (Hlen : 28 <= len <= 31)
    by (rewrite El; apply DaysInMonth_bounds; lia).
  assert (HM : ES.MakeDay y (m + 1) d = ES.MakeDay y (m + 2) (d - len)).
  { unfold ES.MakeDay. rewrite El.
    destruct Hcase as [E | [E | [E | [E | E]]]]; rewrite E;
      [ change (0 + 1) with 1; change (0 + 2) with 2
      | change (2 + 1) with 3; change (2 + 2) with 4
      | change (4 + 1) with 5; change (4 + 2) with 6
      | change (7 + 1) with 8; change (7 + 2) with 9
      | change (9 + 1) with 10; change (9 + 2) with 11 ];
      cbv [ES.DayFromMonth ES.DaysInMonth]; lia. }
  rewrite HM in HL.
  destruct (fields_of_MakeDate y (m + 2) (d - len) w) as (FY & FM & _);
    [lia | | exact Hw |].
  { pose proof (DaysInMonth_bounds (m + 2) _ Hleap). lia. }
  rewrite HL. split; assumption.
Qed.

(** When the day of the month the cursor stands on does not exist in the
    next month (the 31st before a month of 30 days, the 29th to 31st of
    January before February), the next-month button skips that month: the
    displayed month moves forward by two. *)
Theorem next_month_skips_a_shorter_month (g : Globals) :
  next_month_length host (currentDate g)
  < DateObject.DateFromTime (LocalTime host (currentDate g)) ->
  exists g',
    onNextMonth host g = Some (tt, g') /\
    getMonth host (Some (currentDate g'))
    = Some (ES.MonthFromTime (LocalTime host (currentDate g)) + 2) /\
    getFullYear host (Some (currentDate g'))
    = Some (ES.YearFromTime (LocalTime host (currentDate g))).
Proof.
  intros Hd. eexists. split; [apply onNextMonth_run |].
  rewrite !currentDate_set, displayed_month, displayed_year.
  destruct (Day_is_a_day_of_its_month (LocalTime host (currentDate g)))
    as (Hm & Hdm & _).
  destruct (time_is_day_and_time_within_day (LocalTime host (currentDate g)))
    as (_ & Hw).
  destruct (overflow_into_the_month_after _ _ _ _ _ Hm Hdm Hw Hd
              (local_time_after_setMonth (currentDate g) _)) as (FY & FM).
  split; f_equal; assumption.
Qed.

End MonthButtonFacts.


Lemma prev_month_undoes_next_month_at_a_fixed_offset_witness :
  exists g',
    onNextMonth dhaka (set_currentDate mid_january_2024 house_of_two)
    = Some (tt, g') /\
    onPrevMonth dhaka g'
    = Some (tt, set_currentDate mid_january_2024 house_of_two).
Proof.
  apply (prev_month_undoes_next_month_at_a_fixed_offset dhaka
           (set_currentDate mid_january_2024 house_of_two)).
  vm_compute. discriminate.
Defined.

Lemma next_month_skips_a_shorter_month_witness :
  exists g',
    onNextMonth dhaka (set_currentDate end_of_january_2024 house_of_two)
    = Some (tt, g') /\
    getMonth dhaka (Some (currentDate g')) = Some 2.
Proof.
  destruct (next_month_skips_a_shorter_month dhaka
              (set_currentDate end_of_january_2024 house_of_two))
    as (g' & Hn & Hm & _).
  - vm_compute. reflexivity.
  - exists g'. split; assumption.
Defined.

(** * The record store *)

Example parseInt_examples :
  JS.parseInt "3" = Some 3 /\ JS.parseInt "3.9" = Some 3
  /\ JS.parseInt "" = None /\ JS.parseInt "  42abc" = Some 42
  /\ JS.parseInt "-7" = Some (-7) /\ JS.parseInt "0x1A" = Some 26
  /\ JS.parseInt "abc" = None /\ JS.parseInt "1e3" = Some 1
  /\ JS.parseInt "0x" = None /\ JS.parseInt "+12" = Some 12.
Proof. repeat split; reflexivity. Qed.

Example house_of_two_app_is_synced : synced house_of_two_app.
Proof. repeat split. Qed.

(** ** The views follow the store *)

Lemma updateAllViews_synced a : synced (updateAllViews a).
Proof. repeat split. Qed.

Lemma mealEntries_of_assign memberId date count l :
  mealEntries_of (assign_meal_count memberId date count l)
  = assign_meal_count_in_view memberId date count (mealEntries_of l).
Proof.
  induction l as [|d l IH]; [reflexivity |].
  destruct d as [m|id b|id p|id e]; simpl; try exact IH.
  destruct (same_day memberId date e); simpl; [reflexivity | now rewrite IH].
Qed.

Lemma members_of_assign memberId date count l :
  members_of (assign_meal_count memberId date count l) = members_of l.
Proof.
  induction l as [|d l IH]; [reflexivity |].
  destruct d as [m|id b|id p|id e]; simpl; try (now rewrite IH).
  destruct (same_day memberId date e); simpl; [reflexivity | exact IH].
Qed.

Lemma bills_of_assign memberId date count l :
  bills_of (assign_meal_count memberId date count l) = bills_of l.
Proof.
  induction l as [|d l IH]; [reflexivity |].
  destruct d as [m|id b|id p|id e]; simpl; try (now rewrite IH).
  destruct (same_day memberId date e); simpl; [reflexivity | exact IH].
Qed.

Lemma payments_of_assign memberId date count l :
  payments_of (assign_meal_count memberId date count l) = payments_of l.
Proof.
  induction l as [|d l IH]; [reflexivity |].
  destruct d as [m|id b|id p|id e]; simpl; try (now rewrite IH).
  destruct (same_day memberId date e); simpl; [reflexivity | exact IH].
Qed.

Lemma createRecord_synced o r a :
  synced a -> synced (snd (createRecord o r a)).
Proof.
  intros H. unfold createRecord.
  destruct (useLocalStorage a); [apply updateAllViews_synced |].
  now destruct (dataSdk o).
Qed.

Lemma deleteRecord_synced o r a :
  synced a -> synced (snd (deleteRecord o r a)).
Proof.
  intros H. unfold deleteRecord.
  destruct (useLocalStorage a); [apply updateAllViews_synced |].
  now destruct (dataSdk o).
Qed.

Lemma updateMealCountDirect_synced o memberId newValue a :
  synced a -> synced (updateMealCountDirect o memberId newValue a).
Proof.
  intros H. unfold updateMealCountDirect.
  destruct (parseInt_or_0 newValue <? 0); [exact H |].
  destruct (find _ (allData a)) as [existing|].
  - destruct (parseInt_or_0 newValue =? 0);
      [now apply deleteRecord_synced |].
    cbn [useLocalStorage set_mealEntries_view set_globals set_allData].
    destruct (useLocalStorage a); cbn [andb].
    + apply updateAllViews_synced.
    + destruct H as (Hm & Hb & Hp & He).
      unfold synced. cbn.
      rewrite members_of_assign, bills_of_assign, payments_of_assign,
        mealEntries_of_assign, <- He.
      now repeat split.
  - destruct (0 <? parseInt_or_0 newValue);
      [now apply createRecord_synced | exact H].
Qed.

(** Whatever the mode and whatever the outside answers, every operation on
    the store leaves the four global collections equal to the parts of
    allData of their types, in the order of allData, if they were so
    before. *)
Theorem views_follow_the_store
    (o : Outside) (a : App) (r : StoredRecord) (data : list StoredRecord)
    (memberId newValue name phone joinDate backendId : string) :
  synced a ->
  synced (snd (createRecord o r a)) /\
  synced (snd (deleteRecord o r a)) /\
  synced (updateMealCountDirect o memberId newValue a) /\
  synced (snd (handleMemberSubmit o name phone joinDate a)) /\
  synced (confirmDeleteMember o backendId a) /\
  synced (onDataChanged data a) /\
  synced (loadFromLocalStorage a).
Proof.
  intros H.
  split; [now apply createRecord_synced |].
  split; [now apply deleteRecord_synced |].
  split; [now apply updateMealCountDirect_synced |].
  split.
  { unfold handleMemberSubmit.
    destruct (999 <=? List.length (allData a))%nat; [exact H |].
    match goal with
    | |- context [createRecord o ?m a] =>
        pose proof (createRecord_synced o m a H) as S;
        destruct (createRecord o m a)
    end. exact S. }
  split.
  { unfold confirmDeleteMember.
    destruct (find _ (members (globals a)));
      [now apply deleteRecord_synced | exact H]. }
  split; [apply updateAllViews_synced |].
  unfold loadFromLocalStorage.
  destruct (useLocalStorage a); [apply updateAllViews_synced | exact H].
Qed.

Lemma views_follow_the_store_witness :
  synced (updateMealCountDirect storage_works "A" "4" house_of_two_app)
  /\ synced (confirmDeleteMember storage_works "A" house_of_two_app).
Proof.
  destruct (views_follow_the_store storage_works house_of_two_app
              (member_record memberC) [] "A" "4" "" "" "" "A"
              house_of_two_app_is_synced)
    as (_ & _ & H1 & _ & H2 & _).
  split; assumption.
Defined.

(** ** Creating and deleting records *)

Lemma payments_of_app l1 l2 :
  payments_of (l1 ++ l2) = payments_of l1 ++ payments_of l2.
Proof. apply flat_map_app. Qed.

Lemma members_of_app l1 l2 :
  members_of (l1 ++ l2) = members_of l1 ++ members_of l2.
Proof. apply flat_map_app. Qed.

Lemma bills_of_app l1 l2 :
  bills_of (l1 ++ l2) = bills_of l1 ++ bills_of l2.
Proof. apply flat_map_app. Qed.

Lemma mealEntries_of_app l1 l2 :
  mealEntries_of (l1 ++ l2) = mealEntries_of l1 ++ mealEntries_of l2.
Proof. apply flat_map_app. Qed.

Lemma paid_of_app id ps qs :
  paid_of id (ps ++ qs) == paid_of id ps + paid_of id qs.
Proof.
  unfold paid_of, reduce. rewrite filter_app, fold_left_app.
  rewrite !fold_left_Qplus_sumQ. ring.
Qed.

Lemma save_and_update o l a :
  updateAllViews (snd (LocalStorage_save o (set_allData l a)))
  = after_local_change o l a.
Proof.
  unfold LocalStorage_save, after_local_change.
  destruct (setItem_succeeds o); reflexivity.
Qed.

Lemma createRecord_local o r a :
  useLocalStorage a = true ->
  createRecord o r a
  = (true, after_local_change o
             (allData a ++ [with_backendId (fresh_backendId o) r]) a).
Proof.
  intros H. unfold createRecord. rewrite H. now rewrite save_and_update.
Qed.

Lemma deleteRecord_local o r a :
  useLocalStorage a = true ->
  deleteRecord o r a
  = (true, after_local_change o
             (filter (fun d => negb (String.eqb (backendId_of d)
                                                (backendId_of r)))
                     (allData a)) a).
Proof.
  intros H. unfold deleteRecord. rewrite H. now rewrite save_and_update.
Qed.

(** In local-storage mode, recording a payment reports success whether or
    not the browser could save it, appends it to the payments, leaves the
    members, the bills and the meal entries as they were, and raises
    getTotalPaid() by its amount for the member it names and for nobody
    else. *)
Theorem a_new_payment_raises_its_members_total_paid
    (o : Outside) (a : App) (id : string) (p : Payment.t) (m : MemberData.t) :
  useLocalStorage a = true -> synced a ->
  let (isOk, a') := createRecord o (payment_record id p) a in
  isOk = true /\
  payments (globals a') = payments (globals a) ++ [p] /\
  members (globals a') = members (globals a) /\
  bills (globals a') = bills (globals a) /\
  mealEntries (globals a') = mealEntries (globals a) /\
  exists before after,
    returns (getTotalPaid (global_obj (globals a) m)) (globals a) before /\
    returns (getTotalPaid (global_obj (globals a') m)) (globals a') after /\
    after == before
             + (if String.eqb (Payment.member_id p) (MemberData.id m)
                then Payment.amount p else 0).
Proof.
  intros Hl (Hm & Hb & Hp & He). rewrite (createRecord_local o _ a Hl).
  cbn [after_local_change globals members bills payments mealEntries
       with_backendId].
  rewrite payments_of_app, members_of_app, bills_of_app, mealEntries_of_app.
  cbn [payments_of members_of bills_of mealEntries_of flat_map app].
  rewrite !app_nil_r, <- Hm, <- Hb, <- Hp, <- He.
  repeat (split; [reflexivity |]).
  do 2 eexists.
  split; [apply getTotalPaid_returns |].
  split; [apply getTotalPaid_returns |].
  unfold global_obj, member_obj. cbn [Member.id Member.payments payments].
  rewrite paid_of_app, paid_of_cons.
  assert (E0 : paid_of (MemberData.id m) [] = 0%Q) by reflexivity.
  rewrite E0. ring.
Qed.

Lemma a_new_payment_raises_its_members_total_paid_witness :
  let (isOk, a') :=
    createRecord storage_full
      (payment_record "" (payment "p2" "B" 400 "2024-03-21"))
      house_of_two_app in
  isOk = true /\
  exists before after,
    returns (getTotalPaid (global_obj (globals house_of_two_app) memberB))
            (globals house_of_two_app) before /\
    returns (getTotalPaid (global_obj (globals a') memberB)) (globals a') after /\
    after == before + 400.
Proof.
  pose proof (a_new_payment_raises_its_members_total_paid storage_full
                house_of_two_app "" (payment "p2" "B" 400 "2024-03-21")
                memberB eq_refl house_of_two_app_is_synced) as H.
  destruct (createRecord storage_full _ house_of_two_app) as [isOk a'].
  destruct H as (Hok & _ & _ & _ & _ & before & after & Hb & Ha & E).
  split; [exact Hok |]. exists before, after. repeat split; assumption.
Defined.

Lemma filter_all {A} (f : A -> bool) (l : list A) :
  (forall x, In x l -> f x = true) -> filter f l = l.
Proof.
  induction l as [|x l IH]; intros H; simpl; [reflexivity |].
  rewrite (H x) by now left. f_equal. apply IH. intros y Hy. apply H. now right.
Qed.

Lemma backendId_of_with_backendId id r :
  backendId_of (with_backendId id r) = id.
Proof. now destruct r. Qed.

(** In local-storage mode, when the id given to a new record is the
    __backendId of no record of the store, deleting the record just created
    restores allData and the four collections; and if the browser saves,
    the saved item is again the store as it was. *)
Theorem deleting_the_created_record_restores_the_store
    (o o' : Outside) (a : App) (r : StoredRecord) :
  useLocalStorage a = true -> synced a ->
  (forall d, In d (allData a) -> backendId_of d <> fresh_backendId o) ->
  let created := with_backendId (fresh_backendId o) r in
  let a1 := snd (createRecord o r a) in
  let a2 := snd (deleteRecord o' created a1) in
  allData a1 = allData a ++ [created] /\
  allData a2 = allData a /\
  globals a2 = globals a /\
  (setItem_succeeds o' = true -> storage a2 = Some (allData a)).
Proof.
  intros Hl Hs Hfresh. cbv zeta.
  rewrite (createRecord_local o r a Hl). cbn [snd].
  rewrite deleteRecord_local by exact Hl. cbn [snd].
  cbn [after_local_change allData globals storage filterMonth searchQuery
       currentDate].
  assert (F : filter (fun d => negb (String.eqb (backendId_of d)
                        (backendId_of (with_backendId (fresh_backendId o) r))))
                (allData a ++ [with_backendId (fresh_backendId o) r])
              = allData a).
  { rewrite filter_app, backendId_of_with_backendId. cbn [filter].
    rewrite backendId_of_with_backendId, String.eqb_refl. cbn [negb].
    rewrite app_nil_r. apply filter_all. intros d Hd.
    apply negb_true_iff, String.eqb_neq. now apply Hfresh. }
  rewrite F. split; [reflexivity |]. split; [reflexivity |]. split.
  - destruct Hs as (Hm & Hb & Hp & He). rewrite <- Hm, <- Hb, <- Hp, <- He.
    now destruct (globals a).
  - intros Hok. now rewrite Hok.
Qed.

Lemma deleting_the_created_record_restores_the_store_witness :
  let created := with_backendId (fresh_backendId storage_works)
                                (member_record memberC) in
  let a1 := snd (createRecord storage_works (member_record memberC)
                              house_of_two_app) in
  let a2 := snd (deleteRecord storage_works created a1) in
  allData a1 = allData house_of_two_app ++ [created] /\
  allData a2 = allData house_of_two_app /\
  globals a2 = globals house_of_two_app /\
  (setItem_succeeds storage_works = true ->
   storage a2 = Some (allData house_of_two_app)).
Proof.
  apply (deleting_the_created_record_restores_the_store storage_works
           storage_works house_of_two_app (member_record memberC) eq_refl
           house_of_two_app_is_synced).
  intros d Hd. cbn in Hd.
  repeat (destruct Hd as [<-|Hd]; [discriminate |]). destruct Hd.
Defined.

(** In local-storage mode createRecord reports success whether or not the
    browser could save.  When it could, the saved item is the new store,
    and loading it back gives the same records; when it could not, the
    saved item is what it was, so the new record is lost at the next
    load. *)
Theorem a_created_record_survives_a_reload_only_if_saved
    (o : Outside) (a : App) (r : StoredRecord) :
  useLocalStorage a = true ->
  let (isOk, a') := createRecord o r a in
  isOk = true /\
  allData a' = allData a ++ [with_backendId (fresh_backendId o) r] /\
  (setItem_succeeds o = true ->
   allData (loadFromLocalStorage a') = allData a') /\
  (setItem_succeeds o = false ->
   allData (loadFromLocalStorage a') = LocalStorage_load a).
Proof.
  intros Hl. rewrite (createRecord_local o r a Hl).
  unfold loadFromLocalStorage, LocalStorage_load.
  cbn [after_local_change useLocalStorage allData storage]. rewrite Hl.
  split; [reflexivity |]. split; [reflexivity |].
  split; intros E; rewrite E; reflexivity.
Qed.

Lemma a_created_record_survives_a_reload_only_if_saved_witness :
  let (isOk, a') := createRecord storage_full (member_record memberC)
                                 house_of_two_app in
  isOk = true /\
  allData (loadFromLocalStorage a') = allData house_of_two_app.
Proof.
  pose proof (a_created_record_survives_a_reload_only_if_saved storage_full
                house_of_two_app (member_record memberC) eq_refl) as H.
  destruct (createRecord storage_full _ house_of_two_app) as [isOk a'].
  destruct H as (Hok & _ & _ & H). split; [exact Hok |].
  exact (H eq_refl).
Defined.

(** ** The meal counter *)

Lemma find_split {A} (f : A -> bool) (l : list A) (x : A) :
  find f l = Some x ->
  exists l1 l2, l = l1 ++ x :: l2 /\ (forall y, In y l1 -> f y = false)
                /\ f x = true.
Proof.
  induction l as [|y l IH]; [discriminate |]. simpl.
  destruct (f y) eqn:E.
  - intros H. inversion H; subst. exists [], l. repeat split; auto.
    intros z [].
  - intros H. destruct (IH H) as (l1 & l2 & -> & Hn & Hx).
    exists (y :: l1), l2. repeat split; auto.
    intros z [<-|Hz]; auto.
Qed.

Lemma no_meal_record_no_entry memberId date l :
  (forall d, In d l -> is_meal_record_for memberId date d = false) ->
  filter (same_day memberId date) (mealEntries_of l) = [].
Proof.
  induction l as [|d l IH]; intros H; [reflexivity |].
  assert (Hd := H d (or_introl eq_refl)).
  assert (Hl : filter (same_day memberId date) (mealEntries_of l) = [])
    by (apply IH; intros x Hx; apply H; now right).
  destruct d as [m|id b|id p|id e]; simpl; try exact Hl.
  simpl in Hd. now rewrite Hd.
Qed.

Lemma find_of_filter_nil {A} (f : A -> bool) (l : list A) :
  filter f l = [] -> find f l = None.
Proof. intros H. now rewrite find_is_first_of_filter, H. Qed.

Lemma same_day_with_meal_count x y count e :
  same_day x y (with_meal_count count e) = same_day x y e.
Proof. reflexivity. Qed.

Lemma find_in_assigned_view memberId date count es e :
  find (same_day memberId date) es = Some e ->
  find (same_day memberId date)
       (assign_meal_count_in_view memberId date count es)
  = Some (with_meal_count count e).
Proof.
  induction es as [|x es IH]; [discriminate |]. simpl.
  destruct (same_day memberId date x) eqn:E; simpl.
  - intros H. inversion H; subst.
    now rewrite same_day_with_meal_count, E.
  - rewrite E. exact IH.
Qed.

Lemma find_record_find_entry memberId date l r :
  find (is_meal_record_for memberId date) l = Some r ->
  exists id e, r = meal_entry_record id e
               /\ find (same_day memberId date) (mealEntries_of l) = Some e.
Proof.
  induction l as [|d l IH]; [discriminate |]. simpl.
  destruct d as [m|id b|id p|id e]; simpl; try exact IH.
  destruct (same_day memberId date e) eqn:E.
  - intros H. inversion H; subst. now exists id, e.
  - exact IH.
Qed.

Lemma find_record_none memberId date l :
  find (is_meal_record_for memberId date) l = None ->
  filter (same_day memberId date) (mealEntries_of l) = [].
Proof.
  intros H. apply no_meal_record_no_entry. now apply find_none.
Qed.

Lemma same_day_new_entry id memberId date count :
  same_day memberId date
    {| MealEntry.id := id; MealEntry.member_id := memberId;
       MealEntry.meal_date := date; MealEntry.meal_count := count |} = true.
Proof. unfold same_day. cbn. now rewrite !String.eqb_refl. Qed.

Lemma save_and_update_view o l es a :
  updateAllViews
    (snd (LocalStorage_save o (set_mealEntries_view (set_allData l a) es)))
  = after_local_change o l a.
Proof.
  unfold LocalStorage_save, after_local_change.
  destruct (setItem_succeeds o); reflexivity.
Qed.

(** In local-storage mode, after a count greater than 0 is typed for a
    member on the meals page, getMealCountForDate() of that member for the
    selected day returns that count, whether an entry existed or not. *)
Theorem the_count_typed_is_the_count_read
    (o : Outside) (a : App) (memberId newValue : string) (this : Member.t) :
  useLocalStorage a = true -> synced a ->
  0 < parseInt_or_0 newValue ->
  let a' := updateMealCountDirect o memberId newValue a in
  Member.id this = memberId ->
  Member.mealEntries this = mealEntries (globals a') ->
  returns (getMealCountForDate this (selectedMealDate a)) (globals a')
          (parseInt_or_0 newValue).
Proof.
  intros Hl Hs Hc a' Hid Hes.
  pose proof (getMealCountForDate_returns this (selectedMealDate a)
                (globals a')) as R.
  rewrite Hid, Hes in R.
  change (fun m => String.eqb (MealEntry.member_id m) memberId
                   && String.eqb (MealEntry.meal_date m) (selectedMealDate a))
    with (same_day memberId (selectedMealDate a)) in R.
  assert (F : find (same_day memberId (selectedMealDate a))
                   (mealEntries (globals a'))
              = Some (with_meal_count (parseInt_or_0 newValue)
                        (match find (same_day memberId (selectedMealDate a))
                                    (mealEntries (globals a')) with
                         | Some e => e
                         | None => meal "" "" 0
                         end))).
  { unfold a', updateMealCountDirect.
    assert (E1 : (parseInt_or_0 newValue <? 0) = false)
      by (apply Z.ltb_ge; lia).
    assert (E2 : (parseInt_or_0 newValue =? 0) = false)
      by (apply Z.eqb_neq; lia).
    assert (E3 : (0 <? parseInt_or_0 newValue) = true)
      by now apply Z.ltb_lt.
    rewrite E1.
    destruct (find (is_meal_record_for memberId (selectedMealDate a))
                   (allData a)) as [r|] eqn:Ef.
    - rewrite E2.
      cbn [useLocalStorage set_mealEntries_view set_globals set_allData].
      rewrite Hl. cbn [andb].
      rewrite save_and_update_view.
      cbn [after_local_change globals mealEntries allData set_globals
           set_allData].
      rewrite mealEntries_of_assign.
      destruct (find_record_find_entry _ _ _ _ Ef) as (id & e & -> & Fe).
      rewrite (find_in_assigned_view _ _ _ _ _ Fe). reflexivity.
    - rewrite E3, (createRecord_local o _ a Hl).
      cbn [snd after_local_change globals mealEntries with_backendId].
      rewrite mealEntries_of_app.
      cbn [mealEntries_of flat_map app].
      rewrite !find_is_first_of_filter, filter_app, (find_record_none _ _ _ Ef).
      cbn [filter app]. rewrite same_day_new_entry. reflexivity. }
  rewrite F in R. exact R.
Qed.

Lemma the_count_typed_is_the_count_read_witness :
  returns (getMealCountForDate
             (global_obj (globals (updateMealCountDirect storage_works "B" "5"
                                     house_of_two_app)) memberB)
             "2024-03-05")
          (globals (updateMealCountDirect storage_works "B" "5"
                      house_of_two_app))
          5.
Proof.
  apply (the_count_typed_is_the_count_read storage_works house_of_two_app
           "B" "5"
           (global_obj (globals (updateMealCountDirect storage_works "B" "5"
                                   house_of_two_app)) memberB));
    [reflexivity | exact house_of_two_app_is_synced | reflexivity
    | reflexivity | reflexivity].
Defined.

(** *** One entry per member and day *)

Lemma filter_assigned_view_length x y memberId date count es :
  List.length (filter (same_day x y)
                 (assign_meal_count_in_view memberId date count es))
  = List.length (filter (same_day x y) es).
Proof.
  induction es as [|e es IH]; [reflexivity |]. simpl.
  destruct (same_day memberId date e); simpl.
  - rewrite same_day_with_meal_count. now destruct (same_day x y e).
  - destruct (same_day x y e); simpl; now rewrite IH.
Qed.

Lemma filter_view_of_filter_length (f : MealEntry.t -> bool)
    (P : StoredRecord -> bool) l :
  (List.length (filter f (mealEntries_of (filter P l)))
   <= List.length (filter f (mealEntries_of l)))%nat.
Proof.
  induction l as [|d l IH]; [apply le_n |]. simpl.
  destruct (P d); destruct d as [m|id b|id p|id e]; simpl; try exact IH;
    destruct (f e); simpl; lia.
Qed.

Lemma same_day_eq x y e :
  same_day x y e = true ->
  MealEntry.member_id e = x /\ MealEntry.meal_date e = y.
Proof.
  unfold same_day. rewrite andb_true_iff, !String.eqb_eq. tauto.
Qed.

(** In local-storage mode, if the meal entries hold at most one entry per
    member and day, they still do after a count was typed on the meals
    page: an existing entry is changed or deleted, and an entry is created
    only when there was none. *)
Theorem the_meal_counter_keeps_one_entry_per_day
    (o : Outside) (a : App) (memberId newValue : string) :
  useLocalStorage a = true ->
  synced a ->
  one_entry_per_day (mealEntries (globals a)) ->
  one_entry_per_day
    (mealEntries (globals (updateMealCountDirect o memberId newValue a))).
Proof.
  intros Hlocal Hs H1. destruct Hs as (_ & _ & _ & He).
  unfold updateMealCountDirect.
  destruct (parseInt_or_0 newValue <? 0); [exact H1 |].
  destruct (find (is_meal_record_for memberId (selectedMealDate a))
                 (allData a)) as [r|] eqn:Ef.
  - destruct (parseInt_or_0 newValue =? 0).
    + unfold deleteRecord. rewrite Hlocal, save_and_update.
      cbn [snd after_local_change globals mealEntries].
      intros x y. eapply Nat.le_trans;
        [apply filter_view_of_filter_length |].
      rewrite <- He. apply H1.
    + cbn [useLocalStorage set_mealEntries_view set_globals set_allData].
      rewrite Hlocal. cbn [andb]. rewrite save_and_update_view.
      cbn [after_local_change globals mealEntries].
      rewrite mealEntries_of_assign, <- He.
      intros x y. rewrite filter_assigned_view_length. apply H1.
  - destruct (0 <? parseInt_or_0 newValue); [| exact H1].
    unfold createRecord. rewrite Hlocal, save_and_update.
    cbn [snd after_local_change globals mealEntries with_backendId].
    rewrite mealEntries_of_app, <- He.
    cbn [mealEntries_of flat_map app].
    intros x y. rewrite filter_app. cbn [filter].
    match goal with
    | |- context [same_day x y ?e] => destruct (same_day x y e) eqn:E
    end.
    + apply same_day_eq in E. cbn in E. destruct E as [<- <-].
      rewrite He, (find_record_none _ _ _ Ef). cbn. lia.
    + rewrite app_nil_r. apply H1.
Qed.

Lemma small_app_is_synced : synced small_app.
Proof. repeat split. Qed.

Lemma small_app_has_one_entry_per_day :
  one_entry_per_day (mealEntries (globals small_app)).
Proof.
  intros x y. cbn.
  destruct (same_day x y (meal "A" "2024-03-05" 3)) eqn:E1;
    destruct (same_day x y (meal "B" "2024-03-05" 2)) eqn:E2; cbn;
    try lia.
  apply same_day_eq in E1, E2. cbn in E1, E2.
  destruct E1 as [<- _], E2 as [E _]. discriminate.
Qed.

Lemma the_meal_counter_keeps_one_entry_per_day_witness :
  one_entry_per_day
    (mealEntries (globals (updateMealCountDirect storage_works "A" "" small_app)))
  /\ one_entry_per_day
       (mealEntries (globals (updateMealCountDirect storage_works "C" "2"
                                small_app))).
Proof.
  split; apply the_meal_counter_keeps_one_entry_per_day;
    (reflexivity || exact small_app_is_synced
     || exact small_app_has_one_entry_per_day).
Defined.

(** *** Only the day of the member changes *)

Lemma find_other_in_assigned_view x y memberId date count es :
  (x, y) <> (memberId, date) ->
  find (same_day x y) (assign_meal_count_in_view memberId date count es)
  = find (same_day x y) es.
Proof.
  intros Hne. induction es as [|e es IH]; [reflexivity |]. simpl.
  destruct (same_day memberId date e) eqn:E; simpl.
  - rewrite same_day_with_meal_count.
    destruct (same_day x y e) eqn:E'; [| reflexivity].
    apply same_day_eq in E, E'. exfalso. apply Hne.
    destruct E as [<- <-], E' as [<- <-]. reflexivity.
  - destruct (same_day x y e); [reflexivity | exact IH].
Qed.

Lemma find_app_skip {A} (f : A -> bool) l1 e l2 :
  f e = false -> find f (l1 ++ e :: l2) = find f (l1 ++ l2).
Proof.
  intros H. induction l1 as [|x l1 IH]; simpl.
  - now rewrite H.
  - destruct (f x); [reflexivity | exact IH].
Qed.

Lemma filter_removes_the_one_record (r : StoredRecord) l1 l2 :
  NoDup (map backendId_of (l1 ++ r :: l2)) ->
  filter (fun d => negb (String.eqb (backendId_of d) (backendId_of r)))
         (l1 ++ r :: l2)
  = l1 ++ l2.
Proof.
  intros Hnd. rewrite filter_app. cbn [filter].
  rewrite String.eqb_refl. cbn [negb].
  rewrite map_app in Hnd. cbn [map] in Hnd.
  pose proof (NoDup_remove_2 _ _ _ Hnd) as Hnot.
  rewrite !filter_all; [reflexivity | |];
    intros d Hd; apply negb_true_iff, String.eqb_neq; intros E;
    apply Hnot, in_or_app; [right | left]; rewrite <- E; now apply in_map.
Qed.

(** In local-storage mode, when no two records of the store share a
    __backendId, typing a count for a member on the meals page changes
    getMealCountForDate() for no other member and for no other day. *)
Theorem the_meal_counter_changes_one_day_of_one_member
    (o : Outside) (a : App) (memberId newValue date : string)
    (this this' : Member.t) :
  useLocalStorage a = true -> synced a ->
  NoDup (map backendId_of (allData a)) ->
  let a' := updateMealCountDirect o memberId newValue a in
  Member.id this' = Member.id this ->
  Member.mealEntries this = mealEntries (globals a) ->
  Member.mealEntries this' = mealEntries (globals a') ->
  (Member.id this, date) <> (memberId, selectedMealDate a) ->
  exists n,
    returns (getMealCountForDate this date) (globals a) n /\
    returns (getMealCountForDate this' date) (globals a') n.
Proof.
  intros Hl Hs Hnd a' Hid Hes Hes' Hne.
  eexists. split; [apply getMealCountForDate_returns |].
  pose proof (getMealCountForDate_returns this' date (globals a')) as R.
  rewrite Hid, Hes' in R. rewrite Hes.
  change (fun m => String.eqb (MealEntry.member_id m) (Member.id this)
                   && String.eqb (MealEntry.meal_date m) date)
    with (same_day (Member.id this) date) in *.
  assert (F : find (same_day (Member.id this) date) (mealEntries (globals a'))
              = find (same_day (Member.id this) date)
                     (mealEntries (globals a))).
  { destruct Hs as (_ & _ & _ & He). unfold a', updateMealCountDirect.
    destruct (parseInt_or_0 newValue <? 0); [reflexivity |].
    destruct (find (is_meal_record_for memberId (selectedMealDate a))
                   (allData a)) as [r|] eqn:Ef.
    - destruct (parseInt_or_0 newValue =? 0).
      + rewrite (deleteRecord_local o r a Hl).
        cbn [snd after_local_change globals mealEntries].
        destruct (find_split _ _ _ Ef) as (l1 & l2 & El & _ & Hr).
        rewrite He, El in *.
        rewrite (filter_removes_the_one_record r l1 l2 Hnd).
        destruct r as [m|id b|id p|id e]; try discriminate Hr.
        rewrite !mealEntries_of_app. cbn [mealEntries_of flat_map app].
        symmetry. apply find_app_skip.
        destruct (same_day (Member.id this) date e) eqn:E; [| reflexivity].
        cbn in Hr. apply same_day_eq in E, Hr. exfalso. apply Hne.
        destruct E as [<- <-], Hr as [<- <-]. reflexivity.
      + cbn [useLocalStorage set_mealEntries_view set_globals set_allData].
        rewrite Hl. cbn [andb]. rewrite save_and_update_view.
        cbn [after_local_change globals mealEntries].
        rewrite mealEntries_of_assign, <- He.
        now apply find_other_in_assigned_view.
    - destruct (0 <? parseInt_or_0 newValue); [| reflexivity].
      rewrite (createRecord_local o _ a Hl).
      cbn [snd after_local_change globals mealEntries with_backendId].
      rewrite mealEntries_of_app, <- He. cbn [mealEntries_of flat_map app].
      rewrite !find_is_first_of_filter, filter_app. cbn [filter].
      match goal with
      | |- context [same_day ?x ?y ?e] =>
          destruct (same_day x y e) eqn:E
      end; [| now rewrite app_nil_r].
      apply same_day_eq in E. cbn in E. exfalso. apply Hne.
      destruct E as [<- <-]. reflexivity. }
  rewrite F in R. exact R.
Qed.

Lemma small_store_ids_are_distinct :
  NoDup (map backendId_of (allData small_app)).
Proof. cbn. repeat constructor; cbn; intuition discriminate. Qed.

Lemma the_meal_counter_changes_one_day_of_one_member_witness :
  exists n,
    returns (getMealCountForDate (global_obj (globals small_app) memberB)
               "2024-03-05") (globals small_app) n /\
    returns (getMealCountForDate
               (global_obj (globals (updateMealCountDirect storage_works
                                       "A" "0" small_app)) memberB)
               "2024-03-05")
            (globals (updateMealCountDirect storage_works "A" "0" small_app))
            n.
Proof.
  apply (the_meal_counter_changes_one_day_of_one_member storage_works
           small_app "A" "0" "2024-03-05");
    [reflexivity | exact small_app_is_synced
    | exact small_store_ids_are_distinct | reflexivity | reflexivity
    | reflexivity | discriminate].
Defined.

(** *** Clearing the count *)

Example counts_read_as_zero :
  parseInt_or_0 "" = 0 /\ parseInt_or_0 "abc" = 0 /\ parseInt_or_0 "0" = 0
  /\ parseInt_or_0 "-2" = -2 /\ parseInt_or_0 "2.9" = 2.
Proof. repeat split; reflexivity. Qed.

(** In local-storage mode and with at most one entry per member and day, a
    value that reads as 0 (an empty field, a text that is no number, or 0
    itself) leaves the member without an entry for the selected day:
    getMealCountForDate() is then 0.  A negative count changes nothing. *)
Theorem a_count_of_zero_removes_the_entry
    (o : Outside) (a : App) (memberId newValue : string) (this' : Member.t) :
  let a' := updateMealCountDirect o memberId newValue a in
  (parseInt_or_0 newValue < 0 -> a' = a) /\
  (useLocalStorage a = true -> synced a ->
   one_entry_per_day (mealEntries (globals a)) ->
   parseInt_or_0 newValue = 0 ->
   Member.id this' = memberId ->
   Member.mealEntries this' = mealEntries (globals a') ->
   (forall e, In e (mealEntries (globals a')) ->
              same_day memberId (selectedMealDate a) e = false) /\
   returns (getMealCountForDate this' (selectedMealDate a)) (globals a') 0).
Proof.
  intros a'. split.
  - intros Hneg. unfold a', updateMealCountDirect.
    now rewrite (proj2 (Z.ltb_lt _ _) Hneg).
  - intros Hl (_ & _ & _ & He) H1 Hc Hid Hes.
    assert (F : filter (same_day memberId (selectedMealDate a))
                       (mealEntries (globals a')) = []).
    { unfold a', updateMealCountDirect. rewrite Hc. cbn [Z.ltb Z.eqb Z.compare].
      destruct (find (is_meal_record_for memberId (selectedMealDate a))
                     (allData a)) as [r|] eqn:Ef.
      - rewrite (deleteRecord_local o r a Hl).
        cbn [snd after_local_change globals mealEntries].
        destruct (find_split _ _ _ Ef) as (l1 & l2 & El & Hn & Hr).
        specialize (H1 memberId (selectedMealDate a)).
        rewrite He, El in H1. rewrite El.
        rewrite mealEntries_of_app, filter_app in H1.
        rewrite (no_meal_record_no_entry _ _ l1 Hn) in H1.
        destruct r as [m|id b|id p|id e]; try discriminate Hr.
        cbn [mealEntries_of flat_map app filter] in H1. cbn in Hr.
        rewrite Hr in H1. cbn [app List.length] in H1.
        fold (mealEntries_of l2) in H1.
        assert (H2 : filter (same_day memberId (selectedMealDate a))
                            (mealEntries_of l2) = []).
        { destruct (filter _ (mealEntries_of l2)); [reflexivity |].
          cbn in H1. lia. }
        rewrite filter_app. cbn [filter backendId_of].
        rewrite String.eqb_refl. cbn [negb].
        rewrite mealEntries_of_app, filter_app.
        assert (Z : forall l P,
                  filter (same_day memberId (selectedMealDate a))
                         (mealEntries_of l) = [] ->
                  filter (same_day memberId (selectedMealDate a))
                         (mealEntries_of (filter P l)) = []).
        { intros l P E.
          pose proof (filter_view_of_filter_length
                        (same_day memberId (selectedMealDate a)) P l) as L.
          rewrite E in L.
          destruct (filter _ (mealEntries_of (filter P l)));
            [reflexivity | cbn in L; lia]. }
        rewrite (Z l1), (Z l2);
          [reflexivity | exact H2 | now apply no_meal_record_no_entry].
      - rewrite He. now apply find_record_none. }
    split.
    + intros e Hin.
      destruct (same_day memberId (selectedMealDate a) e) eqn:E;
        [| reflexivity].
      assert (In e (filter (same_day memberId (selectedMealDate a))
                           (mealEntries (globals a'))))
        by (apply filter_In; now split).
      rewrite F in H. destruct H.
    + pose proof (getMealCountForDate_returns this' (selectedMealDate a)
                    (globals a')) as R.
      rewrite Hid, Hes in R.
      change (fun m => String.eqb (MealEntry.member_id m) memberId
                       && String.eqb (MealEntry.meal_date m)
                                     (selectedMealDate a))
        with (same_day memberId (selectedMealDate a)) in R.
      now rewrite (find_of_filter_nil _ _ F) in R.
Qed.

Lemma a_count_of_zero_removes_the_entry_witness :
  returns (getMealCountForDate
             (global_obj (globals (updateMealCountDirect storage_works "A" ""
                                     small_app)) memberA)
             "2024-03-05")
          (globals (updateMealCountDirect storage_works "A" "" small_app)) 0.
Proof.
  apply (proj2 (a_count_of_zero_removes_the_entry storage_works small_app
                  "A" ""
                  (global_obj (globals (updateMealCountDirect storage_works
                                          "A" "" small_app)) memberA))
               eq_refl small_app_is_synced small_app_has_one_entry_per_day
               eq_refl eq_refl eq_refl).
Defined.

(** ** Deleting a member *)

Lemma views_of_filter_by_backendId (b : string) l :
  (forall d, In d l -> backendId_of d = b -> exists m, d = member_record m) ->
  let P := fun d => negb (String.eqb (backendId_of d) b) in
  bills_of (filter P l) = bills_of l /\
  payments_of (filter P l) = payments_of l /\
  mealEntries_of (filter P l) = mealEntries_of l /\
  members_of (filter P l)
  = filter (fun m => negb (String.eqb (MemberData.backendId m) b))
           (members_of l).
Proof.
  intros H P. induction l as [|d l IH]; [now repeat split |].
  destruct IH as (Ib & Ip & Ie & Im); [intros x Hx; apply H; now right |].
  assert (Hd := H d (or_introl eq_refl)).
  unfold P in *. cbn [filter].
  destruct (String.eqb_spec (backendId_of d) b) as [E|E]; cbn [negb].
  - destruct (Hd E) as (m & ->). cbn in E. cbn [members_of flat_map app filter].
    rewrite (proj2 (String.eqb_eq _ _) E). cbn [negb].
    repeat split; assumption.
  - destruct d as [m|id x|id x|id x];
      cbn [bills_of payments_of mealEntries_of members_of flat_map app filter];
      fold (bills_of l) (payments_of l) (mealEntries_of l) (members_of l);
      fold (bills_of (filter P l)); unfold P;
      rewrite ?Ib, ?Ip, ?Ie; cbn in E;
      try rewrite (proj2 (String.eqb_neq _ _) E); cbn [negb];
      repeat split; try assumption; try (f_equal; assumption).
Qed.

(** In local-storage mode, confirming the deletion of a member removes the
    members with that __backendId and nothing else: when no bill, payment
    or meal entry carries the same __backendId, the bills, the payments and
    the meal entries are as before, so the payments and meals of the
    deleted member stay in the store. *)
Theorem deleting_a_member_keeps_their_payments_and_meals
    (o : Outside) (a : App) (backendId : string) :
  useLocalStorage a = true -> synced a ->
  (forall d, In d (allData a) -> backendId_of d = backendId ->
             exists m, d = member_record m) ->
  let a' := confirmDeleteMember o backendId a in
  members (globals a')
  = filter (fun m => negb (String.eqb (MemberData.backendId m) backendId))
           (members (globals a)) /\
  bills (globals a') = bills (globals a) /\
  payments (globals a') = payments (globals a) /\
  mealEntries (globals a') = mealEntries (globals a).
Proof.
  intros Hl (Hm & Hb & Hp & He) Hids a'. unfold a', confirmDeleteMember.
  destruct (find _ (members (globals a))) as [member|] eqn:Ef.
  - apply find_some in Ef as [_ Eid]. apply String.eqb_eq in Eid.
    rewrite (deleteRecord_local o _ a Hl).
    cbn [snd after_local_change globals members bills payments mealEntries
         backendId_of].
    rewrite Eid.
    destruct (views_of_filter_by_backendId backendId (allData a) Hids)
      as (Vb & Vp & Ve & Vm).
    rewrite Vb, Vp, Ve, Vm, Hm, Hb, Hp, He. now repeat split.
  - split; [| now repeat split].
    symmetry. apply filter_all. intros m Hin.
    now rewrite (find_none _ _ Ef m Hin).
Qed.

Lemma deleting_a_member_keeps_their_payments_and_meals_witness :
  members (globals (confirmDeleteMember storage_works "A" house_of_two_app))
  = [memberB]
  /\ payments (globals (confirmDeleteMember storage_works "A" house_of_two_app))
     = payments house_of_two.
Proof.
  destruct (deleting_a_member_keeps_their_payments_and_meals storage_works
              house_of_two_app "A" eq_refl house_of_two_app_is_synced)
    as (Hm & _ & Hp & _).
  - intros d Hd E. cbn in Hd.
    repeat (destruct Hd as [<-|Hd];
            [solve [eexists; reflexivity | cbn in E; congruence] |]).
    destruct Hd.
  - split; [exact Hm | exact Hp].
Defined.

(** ** The limit of 999 records *)

Lemma length_after_local_change o l a :
  List.length (allData (after_local_change o l a)) = List.length l.
Proof. reflexivity. Qed.

(** The member form refuses to add a record once the store holds 999 or
    more, and below that it adds, in local-storage mode, exactly one.  The
    meal counter does not look at the limit: in a store of any size a count
    typed for a member without an entry on the selected day adds a
    record. *)
Theorem the_record_limit_guards_the_member_form_only
    (o : Outside) (a : App) (name phone joinDate memberId newValue : string) :
  ((999 <= List.length (allData a))%nat ->
   handleMemberSubmit o name phone joinDate a = (None, a)) /\
  ((List.length (allData a) < 999)%nat -> useLocalStorage a = true ->
   fst (handleMemberSubmit o name phone joinDate a) = Some true /\
   List.length (allData (snd (handleMemberSubmit o name phone joinDate a)))
   = S (List.length (allData a))) /\
  (useLocalStorage a = true ->
   find (is_meal_record_for memberId (selectedMealDate a)) (allData a) = None ->
   0 < parseInt_or_0 newValue ->
   List.length (allData (updateMealCountDirect o memberId newValue a))
   = S (List.length (allData a))).
Proof.
  split; [| split].
  - intros H. unfold handleMemberSubmit.
    now rewrite (proj2 (Nat.leb_le _ _) H).
  - intros H Hl. unfold handleMemberSubmit.
    rewrite (proj2 (Nat.leb_gt _ _) H), (createRecord_local o _ a Hl).
    cbn [fst snd]. split; [reflexivity |].
    rewrite length_after_local_change, length_app. cbn. lia.
  - intros Hl Ef Hc. unfold updateMealCountDirect.
    rewrite (proj2 (Z.ltb_ge _ _)) by lia.
    rewrite Ef, (proj2 (Z.ltb_lt _ _) Hc), (createRecord_local o _ a Hl).
    cbn [snd]. rewrite length_after_local_change, length_app. cbn. lia.
Qed.

Lemma the_record_limit_guards_the_member_form_only_witness :
  handleMemberSubmit storage_works "Member C" "" "2024-03-15" full_app
  = (None, full_app)
  /\ List.length (allData (updateMealCountDirect storage_works "A" "3" full_app))
     = 1000%nat.
Proof.
  destruct (the_record_limit_guards_the_member_form_only storage_works
              full_app "Member C" "" "2024-03-15" "A" "3") as (H1 & _ & H3).
  split.
  - apply H1. cbn [full_app allData]. rewrite repeat_length. apply le_n.
  - rewrite H3; [reflexivity | reflexivity | | reflexivity].
    vm_compute. reflexivity.
Defined.

(** * Instances *)

Lemma in_month_west_of_Greenwich_first_day_witness :
  in_month new_york (Some 2024) (Some 2) (date_string 2024 3 1) = true.
Proof.
  unfold new_york.
  rewrite (in_month_west_of_Greenwich_first_day (hours (-5)) 2024 2 2024 3);
    [reflexivity | unfold hours, ES.msPerDay; lia | lia | lia | | lia].
  unfold valid_date. cbn. lia.
Defined.

Lemma members_table_status_follows_the_balance_witness :
  exists rows r,
    returns (renderMembersTable dhaka) house_of_two rows /\
    In r rows /\ row_status r = due /\
    (row_totalPaid r < row_totalBills r)%Q.
Proof.
  destruct (members_table_status_follows_the_balance dhaka house_of_two)
    as (rows & Hr & H).
  assert (E : renderMembersTable dhaka house_of_two
              = Some (rows, house_of_two)) by exact Hr.
  vm_compute in E. injection E as <-.
  eexists _, _. split; [exact Hr |].
  split; [right; left; reflexivity |].
  split; [reflexivity |].
  apply (H _ (or_intror (or_introl eq_refl))). reflexivity.
Defined.

Lemma settlement_status_and_advance_witness :
  exists rows r,
    returns (renderSettlement dhaka) house_of_two rows /\
    In r rows /\ status r = due /\ (advancePayment r < 0)%Q.
Proof.
  destruct (settlement_status_and_advance dhaka house_of_two)
    as (rows & report & Hr & _ & _ & H).
  assert (E : renderSettlement dhaka house_of_two
              = Some (rows, house_of_two)) by exact Hr.
  vm_compute in E. injection E as <-.
  eexists _, _. split; [exact Hr |].
  split; [right; left; reflexivity |].
  split; [reflexivity |].
  apply (H _ (or_intror (or_introl eq_refl))). reflexivity.
Defined.
